(** * Crop-target approval workflow: a shallow embedding and its properties

    The repository holds two stacks over the same workflow:
    - the SQLAlchemy stack: [models/crop_target.py], [models/audit_log.py],
      [services/base_service.py], [services/crop_target_service.py] and the
      FastAPI routes of [server_new.py];
    - the Flask stack: [vo/services.py], [bo/services.py] and their schemas.

    Python objects become records, the ORM session becomes a small
    state-and-exception monad in which [commit] is the only step that
    publishes the working copy, and [datetime.utcnow()] / [func.now()]
    become an explicit clock argument. *)

From Stdlib Require Import String Ascii List ZArith QArith Bool Arith Lia
  Permutation.
Import ListNotations.
Local Open Scope string_scope.
Local Open Scope list_scope.
Local Close Scope Q_scope.

Set Implicit Arguments.

(** ** Dynamic values and keyword dictionaries *)

Definition UUID := nat.
Definition DateTime := nat.

(** What a column or a JSON field can hold. *)
Inductive value : Type :=
| VNone
| VStr (s : string)
| VInt (z : Z)
| VNum (q : Q)
| VBool (b : bool)
| VUuid (u : UUID)
| VTime (t : DateTime).

(** Python's [==] on the values above, as SQL compares a column with a
    filter value. *)
Definition value_eqb (a b : value) : bool :=
  match a, b with
  | VNone, VNone => true
  | VStr s, VStr t => String.eqb s t
  | VInt x, VInt y => Z.eqb x y
  | VNum x, VNum y => Qeq_bool x y
  | VBool x, VBool y => Bool.eqb x y
  | VUuid x, VUuid y => Nat.eqb x y
  | VTime x, VTime y => Nat.eqb x y
  | _, _ => false
  end.

Definition is_none (v : value) : bool :=
  match v with VNone => true | _ => false end.

(** A [dict] with string keys, in insertion order. *)
Definition dict := list (string * value).

Fixpoint dict_get (k : string) (d : dict) : option value :=
  match d with
  | [] => None
  | (k', v) :: d' => if String.eqb k k' then Some v else dict_get k d'
  end.

(** [d[k] = v]: replaces in place when the key exists, appends otherwise. *)
Fixpoint dict_set (k : string) (v : value) (d : dict) : dict :=
  match d with
  | [] => [(k, v)]
  | (k', v') :: d' =>
      if String.eqb k k' then (k, v) :: d' else (k', v') :: dict_set k v d'
  end.

(** [{k: v for k, v in d.items() if v is not None}] *)
Definition drop_none (d : dict) : dict :=
  filter (fun kv => negb (is_none (snd kv))) d.

Definition of_opt {A} (inj : A -> value) (o : option A) : value :=
  match o with Some a => inj a | None => VNone end.

(** Truthiness of an optional string: [None] and [""] are falsy. *)
Definition truthy_str (o : option string) : bool :=
  match o with
  | Some s => negb (String.eqb s "")
  | None => false
  end.

(** Truthiness of a number: zero is falsy. *)
Definition truthy_num (q : Q) : bool := negb (Qeq_bool q 0).

(** ** Exceptions *)

Inductive exn : Type :=
| SQLAlchemyError (what : string)
| IntegrityError (what : string)
| ZeroDivisionError
| ValueError (msg : string)
| ValidationError (msg : string)
| AttributeError (name : string)
| KeyError (key : string)
| HTTPException (status_code : nat) (detail : string).

Inductive outcome (A : Type) : Type :=
| Ok (a : A)
| Raise (e : exn).
Arguments Ok {A} a.
Arguments Raise {A} e.

(** ** The session monad

    A request works on one session.  [working] is the session's view (the
    identity map plus everything flushed in the open transaction),
    [committed] is what other sessions and later requests see.  [faulty]
    names the storage steps that fail during this request. *)

Inductive point : Type := AtFlush | AtAudit | AtCommit | AtRefresh.

Definition no_fault : point -> bool := fun _ => false.

Section SessionMonad.
Variable Store : Type.

Record Session : Type := mkSession {
  committed : Store;
  working : Store;
  faulty : point -> bool
}.

Definition M (A : Type) : Type := Session -> outcome A * Session.

Definition ret {A} (a : A) : M A := fun s => (Ok a, s).

Definition bind {A B} (m : M A) (k : A -> M B) : M B :=
  fun s =>
    match m s with
    | (Ok a, s') => k a s'
    | (Raise e, s') => (Raise e, s')
    end.

Definition raise {A} (e : exn) : M A := fun s => (Raise e, s).

(** [try: m except Exception as e: h(e)] *)
Definition try_except {A} (m : M A) (h : exn -> M A) : M A :=
  fun s =>
    match m s with
    | (Ok a, s') => (Ok a, s')
    | (Raise e, s') => h e s'
    end.

Definition get_working : M Store := fun s => (Ok (working s), s).

Definition put_working (w : Store) : M unit :=
  fun s => (Ok tt, mkSession (committed s) w (faulty s)).

(** A storage step that the fault plan can make fail. *)
Definition storage (p : point) (what : string) : M unit :=
  fun s => if faulty s p then (Raise (SQLAlchemyError what), s) else (Ok tt, s).

(** [db.flush()] *)
Definition flush : M unit := storage AtFlush "flush".

(** [db.commit()]: publishes the working copy, or fails leaving the
    committed store as it was. *)
Definition commit : M unit :=
  fun s =>
    if faulty s AtCommit then (Raise (SQLAlchemyError "commit"), s)
    else (Ok tt, mkSession (working s) (working s) (faulty s)).

(** [db.rollback()] *)
Definition rollback : M unit :=
  fun s => (Ok tt, mkSession (committed s) (committed s) (faulty s)).

(** [get_db] of [core/database.py]: open a session on the store, run the
    handler, roll back when it raised, close.  What remains is the
    committed store. *)
Definition run {A} (m : M A) (f : point -> bool) (db : Store)
  : outcome A * Store :=
  match m (mkSession db db f) with
  | (Ok a, s) => (Ok a, committed s)
  | (Raise e, s) =>
      match rollback s with
      | (_, s') => (Raise e, committed s')
      end
  end.
End SessionMonad.

Arguments ret {Store A} a.
Arguments raise {Store A} e.
Arguments flush {Store}.
Arguments commit {Store}.
Arguments rollback {Store}.
Arguments get_working {Store}.
Arguments storage {Store} p what.

Declare Scope session_scope.
Delimit Scope session_scope with session.
Notation "x <- m ;; k" := (bind m (fun x => k))
  (at level 61, m at next level, right associativity) : session_scope.
Notation "m ;;; k" := (bind m (fun _ => k))
  (at level 61, right associativity) : session_scope.

(** ** [models/base.py] and [models/crop_target.py]

    One record per row, with the columns of [BaseModel] first.  A nullable
    column is an [option]; [Numeric] columns are rationals. *)

Module CropTarget.

Record t : Type := mk {
  id : UUID;
  created_at : DateTime;
  updated_at : DateTime;
  is_active : bool;
  year : Z;
  season : string;
  district : string;
  state : string;
  village : string;
  crop_name : string;
  crop_variety : option string;
  crop_category : option string;
  cultivable_area : Q;
  target_area : Q;
  target_yield : option Q;
  expected_production : option Q;
  status : string;
  submitted_by : UUID;
  submitted_at : option DateTime;
  approved_by : option UUID;
  approved_at : option DateTime;
  remarks : option string;
  rejection_reason : option string;
  internal_notes : option string;
  priority : string
}.

Definition set_id (v : UUID) (r : t) : t :=
  mk v (created_at r) (updated_at r) (is_active r) (year r) (season r)
     (district r) (state r) (village r) (crop_name r) (crop_variety r)
     (crop_category r) (cultivable_area r) (target_area r)
     (target_yield r) (expected_production r) (status r)
     (submitted_by r) (submitted_at r) (approved_by r) (approved_at r)
     (remarks r) (rejection_reason r) (internal_notes r) (priority r).

Definition set_created_at (v : DateTime) (r : t) : t :=
  mk (id r) v (updated_at r) (is_active r) (year r) (season r)
     (district r) (state r) (village r) (crop_name r) (crop_variety r)
     (crop_category r) (cultivable_area r) (target_area r)
     (target_yield r) (expected_production r) (status r)
     (submitted_by r) (submitted_at r) (approved_by r) (approved_at r)
     (remarks r) (rejection_reason r) (internal_notes r) (priority r).

Definition set_updated_at (v : DateTime) (r : t) : t :=
  mk (id r) (created_at r) v (is_active r) (year r) (season r)
     (district r) (state r) (village r) (crop_name r) (crop_variety r)
     (crop_category r) (cultivable_area r) (target_area r)
     (target_yield r) (expected_production r) (status r)
     (submitted_by r) (submitted_at r) (approved_by r) (approved_at r)
     (remarks r) (rejection_reason r) (internal_notes r) (priority r).

Definition set_is_active (v : bool) (r : t) : t :=
  mk (id r) (created_at r) (updated_at r) v (year r) (season r)
     (district r) (state r) (village r) (crop_name r) (crop_variety r)
     (crop_category r) (cultivable_area r) (target_area r)
     (target_yield r) (expected_production r) (status r)
     (submitted_by r) (submitted_at r) (approved_by r) (approved_at r)
     (remarks r) (rejection_reason r) (internal_notes r) (priority r).

Definition set_year (v : Z) (r : t) : t :=
  mk (id r) (created_at r) (updated_at r) (is_active r) v (season r)
     (district r) (state r) (village r) (crop_name r) (crop_variety r)
     (crop_category r) (cultivable_area r) (target_area r)
     (target_yield r) (expected_production r) (status r)
     (submitted_by r) (submitted_at r) (approved_by r) (approved_at r)
     (remarks r) (rejection_reason r) (internal_notes r) (priority r).

Definition set_season (v : string) (r : t) : t :=
  mk (id r) (created_at r) (updated_at r) (is_active r) (year r) v
     (district r) (state r) (village r) (crop_name r) (crop_variety r)
     (crop_category r) (cultivable_area r) (target_area r)
     (target_yield r) (expected_production r) (status r)
     (submitted_by r) (submitted_at r) (approved_by r) (approved_at r)
     (remarks r) (rejection_reason r) (internal_notes r) (priority r).

Definition set_district (v : string) (r : t) : t :=
  mk (id r) (created_at r) (updated_at r) (is_active r) (year r)
     (season r) v (state r) (village r) (crop_name r) (crop_variety r)
     (crop_category r) (cultivable_area r) (target_area r)
     (target_yield r) (expected_production r) (status r)
     (submitted_by r) (submitted_at r) (approved_by r) (approved_at r)
     (remarks r) (rejection_reason r) (internal_notes r) (priority r).

Definition set_state (v : string) (r : t) : t :=
  mk (id r) (created_at r) (updated_at r) (is_active r) (year r)
     (season r) (district r) v (village r) (crop_name r)
     (crop_variety r) (crop_category r) (cultivable_area r)
     (target_area r) (target_yield r) (expected_production r) (status r)
     (submitted_by r) (submitted_at r) (approved_by r) (approved_at r)
     (remarks r) (rejection_reason r) (internal_notes r) (priority r).

Definition set_village (v : string) (r : t) : t :=
  mk (id r) (created_at r) (updated_at r) (is_active r) (year r)
     (season r) (district r) (state r) v (crop_name r) (crop_variety r)
     (crop_category r) (cultivable_area r) (target_area r)
     (target_yield r) (expected_production r) (status r)
     (submitted_by r) (submitted_at r) (approved_by r) (approved_at r)
     (remarks r) (rejection_reason r) (internal_notes r) (priority r).

Definition set_crop_name (v : string) (r : t) : t :=
  mk (id r) (created_at r) (updated_at r) (is_active r) (year r)
     (season r) (district r) (state r) (village r) v (crop_variety r)
     (crop_category r) (cultivable_area r) (target_area r)
     (target_yield r) (expected_production r) (status r)
     (submitted_by r) (submitted_at r) (approved_by r) (approved_at r)
     (remarks r) (rejection_reason r) (internal_notes r) (priority r).

Definition set_crop_variety (v : option string) (r : t) : t :=
  mk (id r) (created_at r) (updated_at r) (is_active r) (year r)
     (season r) (district r) (state r) (village r) (crop_name r) v
     (crop_category r) (cultivable_area r) (target_area r)
     (target_yield r) (expected_production r) (status r)
     (submitted_by r) (submitted_at r) (approved_by r) (approved_at r)
     (remarks r) (rejection_reason r) (internal_notes r) (priority r).

Definition set_crop_category (v : option string) (r : t) : t :=
  mk (id r) (created_at r) (updated_at r) (is_active r) (year r)
     (season r) (district r) (state r) (village r) (crop_name r)
     (crop_variety r) v (cultivable_area r) (target_area r)
     (target_yield r) (expected_production r) (status r)
     (submitted_by r) (submitted_at r) (approved_by r) (approved_at r)
     (remarks r) (rejection_reason r) (internal_notes r) (priority r).

Definition set_cultivable_area (v : Q) (r : t) : t :=
  mk (id r) (created_at r) (updated_at r) (is_active r) (year r)
     (season r) (district r) (state r) (village r) (crop_name r)
     (crop_variety r) (crop_category r) v (target_area r)
     (target_yield r) (expected_production r) (status r)
     (submitted_by r) (submitted_at r) (approved_by r) (approved_at r)
     (remarks r) (rejection_reason r) (internal_notes r) (priority r).

Definition set_target_area (v : Q) (r : t) : t :=
  mk (id r) (created_at r) (updated_at r) (is_active r) (year r)
     (season r) (district r) (state r) (village r) (crop_name r)
     (crop_variety r) (crop_category r) (cultivable_area r) v
     (target_yield r) (expected_production r) (status r)
     (submitted_by r) (submitted_at r) (approved_by r) (approved_at r)
     (remarks r) (rejection_reason r) (internal_notes r) (priority r).

Definition set_target_yield (v : option Q) (r : t) : t :=
  mk (id r) (created_at r) (updated_at r) (is_active r) (year r)
     (season r) (district r) (state r) (village r) (crop_name r)
     (crop_variety r) (crop_category r) (cultivable_area r)
     (target_area r) v (expected_production r) (status r)
     (submitted_by r) (submitted_at r) (approved_by r) (approved_at r)
     (remarks r) (rejection_reason r) (internal_notes r) (priority r).

Definition set_expected_production (v : option Q) (r : t) : t :=
  mk (id r) (created_at r) (updated_at r) (is_active r) (year r)
     (season r) (district r) (state r) (village r) (crop_name r)
     (crop_variety r) (crop_category r) (cultivable_area r)
     (target_area r) (target_yield r) v (status r) (submitted_by r)
     (submitted_at r) (approved_by r) (approved_at r) (remarks r)
     (rejection_reason r) (internal_notes r) (priority r).

Definition set_status (v : string) (r : t) : t :=
  mk (id r) (created_at r) (updated_at r) (is_active r) (year r)
     (season r) (district r) (state r) (village r) (crop_name r)
     (crop_variety r) (crop_category r) (cultivable_area r)
     (target_area r) (target_yield r) (expected_production r) v
     (submitted_by r) (submitted_at r) (approved_by r) (approved_at r)
     (remarks r) (rejection_reason r) (internal_notes r) (priority r).

Definition set_submitted_by (v : UUID) (r : t) : t :=
  mk (id r) (created_at r) (updated_at r) (is_active r) (year r)
     (season r) (district r) (state r) (village r) (crop_name r)
     (crop_variety r) (crop_category r) (cultivable_area r)
     (target_area r) (target_yield r) (expected_production r) (status r)
     v (submitted_at r) (approved_by r) (approved_at r) (remarks r)
     (rejection_reason r) (internal_notes r) (priority r).

Definition set_submitted_at (v : option DateTime) (r : t) : t :=
  mk (id r) (created_at r) (updated_at r) (is_active r) (year r)
     (season r) (district r) (state r) (village r) (crop_name r)
     (crop_variety r) (crop_category r) (cultivable_area r)
     (target_area r) (target_yield r) (expected_production r) (status r)
     (submitted_by r) v (approved_by r) (approved_at r) (remarks r)
     (rejection_reason r) (internal_notes r) (priority r).

Definition set_approved_by (v : option UUID) (r : t) : t :=
  mk (id r) (created_at r) (updated_at r) (is_active r) (year r)
     (season r) (district r) (state r) (village r) (crop_name r)
     (crop_variety r) (crop_category r) (cultivable_area r)
     (target_area r) (target_yield r) (expected_production r) (status r)
     (submitted_by r) (submitted_at r) v (approved_at r) (remarks r)
     (rejection_reason r) (internal_notes r) (priority r).

Definition set_approved_at (v : option DateTime) (r : t) : t :=
  mk (id r) (created_at r) (updated_at r) (is_active r) (year r)
     (season r) (district r) (state r) (village r) (crop_name r)
     (crop_variety r) (crop_category r) (cultivable_area r)
     (target_area r) (target_yield r) (expected_production r) (status r)
     (submitted_by r) (submitted_at r) (approved_by r) v (remarks r)
     (rejection_reason r) (internal_notes r) (priority r).

Definition set_remarks (v : option string) (r : t) : t :=
  mk (id r) (created_at r) (updated_at r) (is_active r) (year r)
     (season r) (district r) (state r) (village r) (crop_name r)
     (crop_variety r) (crop_category r) (cultivable_area r)
     (target_area r) (target_yield r) (expected_production r) (status r)
     (submitted_by r) (submitted_at r) (approved_by r) (approved_at r) v
     (rejection_reason r) (internal_notes r) (priority r).

Definition set_rejection_reason (v : option string) (r : t) : t :=
  mk (id r) (created_at r) (updated_at r) (is_active r) (year r)
     (season r) (district r) (state r) (village r) (crop_name r)
     (crop_variety r) (crop_category r) (cultivable_area r)
     (target_area r) (target_yield r) (expected_production r) (status r)
     (submitted_by r) (submitted_at r) (approved_by r) (approved_at r)
     (remarks r) v (internal_notes r) (priority r).

Definition set_internal_notes (v : option string) (r : t) : t :=
  mk (id r) (created_at r) (updated_at r) (is_active r) (year r)
     (season r) (district r) (state r) (village r) (crop_name r)
     (crop_variety r) (crop_category r) (cultivable_area r)
     (target_area r) (target_yield r) (expected_production r) (status r)
     (submitted_by r) (submitted_at r) (approved_by r) (approved_at r)
     (remarks r) (rejection_reason r) v (priority r).

Definition set_priority (v : string) (r : t) : t :=
  mk (id r) (created_at r) (updated_at r) (is_active r) (year r)
     (season r) (district r) (state r) (village r) (crop_name r)
     (crop_variety r) (crop_category r) (cultivable_area r)
     (target_area r) (target_yield r) (expected_production r) (status r)
     (submitted_by r) (submitted_at r) (approved_by r) (approved_at r)
     (remarks r) (rejection_reason r) (internal_notes r) v.

(** [getattr(r, name)] on the mapped columns; [None] when the model has
    no such column. *)
Definition getattr (r : t) (name : string) : option value :=
  if String.eqb name "id" then Some (VUuid (id r)) else
  if String.eqb name "created_at" then Some (VTime (created_at r)) else
  if String.eqb name "updated_at" then Some (VTime (updated_at r)) else
  if String.eqb name "is_active" then Some (VBool (is_active r)) else
  if String.eqb name "year" then Some (VInt (year r)) else
  if String.eqb name "season" then Some (VStr (season r)) else
  if String.eqb name "district" then Some (VStr (district r)) else
  if String.eqb name "state" then Some (VStr (state r)) else
  if String.eqb name "village" then Some (VStr (village r)) else
  if String.eqb name "crop_name" then Some (VStr (crop_name r)) else
  if String.eqb name "crop_variety" then Some (of_opt VStr (crop_variety r)) else
  if String.eqb name "crop_category" then Some (of_opt VStr (crop_category r)) else
  if String.eqb name "cultivable_area" then Some (VNum (cultivable_area r)) else
  if String.eqb name "target_area" then Some (VNum (target_area r)) else
  if String.eqb name "target_yield" then Some (of_opt VNum (target_yield r)) else
  if String.eqb name "expected_production" then Some (of_opt VNum (expected_production r)) else
  if String.eqb name "status" then Some (VStr (status r)) else
  if String.eqb name "submitted_by" then Some (VUuid (submitted_by r)) else
  if String.eqb name "submitted_at" then Some (of_opt VTime (submitted_at r)) else
  if String.eqb name "approved_by" then Some (of_opt VUuid (approved_by r)) else
  if String.eqb name "approved_at" then Some (of_opt VTime (approved_at r)) else
  if String.eqb name "remarks" then Some (of_opt VStr (remarks r)) else
  if String.eqb name "rejection_reason" then Some (of_opt VStr (rejection_reason r)) else
  if String.eqb name "internal_notes" then Some (of_opt VStr (internal_notes r)) else
  if String.eqb name "priority" then Some (VStr (priority r)) else
  None.

(** [setattr(r, name, v)]; [None] when the column cannot take the value
    (the flush would refuse the row) or the model has no such column. *)
Definition setattr (r : t) (name : string) (v : value) : option t :=
  if String.eqb name "id" then
    match v with VUuid x => Some (set_id x r) | _ => None end
  else
  if String.eqb name "created_at" then
    match v with VTime x => Some (set_created_at x r) | _ => None end
  else
  if String.eqb name "updated_at" then
    match v with VTime x => Some (set_updated_at x r) | _ => None end
  else
  if String.eqb name "is_active" then
    match v with VBool x => Some (set_is_active x r) | _ => None end
  else
  if String.eqb name "year" then
    match v with VInt x => Some (set_year x r) | _ => None end
  else
  if String.eqb name "season" then
    match v with VStr x => Some (set_season x r) | _ => None end
  else
  if String.eqb name "district" then
    match v with VStr x => Some (set_district x r) | _ => None end
  else
  if String.eqb name "state" then
    match v with VStr x => Some (set_state x r) | _ => None end
  else
  if String.eqb name "village" then
    match v with VStr x => Some (set_village x r) | _ => None end
  else
  if String.eqb name "crop_name" then
    match v with VStr x => Some (set_crop_name x r) | _ => None end
  else
  if String.eqb name "crop_variety" then
    match v with VStr x => Some (set_crop_variety (Some x) r) | VNone => Some (set_crop_variety None r) | _ => None end
  else
  if String.eqb name "crop_category" then
    match v with VStr x => Some (set_crop_category (Some x) r) | VNone => Some (set_crop_category None r) | _ => None end
  else
  if String.eqb name "cultivable_area" then
    match v with VNum x => Some (set_cultivable_area x r) | VInt x => Some (set_cultivable_area (inject_Z x) r) | _ => None end
  else
  if String.eqb name "target_area" then
    match v with VNum x => Some (set_target_area x r) | VInt x => Some (set_target_area (inject_Z x) r) | _ => None end
  else
  if String.eqb name "target_yield" then
    match v with VNum x => Some (set_target_yield (Some x) r) | VInt x => Some (set_target_yield (Some (inject_Z x)) r) | VNone => Some (set_target_yield None r) | _ => None end
  else
  if String.eqb name "expected_production" then
    match v with VNum x => Some (set_expected_production (Some x) r) | VInt x => Some (set_expected_production (Some (inject_Z x)) r) | VNone => Some (set_expected_production None r) | _ => None end
  else
  if String.eqb name "status" then
    match v with VStr x => Some (set_status x r) | _ => None end
  else
  if String.eqb name "submitted_by" then
    match v with VUuid x => Some (set_submitted_by x r) | _ => None end
  else
  if String.eqb name "submitted_at" then
    match v with VTime x => Some (set_submitted_at (Some x) r) | VNone => Some (set_submitted_at None r) | _ => None end
  else
  if String.eqb name "approved_by" then
    match v with VUuid x => Some (set_approved_by (Some x) r) | VNone => Some (set_approved_by None r) | _ => None end
  else
  if String.eqb name "approved_at" then
    match v with VTime x => Some (set_approved_at (Some x) r) | VNone => Some (set_approved_at None r) | _ => None end
  else
  if String.eqb name "remarks" then
    match v with VStr x => Some (set_remarks (Some x) r) | VNone => Some (set_remarks None r) | _ => None end
  else
  if String.eqb name "rejection_reason" then
    match v with VStr x => Some (set_rejection_reason (Some x) r) | VNone => Some (set_rejection_reason None r) | _ => None end
  else
  if String.eqb name "internal_notes" then
    match v with VStr x => Some (set_internal_notes (Some x) r) | VNone => Some (set_internal_notes None r) | _ => None end
  else
  if String.eqb name "priority" then
    match v with VStr x => Some (set_priority x r) | _ => None end
  else
  None.

Definition columns : list string :=
  ["id"; "created_at"; "updated_at"; "is_active"; "year"; "season"; "district"; "state"; "village"; "crop_name"; "crop_variety"; "crop_category"; "cultivable_area"; "target_area"; "target_yield"; "expected_production"; "status"; "submitted_by"; "submitted_at"; "approved_by"; "approved_at"; "remarks"; "rejection_reason"; "internal_notes"; "priority"].

Definition hasattr (r : t) (name : string) : bool :=
  match getattr r name with Some _ => true | None => false end.

(** [BaseModel.to_dict] *)
Definition to_dict (r : t) : dict :=
  flat_map
    (fun c => match getattr r c with Some v => [(c, v)] | None => [] end)
    columns.

(** The unit of work sends an UPDATE only for an object on which some
    column compares different from the loaded row. *)
Definition same_columns (a b : t) : bool :=
  forallb
    (fun c =>
       match getattr a c, getattr b c with
       | Some x, Some y => value_eqb x y
       | _, _ => false
       end)
    columns.

(** The row as the INSERT leaves it when no keyword is given: [uuid4] for
    the key, [func.now()] for both timestamps, [is_active = True],
    [status = 'draft'], [priority = 'medium'], every nullable column
    NULL.  The columns that are NOT NULL without a default hold
    placeholders here and are demanded by [init]. *)
Definition blank (fresh : UUID) (now : DateTime) : t :=
  mk fresh now now true 0%Z "" "" "" "" "" None None 0%Q 0%Q None None
     "draft" 0%nat None None None None None None "medium".

Definition required : list string :=
  ["year"; "season"; "district"; "state"; "village"; "crop_name";
   "cultivable_area"; "target_area"; "submitted_by"].

Definition given (kw : dict) (k : string) : bool :=
  match dict_get k kw with
  | Some v => negb (is_none v)
  | None => false
  end.

Fixpoint set_all (r : t) (kw : dict) : option t :=
  match kw with
  | [] => Some r
  | (k, v) :: kw' =>
      match setattr r k v with
      | Some r' => set_all r' kw'
      | None => None
      end
  end.

(** The constructor called with the keywords [kw], followed by the
    column defaults of the INSERT.
    [None] stands for the row the database refuses: a keyword that is no
    column, a value of the wrong type, or a missing NOT NULL column. *)
Definition init (fresh : UUID) (now : DateTime) (kw : dict) : option t :=
  if forallb (given kw) required then set_all (blank fresh now) kw
  else None.

(** [def submit_for_approval(self)] *)
Definition submit_for_approval (now : DateTime) (r : t) : t :=
  if String.eqb (status r) "draft" then
    set_submitted_at (Some now) (set_status "submitted" r)
  else r.

(** [def approve(self, approver_id, remarks=None)] *)
Definition approve (now : DateTime) (approver_id : UUID)
           (rem : option string) (r : t) : t :=
  let r1 := set_status "approved" r in
  let r2 := set_approved_by (Some approver_id) r1 in
  let r3 := set_approved_at (Some now) r2 in
  if truthy_str rem then set_remarks rem r3 else r3.

(** [def reject(self, approver_id, reason)] *)
Definition reject (now : DateTime) (approver_id : UUID) (reason : string)
           (r : t) : t :=
  let r1 := set_status "rejected" r in
  let r2 := set_approved_by (Some approver_id) r1 in
  let r3 := set_approved_at (Some now) r2 in
  set_rejection_reason (Some reason) r3.

(** [@property is_editable] *)
Definition is_editable (r : t) : bool := String.eqb (status r) "draft".

(** [@property is_pending_approval] *)
Definition is_pending_approval (r : t) : bool :=
  String.eqb (status r) "submitted" || String.eqb (status r) "pending".

(** [def calculate_metrics(self)].  The product of the two floats is taken
    over the rationals and kept in lowest terms. *)
Definition calculate_metrics (r : t) : t :=
  match target_yield r with
  | Some y =>
      if truthy_num (target_area r) && truthy_num y then
        set_expected_production (Some (Qred (target_area r * y))) r
      else r
  | None => r
  end.
End CropTarget.

(** ** [models/audit_log.py] *)

Module AuditLog.
Record t : Type := mk {
  id : UUID;
  created_at : DateTime;
  updated_at : DateTime;
  is_active : bool;
  user_id : option UUID;
  session_id : option string;
  action : string;
  resource_type : string;
  resource_id : option UUID;
  old_values : option dict;
  new_values : option dict;
  ip_address : option string;
  user_agent : option string;
  request_method : option string;
  request_path : option string;
  description : option string;
  metadata : option dict;
  success : string;
  error_message : option string
}.

(** The [cls(...)] call of [log_action], with the column defaults of the
    INSERT. *)
Definition new (fresh : UUID) (now : DateTime) (user : option UUID)
           (act rtype : string) (rid : option UUID)
           (old new_ : option dict) (ip agent descr : option string)
           (ok : bool) : t :=
  mk fresh now now true user None act rtype rid old new_ ip agent None
     None descr None (if ok then "true" else "false") None.
End AuditLog.

(** ** The store and the request environment *)

Record DB : Type := mkDB {
  crop_targets : list CropTarget.t;
  audit_logs : list AuditLog.t
}.

(** What a request draws from outside: the clock and the keys that
    [uuid.uuid4] hands out for a new crop target and a new audit row. *)
Record Env : Type := mkEnv {
  now : DateTime;
  new_id : UUID;
  new_audit_id : UUID
}.

Local Open Scope session_scope.

Definition rows : M DB (list CropTarget.t) :=
  w <- get_working ;; ret (crop_targets w).

(** [db.add(obj)] for a new crop target.  The primary key refuses a row
    whose [id] is already in the table. *)
Definition add_target (r : CropTarget.t) : M DB unit :=
  w <- get_working ;;
  if existsb (fun x => Nat.eqb (CropTarget.id x) (CropTarget.id r))
             (crop_targets w)
  then raise (IntegrityError "crop_targets_pkey")
  else put_working (mkDB (crop_targets w ++ [r]) (audit_logs w)).

(** The identity map noticing that a loaded object was changed: the row is
    rewritten in the transaction and [updated_at], declared with
    [onupdate=func.now()], takes the time of the UPDATE.  Nothing is sent
    when no column differs. *)
Definition write_back (e : Env) (old new_ : CropTarget.t) : M DB unit :=
  if CropTarget.same_columns old new_ then ret tt
  else
    w <- get_working ;;
    put_working
      (mkDB
         (map (fun r =>
                 if Nat.eqb (CropTarget.id r) (CropTarget.id old)
                 then CropTarget.set_updated_at (now e) new_
                 else r)
              (crop_targets w))
         (audit_logs w)).

(** [db.refresh(obj)]: the row is read again by its key. *)
Definition refresh (i : UUID) : M DB CropTarget.t :=
  storage AtRefresh "refresh" ;;;
  w <- get_working ;;
  match find (fun r => Nat.eqb (CropTarget.id r) i) (crop_targets w) with
  | Some r => ret r
  | None => raise (SQLAlchemyError "refresh")
  end.

(** [AuditLog.log_action(db_session, ...)] *)
Definition log_action (e : Env) (user : option UUID) (act rtype : string)
           (rid : option UUID) (old new_ : option dict)
           (ip agent descr : option string) (ok : bool)
  : M DB AuditLog.t :=
  let audit_log :=
    AuditLog.new (new_audit_id e) (now e) user act rtype rid old new_ ip
                 agent descr ok in
  storage AtAudit "audit" ;;;
  w <- get_working ;;
  put_working (mkDB (crop_targets w) (audit_logs w ++ [audit_log])) ;;;
  ret audit_log.

(** ** Ordering and slicing of query results *)

Fixpoint insert_by {A} (le : A -> A -> bool) (x : A) (l : list A) : list A :=
  match l with
  | [] => [x]
  | y :: l' => if le x y then x :: l else y :: insert_by le x l'
  end.

Fixpoint sort_by {A} (le : A -> A -> bool) (l : list A) : list A :=
  match l with
  | [] => []
  | x :: l' => insert_by le x (sort_by le l')
  end.

Definition opt_leb {A} (le : A -> A -> bool) (a b : option A) : bool :=
  match a, b with
  | _, None => true
  | None, Some _ => false
  | Some x, Some y => le x y
  end.

Definition string_leb (s t : string) : bool :=
  match String.compare s t with Gt => false | _ => true end.

Definition Q_leb (x y : Q) : bool :=
  match Qcompare x y with Gt => false | _ => true end.

(** Order of one column's values; NULL sorts last in ascending order. *)
Definition value_leb (a b : value) : bool :=
  match a, b with
  | _, VNone => true
  | VNone, _ => false
  | VStr x, VStr y => string_leb x y
  | VInt x, VInt y => Z.leb x y
  | VNum x, VNum y => Q_leb x y
  | VBool x, VBool y => implb x y
  | VUuid x, VUuid y => Nat.leb x y
  | VTime x, VTime y => Nat.leb x y
  | _, _ => true
  end.

Definition asc {A} (key : A -> value) (a b : A) : bool :=
  value_leb (key a) (key b).

Definition desc {A} (key : A -> value) (a b : A) : bool :=
  value_leb (key b) (key a).

(** [query.offset(skip).limit(limit).all()]; the database refuses a
    negative offset or limit. *)
Definition offset_limit {A} (skip limit : Z) (l : list A)
  : M DB (list A) :=
  if (skip <? 0)%Z || (limit <? 0)%Z then
    raise (SQLAlchemyError "offset/limit")
  else ret (firstn (Z.to_nat limit) (skipn (Z.to_nat skip) l)).

(** ** [services/base_service.py], with [self.model = CropTarget] *)

Module BaseService.
Import CropTarget.

(** [hasattr(self.model, field)] is decided on the mapped columns. *)
Definition model_has (field : string) : bool :=
  existsb (String.eqb field) columns.

Definition column (field : string) (r : t) : value :=
  match getattr r field with Some v => v | None => VNone end.

(** [def get(self, db, id)] *)
Definition get (i : UUID) : M DB (option t) :=
  l <- rows ;;
  ret (find (fun r => Nat.eqb (id r) i && Bool.eqb (is_active r) true) l).


(** The loop [for field, value in filters.items()] of [get_all] and
    [count]. *)
Fixpoint apply_filters (filters : dict) (l : list t) : list t :=
  match filters with
  | [] => l
  | (field, v) :: fs =>
      if model_has field && negb (is_none v) then
        apply_filters fs (filter (fun r => value_eqb (column field r) v) l)
      else apply_filters fs l
  end.

Definition filtered (filters : option dict) (l : list t) : list t :=
  let active := filter (fun r => Bool.eqb (is_active r) true) l in
  match filters with
  | Some fs => apply_filters fs active
  | None => active
  end.

(** The ordering branch of [get_all]: a leading ['-'] asks for descending
    order, no [order_by] means newest first. *)
Definition ordered (order_by : option string) (l : list t)
  : M DB (list t) :=
  match order_by with
  | Some (String "-"%char name) =>
      if model_has name then ret (sort_by (desc (column name)) l)
      else raise (AttributeError name)
  | Some EmptyString | None =>
      ret (sort_by (desc (column "created_at")) l)
  | Some name =>
      if model_has name then ret (sort_by (asc (column name)) l)
      else raise (AttributeError name)
  end.

(** [def get_all(self, db, skip=0, limit=100, filters=None, order_by=None)] *)
Definition get_all (skip limit : Z) (filters : option dict)
           (order_by : option string) : M DB (list t) :=
  l <- rows ;;
  q <- ordered order_by (filtered filters l) ;;
  offset_limit skip limit q.

(** [def count(self, db, filters=None)] *)
Definition count (filters : option dict) : M DB Z :=
  l <- rows ;;
  ret (Z.of_nat (length (filtered filters l))).

(** The loop [for field, value in update_data.items()] of [update]. *)
Fixpoint assign (r : t) (update_data : dict) : option t :=
  match update_data with
  | [] => Some r
  | (field, v) :: rest =>
      if hasattr r field then
        match setattr r field v with
        | Some r' => assign r' rest
        | None => None
        end
      else assign r rest
  end.

Definition audit_if (e : Env) (user_id : option UUID) (act : string)
           (rid : UUID) (old new_ : option dict) : M DB unit :=
  match user_id with
  | Some u =>
      log_action e (Some u) act "CropTarget" (Some rid) old new_ None
                 None None true ;;;
      ret tt
  | None => ret tt
  end.

(** [def create(self, db, obj_data, user_id=None)] *)
Definition create (e : Env) (obj_data : dict) (user_id : option UUID)
  : M DB t :=
  let create_data := drop_none obj_data in
  match init (new_id e) (now e) create_data with
  | None => raise (IntegrityError "crop_targets")
  | Some db_obj =>
      add_target db_obj ;;;
      flush ;;;
      audit_if e user_id "CREATE" (id db_obj) None (Some create_data) ;;;
      commit ;;;
      refresh (id db_obj)
  end.

(** [def update(self, db, id, obj_data, user_id=None)] *)
Definition update (e : Env) (i : UUID) (obj_data : dict)
           (user_id : option UUID) : M DB (option t) :=
  found <- get i ;;
  match found with
  | None => ret None
  | Some db_obj =>
      let old_values := to_dict db_obj in
      let update_data := drop_none obj_data in
      match assign db_obj update_data with
      | None => raise (SQLAlchemyError "flush")
      | Some changed =>
          write_back e db_obj changed ;;;
          flush ;;;
          audit_if e user_id "UPDATE" (id db_obj) (Some old_values)
                   (Some update_data) ;;;
          commit ;;;
          r <- refresh (id db_obj) ;;
          ret (Some r)
      end
  end.


Record Page : Type := mkPage {
  items : list t;
  total : Z;
  page : Z;
  per_page : Z;
  pages : Z;
  has_next : bool;
  has_prev : bool
}.

(** [def get_paginated(self, db, page=1, per_page=20, filters=None,
    order_by=None)] *)
Definition get_paginated (pg pp : Z) (filters : option dict)
           (order_by : option string) : M DB Page :=
  let skip := ((pg - 1) * pp)%Z in
  its <- get_all skip pp filters order_by ;;
  tot <- count filters ;;
  if (pp =? 0)%Z then raise ZeroDivisionError
  else
    ret (mkPage its tot pg pp ((tot + pp - 1) / pp)%Z
                (pg * pp <? tot)%Z (1 <? pg)%Z).
End BaseService.

(** ** [services/crop_target_service.py] *)

Module CropTargetService.
Import CropTarget.

Definition lower (c : ascii) : ascii :=
  let n := nat_of_ascii c in
  if Nat.leb 65 n && Nat.leb n 90 then ascii_of_nat (n + 32) else c.

(** SQL [ILIKE]: ['%'] matches any run of characters, ['_'] any one
    character, every other character itself without regard to case. *)
Fixpoint ilike_chars (p s : list ascii) : bool :=
  match p with
  | [] => match s with [] => true | _ => false end
  | c :: p' =>
      if Ascii.eqb c "%" then
        (fix any (u : list ascii) : bool :=
           ilike_chars p' u
           || match u with [] => false | _ :: u' => any u' end) s
      else
        match s with
        | [] => false
        | d :: s' =>
            (Ascii.eqb c "_" || Ascii.eqb (lower c) (lower d))
            && ilike_chars p' s'
        end
  end.

Definition ilike (s pattern : string) : bool :=
  ilike_chars (list_ascii_of_string pattern) (list_ascii_of_string s).

(** Truthiness of [filters.get(key)]. *)
Definition truthy (v : option value) : bool :=
  match v with
  | Some (VStr s) => negb (String.eqb s "")
  | Some (VInt z) => negb (Z.eqb z 0)
  | Some (VNum q) => truthy_num q
  | Some (VBool b) => b
  | Some (VUuid _) | Some (VTime _) => true
  | Some VNone | None => false
  end.

Definition exact (filters : dict) (key : string) (l : list t) : list t :=
  if truthy (dict_get key filters) then
    filter (fun r =>
              match dict_get key filters with
              | Some v => value_eqb (BaseService.column key r) v
              | None => false
              end) l
  else l.

(** [column.ilike(f"%{filters[key]}%")]; the routes pass strings. *)
Definition containing (filters : dict) (key : string) (l : list t)
  : list t :=
  if truthy (dict_get key filters) then
    filter (fun r =>
              match dict_get key filters, BaseService.column key r with
              | Some (VStr x), VStr s => ilike s ("%" ++ x ++ "%")%string
              | _, _ => false
              end) l
  else l.

Definition with_filters (filters : option dict)
           (f : dict -> list t -> list t) (l : list t) : list t :=
  match filters with
  | Some (kv :: fs) => f (kv :: fs) l
  | Some [] | None => l
  end.

(** [def get_by_submitter(self, db, submitter_id, skip=0, limit=100,
    filters=None)] *)
Definition get_by_submitter (submitter_id : UUID) (skip limit : Z)
           (filters : option dict) : M DB (list t) :=
  l <- rows ;;
  let q := filter (fun r => Nat.eqb (submitted_by r) submitter_id
                            && Bool.eqb (is_active r) true) l in
  let q := with_filters filters
             (fun fs q =>
                containing fs "crop_name"
                  (exact fs "season" (exact fs "year" (exact fs "status" q))))
             q in
  offset_limit skip limit (sort_by (desc (BaseService.column "created_at")) q).

(** [def get_pending_approvals(self, db, skip=0, limit=100, filters=None)] *)
Definition get_pending_approvals (skip limit : Z) (filters : option dict)
  : M DB (list t) :=
  l <- rows ;;
  let q := filter (fun r => (String.eqb (status r) "submitted"
                             || String.eqb (status r) "pending")
                            && Bool.eqb (is_active r) true) l in
  let q := with_filters filters
             (fun fs q =>
                containing fs "crop_name"
                  (containing fs "village"
                     (containing fs "district"
                        (exact fs "season" (exact fs "year" q)))))
             q in
  offset_limit skip limit
               (sort_by (desc (BaseService.column "submitted_at")) q).

(** [def create_crop_target(self, db, target_data, submitter_id)] *)
Definition create_crop_target (e : Env) (target_data : dict)
           (submitter_id : UUID) : M DB t :=
  let target_data := dict_set "submitted_by" (VUuid submitter_id) target_data in
  match init (new_id e) (now e) target_data with
  | None => raise (IntegrityError "crop_targets")
  | Some target =>
      let target := calculate_metrics target in
      add_target target ;;;
      flush ;;;
      log_action e (Some submitter_id) "CREATE" "CropTarget"
                 (Some (id target)) None (Some target_data) None None
                 (Some ("Created crop target for " ++ crop_name target)%string)
                 true ;;;
      commit ;;;
      refresh (id target)
  end.

(** [def submit_for_approval(self, db, target_id, submitter_id)] *)
Definition submit_for_approval (e : Env) (target_id submitter_id : UUID)
  : M DB (option t) :=
  found <- BaseService.get target_id ;;
  match found with
  | None => ret None
  | Some target =>
      if negb (Nat.eqb (submitted_by target) submitter_id) then ret None
      else if negb (String.eqb (status target) "draft") then ret None
      else
        let old_status := status target in
        let target' := CropTarget.submit_for_approval (now e) target in
        write_back e target target' ;;;
        log_action e (Some submitter_id) "SUBMIT" "CropTarget"
                   (Some (id target'))
                   (Some [("status", VStr old_status)])
                   (Some [("status", VStr (status target'));
                          ("submitted_at",
                           of_opt VTime (submitted_at target'))])
                   None None
                   (Some ("Submitted crop target " ++ crop_name target'
                          ++ " for approval")%string)
                   true ;;;
        commit ;;;
        r <- refresh (id target') ;;
        ret (Some r)
  end.

(** [def approve_target(self, db, target_id, approver_id, remarks=None)] *)
Definition approve_target (e : Env) (target_id approver_id : UUID)
           (rem : option string) : M DB (option t) :=
  found <- BaseService.get target_id ;;
  match found with
  | None => ret None
  | Some target =>
      if negb (is_pending_approval target) then ret None
      else
        let old_status := status target in
        let target' := approve (now e) approver_id rem target in
        write_back e target target' ;;;
        log_action e (Some approver_id) "APPROVE" "CropTarget"
                   (Some (id target'))
                   (Some [("status", VStr old_status)])
                   (Some [("status", VStr "approved");
                          ("approved_by", VUuid approver_id);
                          ("approved_at",
                           of_opt VTime (approved_at target'))])
                   None None
                   (Some ("Approved crop target " ++ crop_name target')%string)
                   true ;;;
        commit ;;;
        r <- refresh (id target') ;;
        ret (Some r)
  end.

(** [def reject_target(self, db, target_id, approver_id, reason)] *)
Definition reject_target (e : Env) (target_id approver_id : UUID)
           (reason : string) : M DB (option t) :=
  found <- BaseService.get target_id ;;
  match found with
  | None => ret None
  | Some target =>
      if negb (is_pending_approval target) then ret None
      else
        let old_status := status target in
        let target' := reject (now e) approver_id reason target in
        write_back e target target' ;;;
        log_action e (Some approver_id) "REJECT" "CropTarget"
                   (Some (id target'))
                   (Some [("status", VStr old_status)])
                   (Some [("status", VStr "rejected");
                          ("rejection_reason", VStr reason)])
                   None None
                   (Some ("Rejected crop target " ++ crop_name target'
                          ++ ": " ++ reason)%string)
                   true ;;;
        commit ;;;
        r <- refresh (id target') ;;
        ret (Some r)
  end.
(** [func.sum(column)] over the rows of a query: NULL when there is no
    row, or none with a value. *)
Definition sum_column (col : t -> option Q) (l : list t) : option Q :=
  fold_left
    (fun acc r =>
       match col r, acc with
       | Some v, Some a => Some (a + v)%Q
       | Some v, None => Some v
       | None, _ => acc
       end)
    l None.

(** [float(x or 0)] *)
Definition or_zero (o : option Q) : Q :=
  match o with
  | Some q => if truthy_num q then q else 0%Q
  | None => 0%Q
  end.

Record Summary : Type := mkSummary {
  total_targets : Z;
  pending_approvals : Z;
  approved_targets : Z;
  rejected_targets : Z;
  draft_targets : Z;
  total_cultivable_area : Q;
  total_target_area : Q;
  total_expected_production : Q;
  approval_rate : Q
}.

(** The filters of [get_dashboard_summary] on the active rows: [if
    user_id], [if year], [if season]. *)
Definition base_query (user_id : option UUID) (yr : option Z)
           (sn : option string) (l : list t) : list t :=
  let q := filter (fun r => Bool.eqb (is_active r) true) l in
  let q := match user_id with
           | Some u => filter (fun r => Nat.eqb (submitted_by r) u) q
           | None => q
           end in
  let q := match yr with
           | Some y =>
               if negb (Z.eqb y 0) then filter (fun r => Z.eqb (year r) y) q
               else q
           | None => q
           end in
  match sn with
  | Some x =>
      if negb (String.eqb x "") then
        filter (fun r => String.eqb (season r) x) q
      else q
  | None => q
  end.

(** [def get_dashboard_summary(self, db, user_id=None, year=None,
    season=None)].  The quotient of the two counts is taken over the
    rationals. *)
Definition get_dashboard_summary (user_id : option UUID) (yr : option Z)
           (sn : option string) : M DB Summary :=
  l <- rows ;;
  let base := base_query user_id yr sn l in
  let count_of (p : t -> bool) := Z.of_nat (length (filter p base)) in
  let total := Z.of_nat (length base) in
  let pending_count :=
    count_of (fun r => String.eqb (status r) "submitted"
                       || String.eqb (status r) "pending") in
  let approved_count :=
    count_of (fun r => String.eqb (status r) "approved") in
  let rejected_count :=
    count_of (fun r => String.eqb (status r) "rejected") in
  let draft_count := count_of (fun r => String.eqb (status r) "draft") in
  ret (mkSummary
         total pending_count approved_count rejected_count draft_count
         (or_zero (sum_column (fun r => Some (cultivable_area r)) base))
         (or_zero
            (sum_column
               (fun r => Some (target_area r))
               (filter (fun r => String.eqb (status r) "approved"
                                 || String.eqb (status r) "submitted"
                                 || String.eqb (status r) "pending")
                       base)))
         (or_zero
            (sum_column
               expected_production
               (filter (fun r => String.eqb (status r) "approved") base)))
         (if (0 <? total)%Z then
            (inject_Z approved_count / inject_Z total * 100)%Q
          else 0%Q)).

(** [def get_recent_submissions(self, db, user_id=None, limit=5)] *)
Definition get_recent_submissions (user_id : option UUID) (limit : Z)
  : M DB (list t) :=
  l <- rows ;;
  let q := filter (fun r => Bool.eqb (is_active r) true) l in
  let q := match user_id with
           | Some u => filter (fun r => Nat.eqb (submitted_by r) u) q
           | None => q
           end in
  offset_limit 0 limit (sort_by (desc (BaseService.column "created_at")) q).
End CropTargetService.

(** ** The principal and the routes of [server_new.py] *)

Module User.
(** The columns of [models/user.py] that the routes read. *)
Record t : Type := mk {
  id : UUID;
  username : string;
  role : string;
  district : option string;
  state : option string;
  village : option string
}.
End User.

Definition Q_gt0 (x : Q) : bool := negb (Q_leb x 0).

Definition len_between (lo hi : nat) (s : string) : bool :=
  Nat.leb lo (String.length s) && Nat.leb (String.length s) hi.

Definition opt_all {A} (p : A -> bool) (o : option A) : bool :=
  match o with Some a => p a | None => true end.

Module CropTargetCreate.
Record t : Type := mk {
  year : Z;
  season : string;
  district : string;
  state : string;
  village : string;
  crop_name : string;
  crop_variety : option string;
  cultivable_area : Q;
  target_area : Q;
  target_yield : option Q;
  remarks : option string
}.

(** The [Field(...)] constraints. *)
Definition valid (d : t) : bool :=
  (2020 <=? year d)%Z && (year d <=? 2030)%Z
  && len_between 1 50 (season d)
  && len_between 1 100 (district d)
  && len_between 1 100 (state d)
  && len_between 1 100 (village d)
  && len_between 1 100 (crop_name d)
  && opt_all (len_between 0 100) (crop_variety d)
  && Q_gt0 (cultivable_area d) && Q_leb (cultivable_area d) 10000
  && Q_gt0 (target_area d) && Q_leb (target_area d) 10000
  && opt_all (fun y => Q_gt0 y && Q_leb y 100) (target_yield d)
  && opt_all (len_between 0 1000) (remarks d).

(** [target_data.dict()] *)
Definition dict (d : t) : dict :=
  [("year", VInt (year d)); ("season", VStr (season d));
   ("district", VStr (district d)); ("state", VStr (state d));
   ("village", VStr (village d)); ("crop_name", VStr (crop_name d));
   ("crop_variety", of_opt VStr (crop_variety d));
   ("cultivable_area", VNum (cultivable_area d));
   ("target_area", VNum (target_area d));
   ("target_yield", of_opt VNum (target_yield d));
   ("remarks", of_opt VStr (remarks d))].
End CropTargetCreate.

Module CropTargetUpdate.
(** Every field is optional; [None] is a field the client left out or
    sent as null, which [BaseService.update] drops alike. *)
Record t : Type := mk {
  year : option Z;
  season : option string;
  village : option string;
  crop_name : option string;
  crop_variety : option string;
  cultivable_area : option Q;
  target_area : option Q;
  target_yield : option Q;
  remarks : option string
}.

Definition valid (d : t) : bool :=
  opt_all (fun y => (2020 <=? y)%Z && (y <=? 2030)%Z) (year d)
  && opt_all (len_between 1 50) (season d)
  && opt_all (len_between 1 100) (village d)
  && opt_all (len_between 1 100) (crop_name d)
  && opt_all (len_between 0 100) (crop_variety d)
  && opt_all (fun a => Q_gt0 a && Q_leb a 10000) (cultivable_area d)
  && opt_all (fun a => Q_gt0 a && Q_leb a 10000) (target_area d)
  && opt_all (fun y => Q_gt0 y && Q_leb y 100) (target_yield d)
  && opt_all (len_between 0 1000) (remarks d).

(** [target_data.dict(exclude_unset=True)] *)
Definition dict (d : t) : dict :=
  [("year", of_opt VInt (year d)); ("season", of_opt VStr (season d));
   ("village", of_opt VStr (village d));
   ("crop_name", of_opt VStr (crop_name d));
   ("crop_variety", of_opt VStr (crop_variety d));
   ("cultivable_area", of_opt VNum (cultivable_area d));
   ("target_area", of_opt VNum (target_area d));
   ("target_yield", of_opt VNum (target_yield d));
   ("remarks", of_opt VStr (remarks d))].
End CropTargetUpdate.

Module ApprovalRequest.
Record t : Type := mk {
  action : string;
  remarks : option string;
  rejection_reason : option string
}.

Definition valid (d : t) : bool :=
  (String.eqb (action d) "approve" || String.eqb (action d) "reject")
  && opt_all (len_between 0 1000) (remarks d)
  && opt_all (len_between 0 1000) (rejection_reason d).
End ApprovalRequest.

Module ServerNew.
Record Response : Type := mkResponse {
  success : bool;
  message : string;
  data : dict
}.

(** [def require_role(allowed_roles)] *)
Definition require_role (allowed_roles : list string)
           (current_user : User.t) : M DB User.t :=
  if existsb (String.eqb (User.role current_user)) allowed_roles then
    ret current_user
  else
    raise (HTTPException 403
             ("Access denied. Required role: "
              ++ String.concat " or " allowed_roles)%string).

(** The request body that fails its schema never reaches the handler. *)
Definition validated (ok : bool) : M DB unit :=
  if ok then ret tt else raise (HTTPException 422 "Unprocessable Entity").

(** [POST /api/v1/vo/crop-targets] *)
Definition create_crop_target (e : Env) (target_data : CropTargetCreate.t)
           (current_user : User.t) : M DB Response :=
  current_user <- require_role ["VO"] current_user ;;
  validated (CropTargetCreate.valid target_data) ;;;
  try_except
    (let create_data := CropTargetCreate.dict target_data in
     let create_data :=
       dict_set "district" (of_opt VStr (User.district current_user))
                create_data in
     let create_data :=
       dict_set "state" (of_opt VStr (User.state current_user))
                create_data in
     target <- CropTargetService.create_crop_target
                 e create_data (User.id current_user) ;;
     ret (mkResponse true "Crop target created successfully"
                     (CropTarget.to_dict target)))
    (fun ex =>
       match ex with
       | IntegrityError _ =>
           raise (HTTPException 400 "Invalid data provided")
       | _ => raise (HTTPException 500 "Failed to create crop target")
       end).

(** [PUT /api/v1/vo/crop-targets/{target_id}] *)
Definition update_crop_target (e : Env) (target_id : UUID)
           (target_data : CropTargetUpdate.t) (current_user : User.t)
  : M DB Response :=
  current_user <- require_role ["VO"] current_user ;;
  validated (CropTargetUpdate.valid target_data) ;;;
  found <- BaseService.get target_id ;;
  match found with
  | None => raise (HTTPException 404 "Crop target not found")
  | Some target =>
      if negb (Nat.eqb (CropTarget.submitted_by target)
                       (User.id current_user)) then
        raise (HTTPException 404 "Crop target not found")
      else if negb (CropTarget.is_editable target) then
        raise (HTTPException 400 "Cannot edit submitted crop target")
      else
        try_except
          (updated <- BaseService.update
                        e target_id (CropTargetUpdate.dict target_data)
                        (Some (User.id current_user)) ;;
           match updated with
           | Some u =>
               ret (mkResponse true "Crop target updated successfully"
                               (CropTarget.to_dict u))
           | None => raise (AttributeError "to_dict")
           end)
          (fun _ =>
             raise (HTTPException 500 "Failed to update crop target"))
  end.

(** [POST /api/v1/vo/crop-targets/{target_id}/submit] *)
Definition submit_crop_target (e : Env) (target_id : UUID)
           (current_user : User.t) : M DB Response :=
  current_user <- require_role ["VO"] current_user ;;
  target <- CropTargetService.submit_for_approval
              e target_id (User.id current_user) ;;
  match target with
  | None =>
      raise (HTTPException 404
               "Crop target not found or cannot be submitted")
  | Some t =>
      ret (mkResponse true "Crop target submitted for approval"
                      (CropTarget.to_dict t))
  end.

(** [POST /api/v1/bo/crop-targets/{target_id}/approve] *)
Definition approve_crop_target (e : Env) (target_id : UUID)
           (approval_data : ApprovalRequest.t) (current_user : User.t)
  : M DB Response :=
  current_user <- require_role ["BO"] current_user ;;
  validated (ApprovalRequest.valid approval_data) ;;;
  try_except
    (tm <-
       (if String.eqb (ApprovalRequest.action approval_data) "approve" then
          target <- CropTargetService.approve_target
                      e target_id (User.id current_user)
                      (ApprovalRequest.remarks approval_data) ;;
          ret (target, "Crop target approved successfully")
        else if String.eqb (ApprovalRequest.action approval_data) "reject"
        then
          match ApprovalRequest.rejection_reason approval_data with
          | Some reason =>
              if String.eqb reason "" then
                raise (HTTPException 400 "Rejection reason is required")
              else
                target <- CropTargetService.reject_target
                            e target_id (User.id current_user) reason ;;
                ret (target, "Crop target rejected successfully")
          | None =>
              raise (HTTPException 400 "Rejection reason is required")
          end
        else raise (HTTPException 400 "Invalid action")) ;;
     match fst tm with
     | None =>
         raise (HTTPException 404
                  "Crop target not found or not pending approval")
     | Some t => ret (mkResponse true (snd tm) (CropTarget.to_dict t))
     end)
    (fun ex =>
       match ex with
       | HTTPException c d => raise (HTTPException c d)
       | _ => raise (HTTPException 500 "Failed to process approval")
       end).
(** The dictionary that the two listing routes build from their query
    parameters: a parameter that is absent, empty or zero gives no entry. *)
Definition text_filter (key : string) (o : option string) : dict :=
  match o with
  | Some x => if String.eqb x "" then [] else [(key, VStr x)]
  | None => []
  end.

Definition int_filter (key : string) (o : option Z) : dict :=
  match o with
  | Some z => if Z.eqb z 0 then [] else [(key, VInt z)]
  | None => []
  end.

Record Listing : Type := mkListing {
  items : list dict;
  page : Z;
  per_page : Z;
  total : Z;
  pages : Z
}.

(** [page: int = Query(1, ge=1)], [per_page: int = Query(20, ge=1,
    le=100)] *)
Definition valid_paging (pg pp : Z) : bool :=
  (1 <=? pg)%Z && (1 <=? pp)%Z && (pp <=? 100)%Z.

(** [GET /api/v1/vo/crop-targets/my-submissions] *)
Definition get_my_submissions (pg pp : Z) (status : option string)
           (year : option Z) (season : option string)
           (current_user : User.t) : M DB Listing :=
  current_user <- require_role ["VO"] current_user ;;
  validated (valid_paging pg pp) ;;;
  let filters :=
    (text_filter "status" status ++ int_filter "year" year
     ++ text_filter "season" season)%list in
  let skip := ((pg - 1) * pp)%Z in
  targets <- CropTargetService.get_by_submitter
               (User.id current_user) skip pp (Some filters) ;;
  every <- CropTargetService.get_by_submitter
             (User.id current_user) 0 100 (Some filters) ;;
  let total := Z.of_nat (length every) in
  ret (mkListing (map CropTarget.to_dict targets) pg pp total
                 ((total + pp - 1) / pp)%Z).

(** [GET /api/v1/bo/crop-targets/pending] *)
Definition get_pending_approvals (pg pp : Z) (year : option Z)
           (season district village crop_name : option string)
           (current_user : User.t) : M DB Listing :=
  current_user <- require_role ["BO"] current_user ;;
  validated (valid_paging pg pp) ;;;
  let filters :=
    (int_filter "year" year ++ text_filter "season" season
     ++ text_filter "district" district ++ text_filter "village" village
     ++ text_filter "crop_name" crop_name)%list in
  let skip := ((pg - 1) * pp)%Z in
  targets <- CropTargetService.get_pending_approvals
               skip pp (Some filters) ;;
  every <- CropTargetService.get_pending_approvals 0 100 (Some filters) ;;
  let total := Z.of_nat (length every) in
  ret (mkListing (map CropTarget.to_dict targets) pg pp total
                 ((total + pp - 1) / pp)%Z).

(** [GET /api/v1/vo/dashboard/summary] *)
Definition get_vo_summary (year : option Z) (season : option string)
           (current_user : User.t) : M DB CropTargetService.Summary :=
  current_user <- require_role ["VO"] current_user ;;
  CropTargetService.get_dashboard_summary
    (Some (User.id current_user)) year season.

(** [GET /api/v1/bo/dashboard/summary] *)
Definition get_bo_summary (year : option Z) (season : option string)
           (current_user : User.t) : M DB CropTargetService.Summary :=
  current_user <- require_role ["BO"] current_user ;;
  CropTargetService.get_dashboard_summary None year season.
End ServerNew.

(** ** The Flask stack: [vo/services.py], [bo/services.py], their schemas
    and routes

    The model class these services import is not among the sources.  Its
    columns are taken from the [crop_targets] table of [server.py], which
    is the table the schemas of both packages describe; its properties
    [can_edit] and [can_delete] are arguments of the services that read
    them.  No function of this stack touches the audit table, which is kept
    in the store so that this can be said. *)

Module Flask.
Module CropTarget.
Record t : Type := mk {
  id : UUID;
  year : Z;
  season : string;
  village : string;
  crop : string;
  variety : string;
  target_area : Q;
  date : DateTime;
  status : string;
  rejection_comments : option string;
  submitted_by : UUID;
  submitted_at : option DateTime;
  approved_by : option UUID;
  approved_at : option DateTime;
  created_at : DateTime;
  updated_at : DateTime
}.

Definition set_id (v : UUID) (r : t) : t :=
  mk v (year r) (season r) (village r) (crop r) (variety r)
     (target_area r) (date r) (status r) (rejection_comments r)
     (submitted_by r) (submitted_at r) (approved_by r) (approved_at r)
     (created_at r) (updated_at r).

Definition set_year (v : Z) (r : t) : t :=
  mk (id r) v (season r) (village r) (crop r) (variety r)
     (target_area r) (date r) (status r) (rejection_comments r)
     (submitted_by r) (submitted_at r) (approved_by r) (approved_at r)
     (created_at r) (updated_at r).

Definition set_season (v : string) (r : t) : t :=
  mk (id r) (year r) v (village r) (crop r) (variety r) (target_area r)
     (date r) (status r) (rejection_comments r) (submitted_by r)
     (submitted_at r) (approved_by r) (approved_at r) (created_at r)
     (updated_at r).

Definition set_village (v : string) (r : t) : t :=
  mk (id r) (year r) (season r) v (crop r) (variety r) (target_area r)
     (date r) (status r) (rejection_comments r) (submitted_by r)
     (submitted_at r) (approved_by r) (approved_at r) (created_at r)
     (updated_at r).

Definition set_crop (v : string) (r : t) : t :=
  mk (id r) (year r) (season r) (village r) v (variety r)
     (target_area r) (date r) (status r) (rejection_comments r)
     (submitted_by r) (submitted_at r) (approved_by r) (approved_at r)
     (created_at r) (updated_at r).

Definition set_variety (v : string) (r : t) : t :=
  mk (id r) (year r) (season r) (village r) (crop r) v (target_area r)
     (date r) (status r) (rejection_comments r) (submitted_by r)
     (submitted_at r) (approved_by r) (approved_at r) (created_at r)
     (updated_at r).

Definition set_target_area (v : Q) (r : t) : t :=
  mk (id r) (year r) (season r) (village r) (crop r) (variety r) v
     (date r) (status r) (rejection_comments r) (submitted_by r)
     (submitted_at r) (approved_by r) (approved_at r) (created_at r)
     (updated_at r).

Definition set_date (v : DateTime) (r : t) : t :=
  mk (id r) (year r) (season r) (village r) (crop r) (variety r)
     (target_area r) v (status r) (rejection_comments r)
     (submitted_by r) (submitted_at r) (approved_by r) (approved_at r)
     (created_at r) (updated_at r).

Definition set_status (v : string) (r : t) : t :=
  mk (id r) (year r) (season r) (village r) (crop r) (variety r)
     (target_area r) (date r) v (rejection_comments r) (submitted_by r)
     (submitted_at r) (approved_by r) (approved_at r) (created_at r)
     (updated_at r).

Definition set_rejection_comments (v : option string) (r : t) : t :=
  mk (id r) (year r) (season r) (village r) (crop r) (variety r)
     (target_area r) (date r) (status r) v (submitted_by r)
     (submitted_at r) (approved_by r) (approved_at r) (created_at r)
     (updated_at r).

Definition set_submitted_by (v : UUID) (r : t) : t :=
  mk (id r) (year r) (season r) (village r) (crop r) (variety r)
     (target_area r) (date r) (status r) (rejection_comments r) v
     (submitted_at r) (approved_by r) (approved_at r) (created_at r)
     (updated_at r).

Definition set_submitted_at (v : option DateTime) (r : t) : t :=
  mk (id r) (year r) (season r) (village r) (crop r) (variety r)
     (target_area r) (date r) (status r) (rejection_comments r)
     (submitted_by r) v (approved_by r) (approved_at r) (created_at r)
     (updated_at r).

Definition set_approved_by (v : option UUID) (r : t) : t :=
  mk (id r) (year r) (season r) (village r) (crop r) (variety r)
     (target_area r) (date r) (status r) (rejection_comments r)
     (submitted_by r) (submitted_at r) v (approved_at r) (created_at r)
     (updated_at r).

Definition set_approved_at (v : option DateTime) (r : t) : t :=
  mk (id r) (year r) (season r) (village r) (crop r) (variety r)
     (target_area r) (date r) (status r) (rejection_comments r)
     (submitted_by r) (submitted_at r) (approved_by r) v (created_at r)
     (updated_at r).

Definition set_created_at (v : DateTime) (r : t) : t :=
  mk (id r) (year r) (season r) (village r) (crop r) (variety r)
     (target_area r) (date r) (status r) (rejection_comments r)
     (submitted_by r) (submitted_at r) (approved_by r) (approved_at r) v
     (updated_at r).

Definition set_updated_at (v : DateTime) (r : t) : t :=
  mk (id r) (year r) (season r) (village r) (crop r) (variety r)
     (target_area r) (date r) (status r) (rejection_comments r)
     (submitted_by r) (submitted_at r) (approved_by r) (approved_at r)
     (created_at r) v.

(** [getattr(r, name)] on the mapped columns; [None] when the model has
    no such column. *)
Definition getattr (r : t) (name : string) : option value :=
  if String.eqb name "id" then Some (VUuid (id r)) else
  if String.eqb name "year" then Some (VInt (year r)) else
  if String.eqb name "season" then Some (VStr (season r)) else
  if String.eqb name "village" then Some (VStr (village r)) else
  if String.eqb name "crop" then Some (VStr (crop r)) else
  if String.eqb name "variety" then Some (VStr (variety r)) else
  if String.eqb name "target_area" then Some (VNum (target_area r)) else
  if String.eqb name "date" then Some (VTime (date r)) else
  if String.eqb name "status" then Some (VStr (status r)) else
  if String.eqb name "rejection_comments" then Some (of_opt VStr (rejection_comments r)) else
  if String.eqb name "submitted_by" then Some (VUuid (submitted_by r)) else
  if String.eqb name "submitted_at" then Some (of_opt VTime (submitted_at r)) else
  if String.eqb name "approved_by" then Some (of_opt VUuid (approved_by r)) else
  if String.eqb name "approved_at" then Some (of_opt VTime (approved_at r)) else
  if String.eqb name "created_at" then Some (VTime (created_at r)) else
  if String.eqb name "updated_at" then Some (VTime (updated_at r)) else
  None.

(** [setattr(r, name, v)]; [None] when the column cannot take the value
    (the flush would refuse the row) or the model has no such column. *)
Definition setattr (r : t) (name : string) (v : value) : option t :=
  if String.eqb name "id" then
    match v with VUuid x => Some (set_id x r) | _ => None end
  else
  if String.eqb name "year" then
    match v with VInt x => Some (set_year x r) | _ => None end
  else
  if String.eqb name "season" then
    match v with VStr x => Some (set_season x r) | _ => None end
  else
  if String.eqb name "village" then
    match v with VStr x => Some (set_village x r) | _ => None end
  else
  if String.eqb name "crop" then
    match v with VStr x => Some (set_crop x r) | _ => None end
  else
  if String.eqb name "variety" then
    match v with VStr x => Some (set_variety x r) | _ => None end
  else
  if String.eqb name "target_area" then
    match v with VNum x => Some (set_target_area x r) | VInt x => Some (set_target_area (inject_Z x) r) | _ => None end
  else
  if String.eqb name "date" then
    match v with VTime x => Some (set_date x r) | _ => None end
  else
  if String.eqb name "status" then
    match v with VStr x => Some (set_status x r) | _ => None end
  else
  if String.eqb name "rejection_comments" then
    match v with VStr x => Some (set_rejection_comments (Some x) r) | VNone => Some (set_rejection_comments None r) | _ => None end
  else
  if String.eqb name "submitted_by" then
    match v with VUuid x => Some (set_submitted_by x r) | _ => None end
  else
  if String.eqb name "submitted_at" then
    match v with VTime x => Some (set_submitted_at (Some x) r) | VNone => Some (set_submitted_at None r) | _ => None end
  else
  if String.eqb name "approved_by" then
    match v with VUuid x => Some (set_approved_by (Some x) r) | VNone => Some (set_approved_by None r) | _ => None end
  else
  if String.eqb name "approved_at" then
    match v with VTime x => Some (set_approved_at (Some x) r) | VNone => Some (set_approved_at None r) | _ => None end
  else
  if String.eqb name "created_at" then
    match v with VTime x => Some (set_created_at x r) | _ => None end
  else
  if String.eqb name "updated_at" then
    match v with VTime x => Some (set_updated_at x r) | _ => None end
  else
  None.

Definition columns : list string :=
  ["id"; "year"; "season"; "village"; "crop"; "variety"; "target_area"; "date"; "status"; "rejection_comments"; "submitted_by"; "submitted_at"; "approved_by"; "approved_at"; "created_at"; "updated_at"].

Definition hasattr (r : t) (name : string) : bool :=
  match getattr r name with Some _ => true | None => false end.

Definition to_dict (r : t) : dict :=
  flat_map
    (fun c => match getattr r c with Some v => [(c, v)] | None => [] end)
    columns.

Definition same_columns (a b : t) : bool :=
  forallb
    (fun c =>
       match getattr a c, getattr b c with
       | Some x, Some y => value_eqb x y
       | _, _ => false
       end)
    columns.

Definition blank (fresh : UUID) (now : DateTime) : t :=
  mk fresh 0%Z "" "" "" "" 0%Q 0%nat "draft" None 0%nat None None None
     now now.

Definition required : list string :=
  ["year"; "season"; "village"; "crop"; "variety"; "target_area";
   "date"; "submitted_by"].

Definition given (kw : dict) (k : string) : bool :=
  match dict_get k kw with
  | Some v => negb (is_none v)
  | None => false
  end.

Fixpoint set_all (r : t) (kw : dict) : option t :=
  match kw with
  | [] => Some r
  | (k, v) :: kw' =>
      match setattr r k v with
      | Some r' => set_all r' kw'
      | None => None
      end
  end.

Definition init (fresh : UUID) (now : DateTime) (kw : dict) : option t :=
  if forallb (given kw) required then set_all (blank fresh now) kw
  else None.
End CropTarget.

Record FDB : Type := mkFDB {
  targets : list CropTarget.t;
  audit_trail : list AuditLog.t
}.

Definition rows : M FDB (list CropTarget.t) :=
  w <- get_working ;; ret (targets w).

(** [db.session.add(obj)]; the primary key refuses a row whose [id] is
    already in the table. *)
Definition add (r : CropTarget.t) : M FDB unit :=
  w <- get_working ;;
  if existsb (fun x => Nat.eqb (CropTarget.id x) (CropTarget.id r))
             (targets w)
  then raise (IntegrityError "crop_targets_pkey")
  else put_working (mkFDB (targets w ++ [r]) (audit_trail w)).

(** [db.session.delete(obj)] *)
Definition delete (r : CropTarget.t) : M FDB unit :=
  w <- get_working ;;
  put_working
    (mkFDB (filter (fun x => negb (Nat.eqb (CropTarget.id x)
                                           (CropTarget.id r)))
                   (targets w))
           (audit_trail w)).

(** A loaded object was changed: the row is rewritten in the transaction
    and [updated_at] follows its [onupdate]. *)
Definition write_back (e : Env) (old new_ : CropTarget.t) : M FDB unit :=
  if CropTarget.same_columns old new_ then ret tt
  else
    w <- get_working ;;
    put_working
      (mkFDB
         (map (fun r =>
                 if Nat.eqb (CropTarget.id r) (CropTarget.id old)
                 then CropTarget.set_updated_at (now e) new_
                 else r)
              (targets w))
         (audit_trail w)).

(** The filter loop shared by [get_my_submissions_query] and
    [get_pending_query]. *)
Definition text_fields : list string :=
  ["crop"; "village"; "season"; "variety"].

(** One filter on one row: text columns are searched with [ilike] when
    the value is a string, everything else is compared with [==]. *)
Definition matches (field : string) (v : value) (r : CropTarget.t)
  : bool :=
  match v, CropTarget.getattr r field with
  | VStr x, Some (VStr s) =>
      if existsb (String.eqb field) text_fields then
        CropTargetService.ilike s ("%" ++ x ++ "%")%string
      else String.eqb s x
  | _, Some c => value_eqb c v
  | _, None => false
  end.

Fixpoint apply_filters (filters : dict) (l : list CropTarget.t)
  : list CropTarget.t :=
  match filters with
  | [] => l
  | (field, v) :: fs =>
      if CropTargetService.truthy (Some v)
         && existsb (String.eqb field) CropTarget.columns then
        apply_filters fs (filter (matches field v) l)
      else apply_filters fs l
  end.

Definition newest_first (l : list CropTarget.t) : list CropTarget.t :=
  sort_by (desc (fun r => VTime (CropTarget.created_at r))) l.

Module VOService.
Import CropTarget.

(** [def create_crop_target(self, data, user_id)] *)
Definition create_crop_target (e : Env) (data : dict) (user_id : UUID)
  : M FDB dict :=
  let st := match dict_get "status" data with
            | Some v => v
            | None => VStr "draft"
            end in
  let data := filter (fun kv => negb (String.eqb (fst kv) "status"))
                     data in
  let kw :=
    data ++ [("submitted_by", VUuid user_id); ("status", st);
             ("submitted_at",
              if value_eqb st (VStr "submitted") then VTime (now e)
              else VNone)] in
  match init (new_id e) (now e) kw with
  | None => raise (IntegrityError "crop_targets")
  | Some crop_target =>
      add crop_target ;;;
      commit ;;;
      ret [("id", VUuid (id crop_target));
           ("status", VStr (status crop_target))]
  end.

(** [def get_my_submissions_query(self, user_id, filters)] *)
Definition get_my_submissions_query (user_id : UUID) (filters : dict)
  : M FDB (list t) :=
  l <- rows ;;
  ret (newest_first
         (apply_filters filters
            (filter (fun r => Nat.eqb (submitted_by r) user_id) l))).

(** [def get_crop_target_by_id(self, crop_target_id, user_id)] *)
Definition get_crop_target_by_id (crop_target_id user_id : UUID)
  : M FDB t :=
  l <- rows ;;
  match find (fun r => Nat.eqb (id r) crop_target_id
                       && Nat.eqb (submitted_by r) user_id) l with
  | Some crop_target => ret crop_target
  | None => raise (ValueError "Crop target not found")
  end.

(** The loop [for key, value in data.items()] of [update_crop_target]. *)
Fixpoint assign (r : t) (data : dict) : option t :=
  match data with
  | [] => Some r
  | (key, v) :: rest =>
      if hasattr r key then
        match setattr r key v with
        | Some r' => assign r' rest
        | None => None
        end
      else assign r rest
  end.

(** [def update_crop_target(self, crop_target_id, data, user_id)] *)
Definition update_crop_target (can_edit : t -> bool) (e : Env)
           (crop_target_id : UUID) (data : dict) (user_id : UUID)
  : M FDB dict :=
  crop_target <- get_crop_target_by_id crop_target_id user_id ;;
  if negb (can_edit crop_target) then
    raise (ValueError "Cannot edit this crop target")
  else
    match assign crop_target data with
    | None => raise (SQLAlchemyError "flush")
    | Some changed =>
        let changed :=
          if String.eqb (status changed) "rejected" then
            set_rejection_comments None changed
          else changed in
        write_back e crop_target changed ;;;
        commit ;;;
        ret [("id", VUuid (id changed))]
    end.

(** [def resubmit_crop_target(self, crop_target_id, user_id)] *)
Definition resubmit_crop_target (e : Env) (crop_target_id user_id : UUID)
  : M FDB dict :=
  crop_target <- get_crop_target_by_id crop_target_id user_id ;;
  if negb (String.eqb (status crop_target) "draft"
           || String.eqb (status crop_target) "rejected") then
    raise (ValueError "Cannot resubmit this crop target")
  else
    let changed :=
      set_rejection_comments None
        (set_submitted_at (Some (now e))
           (set_status "submitted" crop_target)) in
    write_back e crop_target changed ;;;
    commit ;;;
    ret [("id", VUuid (id changed))].

(** [def delete_crop_target(self, crop_target_id, user_id)] *)
Definition delete_crop_target (can_delete : t -> bool)
           (crop_target_id user_id : UUID) : M FDB unit :=
  crop_target <- get_crop_target_by_id crop_target_id user_id ;;
  if negb (can_delete crop_target) then
    raise (ValueError "Cannot delete this crop target")
  else
    delete crop_target ;;;
    commit.
End VOService.

Module BOService.
Import CropTarget.

(** [def get_pending_query(self, filters)] *)
Definition get_pending_query (filters : dict) : M FDB (list t) :=
  l <- rows ;;
  ret (newest_first
         (apply_filters filters
            (filter (fun r => String.eqb (status r) "submitted") l))).

(** [def approve_crop_target(self, crop_target_id, data, approver_id)];
    [data] is what [BOApprovalSchema] loaded, so ['status'] is there. *)
Definition approve_crop_target (e : Env) (crop_target_id : UUID)
           (data : dict) (approver_id : UUID) : M FDB dict :=
  l <- rows ;;
  match find (fun r => Nat.eqb (id r) crop_target_id) l with
  | None => raise (ValueError "Crop target not found")
  | Some crop_target =>
      if negb (String.eqb (status crop_target) "submitted") then
        raise (ValueError
                 "Only submitted targets can be approved/rejected")
      else
        match dict_get "status" data with
        | Some (VStr st) =>
            let comments :=
              match dict_get "rejection_comments" data with
              | Some (VStr c) => Some c
              | _ => None
              end in
            if String.eqb st "rejected" && negb (truthy_str comments)
            then
              raise (ValueError
                       "Rejection comments required when rejecting")
            else
              let changed :=
                set_rejection_comments
                  (if String.eqb st "rejected" then comments else None)
                  (set_approved_at (Some (now e))
                     (set_approved_by (Some approver_id)
                        (set_status st crop_target))) in
              write_back e crop_target changed ;;;
              commit ;;;
              ret [("id", VUuid (id changed)); ("status", VStr st)]
        | _ => raise (KeyError "status")
        end
  end.
End BOService.

(** [vo/schemas.py] and [bo/schemas.py]: [Schema.load] on a JSON object. *)
Definition known (allowed : list string) (json : dict) : bool :=
  forallb (fun kv => existsb (String.eqb (fst kv)) allowed) json.

Definition check_vo (k : string) (v : value) : option value :=
  if String.eqb k "year" then
    match v with
    | VInt y => if (2000 <=? y)%Z && (y <=? 2100)%Z then Some v else None
    | _ => None
    end
  else if String.eqb k "season" then
    match v with
    | VStr x => if len_between 1 50 x then Some v else None
    | _ => None
    end
  else if String.eqb k "village" || String.eqb k "crop"
          || String.eqb k "variety" then
    match v with
    | VStr x => if len_between 1 100 x then Some v else None
    | _ => None
    end
  else if String.eqb k "target_area" then
    match v with
    | VNum a => if Q_leb (1 # 100) a then Some v else None
    | VInt a => if Q_leb (1 # 100) (inject_Z a) then Some (VNum (inject_Z a))
                else None
    | _ => None
    end
  else if String.eqb k "date" then
    match v with VTime _ => Some v | _ => None end
  else if String.eqb k "status" then
    match v with
    | VStr x => if String.eqb x "draft" || String.eqb x "submitted"
                then Some v else None
    | _ => None
    end
  else None.

Fixpoint load_fields (spec : list (string * bool)) (json : dict)
  : option dict :=
  match spec with
  | [] => Some []
  | (k, req) :: rest =>
      match dict_get k json with
      | Some v =>
          match check_vo k v, load_fields rest json with
          | Some v', Some d => Some ((k, v') :: d)
          | _, _ => None
          end
      | None => if req then None else load_fields rest json
      end
  end.

Module VOCreateSchema.
Definition fields : list (string * bool) :=
  [("year", true); ("season", true); ("village", true); ("crop", true);
   ("variety", true); ("target_area", true); ("date", true);
   ("status", false)].

Definition load (json : dict) : M FDB dict :=
  if known (map fst fields) json then
    match load_fields fields json with
    | Some data =>
        match dict_get "status" data with
        | Some _ => ret data
        | None => ret (data ++ [("status", VStr "draft")])
        end
    | None => raise (ValidationError "Invalid input")
    end
  else raise (ValidationError "Unknown field.").
End VOCreateSchema.

Module VOUpdateSchema.
Definition fields : list (string * bool) :=
  [("year", false); ("season", false); ("village", false);
   ("crop", false); ("variety", false); ("target_area", false);
   ("date", false)].

Definition load (json : dict) : M FDB dict :=
  if known (map fst fields) json then
    match load_fields fields json with
    | Some data => ret data
    | None => raise (ValidationError "Invalid input")
    end
  else raise (ValidationError "Unknown field.").
End VOUpdateSchema.

Module BOApprovalSchema.
Definition load_fields (json : dict) : option dict :=
  match dict_get "status" json with
  | Some (VStr st) =>
      if String.eqb st "approved" || String.eqb st "rejected" then
        match dict_get "rejection_comments" json with
        | None => Some [("status", VStr st)]
        | Some VNone =>
            Some [("status", VStr st); ("rejection_comments", VNone)]
        | Some (VStr c) =>
            if len_between 0 1000 c then
              Some [("status", VStr st);
                    ("rejection_comments", VStr c)]
            else None
        | Some _ => None
        end
      else None
  | _ => None
  end.

(** [@validates_schema def validate_rejection(self, data, **kwargs)];
    [true] when it raises. *)
Definition validate_rejection (data : dict) : bool :=
  match dict_get "status" data with
  | Some (VStr st) =>
      String.eqb st "rejected"
      && negb (CropTargetService.truthy
                 (dict_get "rejection_comments" data))
  | _ => false
  end.

Definition load (json : dict) : M FDB dict :=
  if known ["status"; "rejection_comments"] json then
    match load_fields json with
    | Some data =>
        if validate_rejection data then
          raise (ValidationError
                   "Rejection comments required when rejecting")
        else ret data
    | None => raise (ValidationError "Invalid input")
    end
  else raise (ValidationError "Unknown field.").
End BOApprovalSchema.

(** [app/utils.py], [vo/routes.py] and [bo/routes.py] *)
Record Principal : Type := mkPrincipal {
  identity : UUID;
  role_claim : string
}.

Record Response : Type := mkResponse {
  status_code : nat;
  success : bool;
  message : string;
  data : dict
}.

Definition success_response (d : dict) (msg : string) (st : nat)
  : Response := mkResponse st true msg d.

Definition error_response (msg : string) (st : nat) : Response :=
  mkResponse st false msg [].

(** [def require_role(allowed_roles)] *)
Definition require_role (allowed_roles : list string) (p : Principal)
           (f : M FDB Response) : M FDB Response :=
  if existsb (String.eqb (role_claim p)) allowed_roles then f
  else ret (error_response "Access denied" 403).

(** [def safe_execute(f)] *)
Definition safe_execute (f : M FDB Response) : M FDB Response :=
  try_except f
    (fun ex =>
       match ex with
       | ValueError msg => ret (error_response msg 400)
       | _ => ret (error_response "Internal server error" 500)
       end).

(** [except ValidationError as e: return error_response(...)] *)
Definition invalid_input (f : M FDB Response) : M FDB Response :=
  try_except f
    (fun ex =>
       match ex with
       | ValidationError _ => ret (error_response "Invalid input data" 400)
       | _ => raise ex
       end).

Module Routes.
(** [POST /api/v1/vo/crop-targets] *)
Definition create_crop_target (e : Env) (json : dict) (p : Principal)
  : M FDB Response :=
  require_role ["VO"] p
    (safe_execute
       (invalid_input
          (d <- VOCreateSchema.load json ;;
           result <- VOService.create_crop_target e d (identity p) ;;
           ret (success_response result
                  "Crop target created successfully" 201)))).

(** [GET /api/v1/vo/crop-targets/<uuid>] *)
Definition get_crop_target (crop_target_id : UUID) (p : Principal)
  : M FDB Response :=
  require_role ["VO"] p
    (safe_execute
       (crop_target <- VOService.get_crop_target_by_id
                         crop_target_id (identity p) ;;
        ret (success_response (CropTarget.to_dict crop_target)
                              "Success" 200))).

(** [PUT /api/v1/vo/crop-targets/<uuid>] *)
Definition update_crop_target (can_edit : CropTarget.t -> bool)
           (e : Env) (crop_target_id : UUID) (json : dict)
           (p : Principal) : M FDB Response :=
  require_role ["VO"] p
    (safe_execute
       (invalid_input
          (d <- VOUpdateSchema.load json ;;
           result <- VOService.update_crop_target
                       can_edit e crop_target_id d (identity p) ;;
           ret (success_response result
                  "Crop target updated successfully" 200)))).

(** [POST /api/v1/vo/crop-targets/<uuid>/resubmit] *)
Definition resubmit_crop_target (e : Env) (crop_target_id : UUID)
           (p : Principal) : M FDB Response :=
  require_role ["VO"] p
    (safe_execute
       (result <- VOService.resubmit_crop_target
                    e crop_target_id (identity p) ;;
        ret (success_response result
               "Crop target resubmitted successfully" 200))).

(** [DELETE /api/v1/vo/crop-targets/<uuid>] *)
Definition delete_crop_target (can_delete : CropTarget.t -> bool)
           (crop_target_id : UUID) (p : Principal) : M FDB Response :=
  require_role ["VO"] p
    (safe_execute
       (VOService.delete_crop_target
          can_delete crop_target_id (identity p) ;;;
        ret (success_response []
               "Crop target deleted successfully" 200))).

(** [PUT /api/v1/bo/crop-targets/<uuid>/approve] *)
Definition approve_crop_target (e : Env) (crop_target_id : UUID)
           (json : dict) (p : Principal) : M FDB Response :=
  require_role ["BO"] p
    (safe_execute
       (invalid_input
          (d <- BOApprovalSchema.load json ;;
           result <- BOService.approve_crop_target
                       e crop_target_id d (identity p) ;;
           ret (success_response result
                  (match dict_get "status" d with
                   | Some (VStr st) =>
                       ("Crop target " ++ st ++ " successfully")%string
                   | _ => ""
                   end) 200)))).
End Routes.
End Flask.

(** ** Requests in sequence

    A call is one HTTP request: who makes it, what the environment hands to
    it, which storage steps fail while it runs, and which route it takes.
    [serve] runs it in a session of its own and leaves the committed
    store. *)

Module Api.
Inductive request : Type :=
| Create (d : CropTargetCreate.t)
| Update (i : UUID) (d : CropTargetUpdate.t)
| Submit (i : UUID)
| Decide (i : UUID) (a : ApprovalRequest.t).

Record call : Type := mkCall {
  who : User.t;
  env : Env;
  plan : point -> bool;
  what : request
}.

Definition handler (c : call) : M DB ServerNew.Response :=
  match what c with
  | Create d => ServerNew.create_crop_target (env c) d (who c)
  | Update i d => ServerNew.update_crop_target (env c) i d (who c)
  | Submit i => ServerNew.submit_crop_target (env c) i (who c)
  | Decide i a => ServerNew.approve_crop_target (env c) i a (who c)
  end.

Definition serve (c : call) (db : DB)
  : outcome ServerNew.Response * DB :=
  run (handler c) (plan c) db.

Definition after (cs : list call) (db : DB) : DB :=
  fold_left (fun d c => snd (serve c d)) cs db.

Definition lookup (i : UUID) (db : DB) : option CropTarget.t :=
  find (fun r => Nat.eqb (CropTarget.id r) i) (crop_targets db).

Definition status_of (i : UUID) (db : DB) : option string :=
  option_map CropTarget.status (lookup i db).

(** The primary key holds. *)
Definition wf (db : DB) : Prop :=
  NoDup (map CropTarget.id (crop_targets db)).

(** The row that [BaseService.get] loads. *)
Definition find_active (i : UUID) (db : DB) : option CropTarget.t :=
  find (fun r => Nat.eqb (CropTarget.id r) i
                 && Bool.eqb (CropTarget.is_active r) true)
       (crop_targets db).

(** The table once [write_back] has put [new_] in the place of [old]. *)
Definition rewritten (e : Env) (old new_ : CropTarget.t)
           (l : list CropTarget.t) : list CropTarget.t :=
  if CropTarget.same_columns old new_ then l
  else map (fun r =>
              if Nat.eqb (CropTarget.id r) (CropTarget.id old)
              then CropTarget.set_updated_at (now e) new_
              else r) l.

Definition action_of (q : request) : string :=
  match q with
  | Create _ => "CREATE"
  | Update _ _ => "UPDATE"
  | Submit _ => "SUBMIT"
  | Decide _ a =>
      if String.eqb (ApprovalRequest.action a) "approve" then "APPROVE"
      else "REJECT"
  end.

(** The keywords [create_crop_target] builds the new row from. *)
Definition create_data (d : CropTargetCreate.t) (u : User.t) : dict :=
  dict_set "submitted_by" (VUuid (User.id u))
    (dict_set "state" (of_opt VStr (User.state u))
       (dict_set "district" (of_opt VStr (User.district u))
          (CropTargetCreate.dict d))).

(** The status graph of the routes of [server_new.py]. *)
Inductive arrow : string -> string -> Prop :=
| arrow_edit : arrow "draft" "draft"
| arrow_submit : arrow "draft" "submitted"
| arrow_approve st : st = "submitted" \/ st = "pending" -> arrow st "approved"
| arrow_reject st : st = "submitted" \/ st = "pending" -> arrow st "rejected".

(** What a request that went through did to the row it names. *)
Inductive moves (e : Env) (u : User.t)
  : request -> CropTarget.t -> CropTarget.t -> Prop :=
| moves_update i d old new_ :
    CropTarget.id old = i ->
    CropTarget.submitted_by old = User.id u ->
    CropTarget.is_editable old = true ->
    BaseService.assign old (drop_none (CropTargetUpdate.dict d))
    = Some new_ ->
    moves e u (Update i d) old new_
| moves_submit i old :
    CropTarget.id old = i ->
    CropTarget.submitted_by old = User.id u ->
    CropTarget.status old = "draft" ->
    moves e u (Submit i) old (CropTarget.submit_for_approval (now e) old)
| moves_approve i a old :
    CropTarget.id old = i ->
    ApprovalRequest.action a = "approve" ->
    CropTarget.is_pending_approval old = true ->
    moves e u (Decide i a) old
          (CropTarget.approve (now e) (User.id u)
                              (ApprovalRequest.remarks a) old)
| moves_reject i a reason old :
    CropTarget.id old = i ->
    ApprovalRequest.action a = "reject" ->
    ApprovalRequest.rejection_reason a = Some reason ->
    reason <> "" ->
    CropTarget.is_pending_approval old = true ->
    moves e u (Decide i a) old
          (CropTarget.reject (now e) (User.id u) reason old).

(** What a request that reached its [commit] left in the store: the
    changed or new row together with one audit row. *)
Inductive commits (c : call) (db db' : DB) : Prop :=
| commits_create d r0 a :
    plan c AtAudit = false ->
    plan c AtCommit = false ->
    what c = Create d ->
    CropTarget.init (new_id (env c)) (now (env c))
                    (create_data d (who c)) = Some r0 ->
    lookup (CropTarget.id r0) db = None ->
    AuditLog.action a = "CREATE" ->
    AuditLog.user_id a = Some (User.id (who c)) ->
    AuditLog.resource_id a = Some (CropTarget.id r0) ->
    db' = mkDB (crop_targets db ++ [CropTarget.calculate_metrics r0])
               (audit_logs db ++ [a]) ->
    commits c db db'
| commits_move old new_ a :
    plan c AtAudit = false ->
    plan c AtCommit = false ->
    find_active (CropTarget.id old) db = Some old ->
    moves (env c) (who c) (what c) old new_ ->
    AuditLog.action a = action_of (what c) ->
    AuditLog.user_id a = Some (User.id (who c)) ->
    AuditLog.resource_id a = Some (CropTarget.id old) ->
    db' = mkDB (rewritten (env c) old new_ (crop_targets db))
               (audit_logs db ++ [a]) ->
    commits c db db'.
End Api.

Module FlaskApi.
Import Flask.

Inductive request : Type :=
| Create (json : dict)
| Update (i : UUID) (json : dict)
| Resubmit (i : UUID)
| Decide (i : UUID) (json : dict).

Record call : Type := mkCall {
  who : Principal;
  env : Env;
  plan : point -> bool;
  what : request
}.

Definition handler (can_edit : CropTarget.t -> bool) (c : call)
  : M FDB Response :=
  match what c with
  | Create j => Routes.create_crop_target (env c) j (who c)
  | Update i j => Routes.update_crop_target can_edit (env c) i j (who c)
  | Resubmit i => Routes.resubmit_crop_target (env c) i (who c)
  | Decide i j => Routes.approve_crop_target (env c) i j (who c)
  end.

Definition serve (can_edit : CropTarget.t -> bool) (c : call) (db : FDB)
  : outcome Response * FDB :=
  run (handler can_edit c) (plan c) db.

Definition after (can_edit : CropTarget.t -> bool) (cs : list call)
           (db : FDB) : FDB :=
  fold_left (fun d c => snd (serve can_edit c d)) cs db.

Definition lookup (i : UUID) (db : FDB) : option CropTarget.t :=
  find (fun r => Nat.eqb (CropTarget.id r) i) (targets db).

Definition status_of (i : UUID) (db : FDB) : option string :=
  option_map CropTarget.status (lookup i db).

Definition wf (db : FDB) : Prop :=
  NoDup (map CropTarget.id (targets db)).

Definition rewritten (e : Env) (old new_ : CropTarget.t)
           (l : list CropTarget.t) : list CropTarget.t :=
  if CropTarget.same_columns old new_ then l
  else map (fun r =>
              if Nat.eqb (CropTarget.id r) (CropTarget.id old)
              then CropTarget.set_updated_at (now e) new_
              else r) l.

(** The keywords [VOService.create_crop_target] builds the new row
    from. *)
Definition create_kw (e : Env) (data : dict) (user_id : UUID) : dict :=
  let st := match dict_get "status" data with
            | Some v => v
            | None => VStr "draft"
            end in
  filter (fun kv => negb (String.eqb (fst kv) "status")) data
  ++ [("submitted_by", VUuid user_id); ("status", st);
      ("submitted_at",
       if value_eqb st (VStr "submitted") then VTime (now e) else VNone)].

(** The status graph of the routes of [vo/routes.py] and
    [bo/routes.py]. *)
Inductive arrow : string -> string -> Prop :=
| arrow_edit st : arrow st st
| arrow_resubmit st : st = "draft" \/ st = "rejected" -> arrow st "submitted"
| arrow_approve : arrow "submitted" "approved"
| arrow_reject : arrow "submitted" "rejected".

(** What a request that went through did to the row it names. *)
Inductive moves (can_edit : CropTarget.t -> bool) (e : Env) (p : Principal)
  : request -> CropTarget.t -> CropTarget.t -> Prop :=
| moves_update i json data old new_ :
    CropTarget.id old = i ->
    CropTarget.submitted_by old = identity p ->
    can_edit old = true ->
    load_fields VOUpdateSchema.fields json = Some data ->
    VOService.assign old data = Some new_ ->
    moves can_edit e p (Update i json) old
          (if String.eqb (CropTarget.status new_) "rejected"
           then CropTarget.set_rejection_comments None new_
           else new_)
| moves_resubmit i old :
    CropTarget.id old = i ->
    CropTarget.submitted_by old = identity p ->
    CropTarget.status old = "draft" \/ CropTarget.status old = "rejected" ->
    moves can_edit e p (Resubmit i) old
          (CropTarget.set_rejection_comments None
             (CropTarget.set_submitted_at (Some (now e))
                (CropTarget.set_status "submitted" old)))
| moves_approve i json old :
    CropTarget.id old = i ->
    CropTarget.status old = "submitted" ->
    dict_get "status" json = Some (VStr "approved") ->
    moves can_edit e p (Decide i json) old
          (CropTarget.set_rejection_comments None
             (CropTarget.set_approved_at (Some (now e))
                (CropTarget.set_approved_by (Some (identity p))
                   (CropTarget.set_status "approved" old))))
| moves_reject i json comments old :
    CropTarget.id old = i ->
    CropTarget.status old = "submitted" ->
    dict_get "status" json = Some (VStr "rejected") ->
    dict_get "rejection_comments" json = Some (VStr comments) ->
    comments <> "" ->
    moves can_edit e p (Decide i json) old
          (CropTarget.set_rejection_comments (Some comments)
             (CropTarget.set_approved_at (Some (now e))
                (CropTarget.set_approved_by (Some (identity p))
                   (CropTarget.set_status "rejected" old)))).

(** What a request that reached its [commit] left in the store; the audit
    table is as it was. *)
Inductive commits (can_edit : CropTarget.t -> bool) (c : call)
          (db db' : FDB) : Prop :=
| commits_create json data r :
    what c = Create json ->
    VOCreateSchema.load json (mkSession db db (plan c))
    = (Ok data, mkSession db db (plan c)) ->
    CropTarget.init (new_id (env c)) (now (env c))
                    (create_kw (env c) data (identity (who c))) = Some r ->
    lookup (CropTarget.id r) db = None ->
    db' = mkFDB (targets db ++ [r]) (audit_trail db) ->
    commits can_edit c db db'
| commits_move old new_ :
    In old (targets db) ->
    moves can_edit (env c) (who c) (what c) old new_ ->
    db' = mkFDB (rewritten (env c) old new_ (targets db)) (audit_trail db) ->
    commits can_edit c db db'.
End FlaskApi.

(** ** A small scenario used to exercise the statements *)

Module Scenario.
Definition vo : User.t := User.mk 7 "vo_user" "VO" (Some "Pune") (Some "MH") None.
Definition vo2 : User.t := User.mk 8 "vo_other" "VO" (Some "Pune") (Some "MH") None.
Definition bo : User.t := User.mk 9 "bo_user" "BO" None None None.

Definition rice : CropTargetCreate.t :=
  CropTargetCreate.mk 2025 "Kharif" "d" "s" "Wagholi" "Rice" None
                      100%Q 50%Q (Some (5 # 2)%Q) None.

Definition no_change : CropTargetUpdate.t :=
  CropTargetUpdate.mk None None None None None None None None None.

Definition more_area : CropTargetUpdate.t :=
  CropTargetUpdate.mk None None None None None None (Some 60%Q) None None.

Definition approve_it : ApprovalRequest.t :=
  ApprovalRequest.mk "approve" (Some "ok") None.

Definition reject_it (reason : string) : ApprovalRequest.t :=
  ApprovalRequest.mk "reject" None (Some reason).

Definition call (u : User.t) (t0 : DateTime) (a : UUID) (q : Api.request)
  : Api.call := Api.mkCall u (mkEnv t0 1 a) no_fault q.

Definition empty : DB := mkDB [] [].

(** One draft, then submitted, then approved or rejected. *)
Definition drafted : DB :=
  Api.after [call vo 10 100 (Api.Create rice)] empty.
Definition submitted : DB :=
  Api.after [call vo 20 101 (Api.Submit 1)] drafted.
Definition approved : DB :=
  Api.after [call bo 30 102 (Api.Decide 1 approve_it)] submitted.
Definition rejected : DB :=
  Api.after [call bo 30 102
               (Api.Decide 1 (reject_it "insufficient water allocation"))]
            submitted.

(** Requests that try to move the one record again. *)
Definition retries : list Api.call :=
  [call vo 40 103 (Api.Submit 1);
   call vo 41 104 (Api.Update 1 more_area);
   call bo 42 105 (Api.Decide 1 (reject_it "late"));
   call bo 43 106 (Api.Decide 1 approve_it)].

(** The same in the Flask stack. *)
Definition fvo : Flask.Principal := Flask.mkPrincipal 7 "VO".
Definition fvo2 : Flask.Principal := Flask.mkPrincipal 8 "VO".
Definition fbo : Flask.Principal := Flask.mkPrincipal 9 "BO".

Definition editable (r : Flask.CropTarget.t) : bool :=
  String.eqb (Flask.CropTarget.status r) "draft".

Definition rice_json : dict :=
  [("year", VInt 2025); ("season", VStr "Kharif"); ("village", VStr "Wagholi");
   ("crop", VStr "Rice"); ("variety", VStr "Indrayani");
   ("target_area", VNum 50%Q); ("date", VTime 5)].

Definition fcall (p : Flask.Principal) (t0 : DateTime) (q : FlaskApi.request)
  : FlaskApi.call := FlaskApi.mkCall p (mkEnv t0 1 0) no_fault q.

Definition fempty : Flask.FDB := Flask.mkFDB [] [].

Definition fdrafted : Flask.FDB :=
  FlaskApi.after editable [fcall fvo 10 (FlaskApi.Create rice_json)] fempty.
Definition fsubmitted : Flask.FDB :=
  FlaskApi.after editable [fcall fvo 20 (FlaskApi.Resubmit 1)] fdrafted.
Definition fapproved : Flask.FDB :=
  FlaskApi.after editable
    [fcall fbo 30 (FlaskApi.Decide 1 [("status", VStr "approved")])]
    fsubmitted.
Definition frejected : Flask.FDB :=
  FlaskApi.after editable
    [fcall fbo 30 (FlaskApi.Decide 1 [("status", VStr "rejected");
                                      ("rejection_comments", VStr "late")])]
    fsubmitted.

Definition fretries : list FlaskApi.call :=
  [fcall fvo 40 (FlaskApi.Resubmit 1);
   fcall fvo 41 (FlaskApi.Update 1 [("target_area", VNum 60%Q)]);
   fcall fbo 42 (FlaskApi.Decide 1 [("status", VStr "rejected");
                                    ("rejection_comments", VStr "late")])].
End Scenario.


(** * Properties *)

(** ** Columns and assignments *)

Ltac setattr_cases H v :=
  repeat match type of H with
    | (if String.eqb ?k ?c then _ else _) = Some _ =>
        destruct (String.eqb_spec k c);
        [ subst; destruct v; inversion H; subst; clear H;
          try reflexivity; try congruence
        | ]
    end;
  try discriminate.

Lemma setattr_id r k v r' :
  CropTarget.setattr r k v = Some r' -> k <> "id" ->
  CropTarget.id r' = CropTarget.id r.
Proof. unfold CropTarget.setattr; intros H Hk; setattr_cases H v. Qed.

Lemma setattr_status r k v r' :
  CropTarget.setattr r k v = Some r' -> k <> "status" ->
  CropTarget.status r' = CropTarget.status r.
Proof. unfold CropTarget.setattr; intros H Hk; setattr_cases H v. Qed.

Lemma setattr_rejection_reason r k v r' :
  CropTarget.setattr r k v = Some r' -> k <> "rejection_reason" ->
  CropTarget.rejection_reason r' = CropTarget.rejection_reason r.
Proof. unfold CropTarget.setattr; intros H Hk; setattr_cases H v. Qed.

Lemma setattr_is_active r k v r' :
  CropTarget.setattr r k v = Some r' -> k <> "is_active" ->
  CropTarget.is_active r' = CropTarget.is_active r.
Proof. unfold CropTarget.setattr; intros H Hk; setattr_cases H v. Qed.

Lemma setattr_submitted_by r k v r' :
  CropTarget.setattr r k v = Some r' -> k <> "submitted_by" ->
  CropTarget.submitted_by r' = CropTarget.submitted_by r.
Proof. unfold CropTarget.setattr; intros H Hk; setattr_cases H v. Qed.

Lemma setattr_expected_production r k v r' :
  CropTarget.setattr r k v = Some r' -> k <> "expected_production" ->
  CropTarget.expected_production r' = CropTarget.expected_production r.
Proof. unfold CropTarget.setattr; intros H Hk; setattr_cases H v. Qed.

(** ** One request against the store *)

Ltac unfold_session :=
  cbv beta iota zeta delta
      [run bind ret raise try_except get_working put_working storage flush
       commit rollback rows refresh write_back log_action add_target
       working committed faulty fst snd negb].

Ltac session_simpl := unfold_session.

Lemma find_active_id i db r :
  Api.find_active i db = Some r -> CropTarget.id r = i.
Proof.
  unfold Api.find_active; intros H.
  apply find_some in H; destruct H as [_ H].
  apply andb_true_iff in H; destruct H as [H _].
  now apply Nat.eqb_eq in H.
Qed.

Lemma submit_id t0 r : CropTarget.id (CropTarget.submit_for_approval t0 r) = CropTarget.id r.
Proof. unfold CropTarget.submit_for_approval; now destruct (String.eqb _ _). Qed.

Lemma approve_id t0 u rem r :
  CropTarget.id (CropTarget.approve t0 u rem r) = CropTarget.id r.
Proof. unfold CropTarget.approve; now destruct (truthy_str rem). Qed.

Lemma reject_id t0 u reason r :
  CropTarget.id (CropTarget.reject t0 u reason r) = CropTarget.id r.
Proof. reflexivity. Qed.

Lemma find_active_self i db r :
  Api.find_active i db = Some r -> Api.find_active (CropTarget.id r) db = Some r.
Proof. intros H. now rewrite (find_active_id _ _ H). Qed.

(** Closes a leaf where the request committed the change of [old]. *)
Ltac committed_move old Hq Hsame :=
  right; eapply Api.commits_move with (old := old);
  [ assumption | assumption
  | eapply find_active_self; eassumption
  | eassumption
  | | |
  | unfold Api.rewritten; rewrite Hsame; reflexivity ];
  [ first [rewrite Hq; reflexivity | symmetry; exact Hq | rewrite Hq; cbn; reflexivity]
  | reflexivity
  | cbn [AuditLog.resource_id AuditLog.new];
    rewrite ?submit_id, ?approve_id, ?reject_id; reflexivity ].

Ltac split_tail c :=
  (destruct (Api.plan c AtAudit) eqn:?; session_simpl; [left; eauto|]);
  (destruct (Api.plan c AtCommit) eqn:?; session_simpl; [left; eauto|]);
  destruct (Api.plan c AtRefresh) eqn:?; session_simpl;
  try match goal with |- context [find ?p ?l] =>
        destruct (find p l) eqn:? end; session_simpl.

Lemma submit_cases c i db :
  Api.what c = Api.Submit i ->
  (snd (Api.serve c db) = db /\ exists ex, fst (Api.serve c db) = Raise ex)
  \/ Api.commits c db (snd (Api.serve c db)).
Proof.
  intros Hq. unfold Api.serve, Api.handler. rewrite Hq.
  unfold ServerNew.submit_crop_target, ServerNew.require_role,
    CropTargetService.submit_for_approval, BaseService.get.
  unfold_session; session_simpl.
  match goal with |- context [existsb ?p ?l] => destruct (existsb p l) end;
    session_simpl; [| left; eauto].
  match goal with |- context [find ?p (crop_targets db)] =>
    destruct (find p (crop_targets db)) as [old|] eqn:Hf end;
    session_simpl; [| left; eauto].
  destruct (Nat.eqb_spec (CropTarget.submitted_by old) (User.id (Api.who c)));
    session_simpl; [| left; eauto].
  destruct (String.eqb_spec (CropTarget.status old) "draft");
    session_simpl; [| left; eauto].
  pose proof (find_active_id _ _ Hf) as Hid.
  assert (Hmv : Api.moves (Api.env c) (Api.who c) (Api.what c) old
                  (CropTarget.submit_for_approval (now (Api.env c)) old)).
  { rewrite Hq. now constructor. }
  match goal with |- context [CropTarget.same_columns ?a ?b] =>
    destruct (CropTarget.same_columns a b) eqn:Hsame end; session_simpl.
  all: split_tail c.
  all: committed_move old Hq Hsame.
Qed.

Ltac on_role :=
  match goal with |- context [existsb ?p ?l] => destruct (existsb p l) end;
  session_simpl; [| left; eauto].

Ltac on_found db old Hf :=
  match goal with |- context [find ?p (crop_targets db)] =>
    destruct (find p (crop_targets db)) as [old|] eqn:Hf end;
  session_simpl; [| left; eauto].

Ltac on_same Hsame :=
  match goal with |- context [CropTarget.same_columns ?a ?b] =>
    destruct (CropTarget.same_columns a b) eqn:Hsame end; session_simpl.

Lemma decide_cases c i a db :
  Api.what c = Api.Decide i a ->
  (snd (Api.serve c db) = db /\ exists ex, fst (Api.serve c db) = Raise ex)
  \/ Api.commits c db (snd (Api.serve c db)).
Proof.
  intros Hq. unfold Api.serve, Api.handler. rewrite Hq.
  unfold ServerNew.approve_crop_target, ServerNew.require_role,
    ServerNew.validated, CropTargetService.approve_target,
    CropTargetService.reject_target, BaseService.get.
  unfold_session.
  on_role.
  destruct (ApprovalRequest.valid a); session_simpl; [| left; eauto].
  destruct (String.eqb_spec (ApprovalRequest.action a) "approve") as [Ha|Ha];
    session_simpl.
  - on_found db old Hf.
    destruct (CropTarget.is_pending_approval old) eqn:Hp; session_simpl;
      [| left; eauto].
    pose proof (find_active_id _ _ Hf) as Hid.
    assert (Hmv : Api.moves (Api.env c) (Api.who c) (Api.what c) old
                    (CropTarget.approve (now (Api.env c)) (User.id (Api.who c))
                       (ApprovalRequest.remarks a) old)).
    { rewrite Hq. now constructor. }
    assert (Hact : Api.action_of (Api.what c) = "APPROVE").
    { rewrite Hq. cbn. now rewrite Ha. }
    on_same Hsame; split_tail c; committed_move old Hact Hsame.
  - destruct (String.eqb_spec (ApprovalRequest.action a) "reject") as [Hr|Hr];
      session_simpl; [| left; eauto].
    destruct (ApprovalRequest.rejection_reason a) as [reason|] eqn:Hreason;
      session_simpl; [| left; eauto].
    destruct (String.eqb_spec reason "") as [He|He]; session_simpl;
      [left; eauto|].
    on_found db old Hf.
    destruct (CropTarget.is_pending_approval old) eqn:Hp; session_simpl;
      [| left; eauto].
    pose proof (find_active_id _ _ Hf) as Hid.
    assert (Hmv : Api.moves (Api.env c) (Api.who c) (Api.what c) old
                    (CropTarget.reject (now (Api.env c)) (User.id (Api.who c))
                       reason old)).
    { rewrite Hq. now constructor. }
    assert (Hact : Api.action_of (Api.what c) = "REJECT").
    { rewrite Hq. cbn. rewrite Hr. reflexivity. }
    on_same Hsame; split_tail c; committed_move old Hact Hsame.
Qed.

Lemma existsb_find_none {A} (p : A -> bool) l :
  existsb p l = false -> find p l = None.
Proof.
  induction l as [|x l IH]; cbn; [reflexivity|].
  destruct (p x); cbn; [discriminate | exact IH].
Qed.

Lemma calculate_metrics_id r :
  CropTarget.id (CropTarget.calculate_metrics r) = CropTarget.id r.
Proof.
  unfold CropTarget.calculate_metrics.
  destruct (CropTarget.target_yield r); [|reflexivity].
  now destruct (_ && _).
Qed.

Lemma update_cases c i d db :
  Api.what c = Api.Update i d ->
  (snd (Api.serve c db) = db /\ exists ex, fst (Api.serve c db) = Raise ex)
  \/ Api.commits c db (snd (Api.serve c db)).
Proof.
  intros Hq. unfold Api.serve, Api.handler. rewrite Hq.
  unfold ServerNew.update_crop_target, ServerNew.require_role,
    ServerNew.validated, BaseService.update, BaseService.audit_if,
    BaseService.get.
  unfold_session.
  on_role.
  destruct (CropTargetUpdate.valid d); session_simpl; [| left; eauto].
  match goal with |- context [find ?p (crop_targets db)] =>
    destruct (find p (crop_targets db)) as [old|] eqn:Hf end.
  all: session_simpl.
  2: left; eauto.
  destruct (Nat.eqb_spec (CropTarget.submitted_by old) (User.id (Api.who c)))
    as [Hown|Hown]; session_simpl; [| left; eauto].
  destruct (CropTarget.is_editable old) eqn:Hed; session_simpl;
    [| left; eauto].
  destruct (BaseService.assign old (drop_none (CropTargetUpdate.dict d)))
    as [new_|] eqn:Hasg;
    [| rewrite Hf; session_simpl; rewrite Hasg; session_simpl; left; eauto].
  pose proof (find_active_id _ _ Hf) as Hid.
  assert (Hmv : Api.moves (Api.env c) (Api.who c) (Api.what c) old new_).
  { rewrite Hq. now constructor. }
  assert (Hact : Api.action_of (Api.what c) = "UPDATE") by now rewrite Hq.
  rewrite Hf; session_simpl. rewrite Hasg; session_simpl.
  on_same Hsame;
    (destruct (Api.plan c AtFlush) eqn:?; session_simpl; [left; eauto|]);
    split_tail c; committed_move old Hact Hsame.
Qed.

Lemma create_cases c d db :
  Api.what c = Api.Create d ->
  (snd (Api.serve c db) = db /\ exists ex, fst (Api.serve c db) = Raise ex)
  \/ Api.commits c db (snd (Api.serve c db)).
Proof.
  intros Hq. unfold Api.serve, Api.handler. rewrite Hq.
  unfold ServerNew.create_crop_target, ServerNew.require_role,
    ServerNew.validated, CropTargetService.create_crop_target.
  unfold_session.
  on_role.
  destruct (CropTargetCreate.valid d); session_simpl; [| left; eauto].
  fold (Api.create_data d (Api.who c)).
  destruct (CropTarget.init (new_id (Api.env c)) (now (Api.env c))
              (Api.create_data d (Api.who c))) as [r0|] eqn:Hinit;
    session_simpl; [| left; eauto].
  match goal with |- context [existsb ?p (crop_targets db)] =>
    destruct (existsb p (crop_targets db)) eqn:Hex end;
    session_simpl; [left; eauto|].
  (destruct (Api.plan c AtFlush) eqn:?; session_simpl; [left; eauto|]).
  split_tail c.
  all: right; eapply Api.commits_create with (r0 := r0);
    [ assumption | assumption
    | exact Hq | exact Hinit | | | | | reflexivity ]; try reflexivity.
  all: try (cbn [AuditLog.resource_id AuditLog.new];
            now rewrite calculate_metrics_id).
  all: unfold Api.lookup; apply existsb_find_none;
    rewrite calculate_metrics_id in Hex; exact Hex.
Qed.

Theorem serve_cases c db :
  (snd (Api.serve c db) = db /\ exists ex, fst (Api.serve c db) = Raise ex)
  \/ Api.commits c db (snd (Api.serve c db)).
Proof.
  destruct (Api.what c) eqn:Hq.
  - eapply create_cases; eassumption.
  - eapply update_cases; eassumption.
  - eapply submit_cases; eassumption.
  - eapply decide_cases; eassumption.
Qed.

Lemma serve_ok_commits c db r :
  fst (Api.serve c db) = Ok r -> Api.commits c db (snd (Api.serve c db)).
Proof.
  intros H. destruct (serve_cases c db) as [[_ [ex Hex]]|Hc]; [|exact Hc].
  rewrite H in Hex; discriminate.
Qed.

(** ** What a committed request does to a row *)

Lemma set_all_keeps {A} (proj : CropTarget.t -> A) (col : string) :
  (forall r k v r', CropTarget.setattr r k v = Some r' -> k <> col ->
                    proj r' = proj r) ->
  forall kw r r', CropTarget.set_all r kw = Some r' ->
                  ~ In col (map fst kw) -> proj r' = proj r.
Proof.
  intros Hframe kw; induction kw as [|[k v] kw IH]; cbn; intros r r' H Hin.
  - now inversion H.
  - destruct (CropTarget.setattr r k v) as [r1|] eqn:Hs; [|discriminate].
    rewrite (IH _ _ H); [| tauto].
    eapply Hframe; [eassumption | intros ->; tauto].
Qed.

Lemma assign_keeps {A} (proj : CropTarget.t -> A) (col : string) :
  (forall r k v r', CropTarget.setattr r k v = Some r' -> k <> col ->
                    proj r' = proj r) ->
  forall kw r r', BaseService.assign r kw = Some r' ->
                  ~ In col (map fst kw) -> proj r' = proj r.
Proof.
  intros Hframe kw; induction kw as [|[k v] kw IH]; cbn; intros r r' H Hin.
  - now inversion H.
  - destruct (CropTarget.hasattr r k).
    + destruct (CropTarget.setattr r k v) as [r1|] eqn:Hs; [|discriminate].
      rewrite (IH _ _ H); [| tauto].
      eapply Hframe; [eassumption | intros ->; tauto].
    + apply IH; [assumption | tauto].
Qed.

Lemma drop_none_keys d k : In k (map fst (drop_none d)) -> In k (map fst d).
Proof.
  unfold drop_none. rewrite !in_map_iff.
  intros [x [Hx Hin]]. apply filter_In in Hin. exists x; tauto.
Qed.

Lemma update_keys d k :
  In k (map fst (drop_none (CropTargetUpdate.dict d))) ->
  In k ["year"; "season"; "village"; "crop_name"; "crop_variety";
        "cultivable_area"; "target_area"; "target_yield"; "remarks"].
Proof. intros H. apply drop_none_keys in H. exact H. Qed.

Ltac not_a_key :=
  let H := fresh in
  intros H; first [apply update_keys in H | idtac]; cbn in H;
  repeat (destruct H as [H|H]; [discriminate|]); exact H.

Lemma create_keys d u :
  map fst (Api.create_data d u)
  = ["year"; "season"; "district"; "state"; "village"; "crop_name";
     "crop_variety"; "cultivable_area"; "target_area"; "target_yield";
     "remarks"; "submitted_by"].
Proof. reflexivity. Qed.

Lemma calculate_metrics_status r :
  CropTarget.status (CropTarget.calculate_metrics r) = CropTarget.status r.
Proof.
  unfold CropTarget.calculate_metrics.
  destruct (CropTarget.target_yield r); [|reflexivity].
  now destruct (_ && _).
Qed.

Lemma calculate_metrics_rejection_reason r :
  CropTarget.rejection_reason (CropTarget.calculate_metrics r)
  = CropTarget.rejection_reason r.
Proof.
  unfold CropTarget.calculate_metrics.
  destruct (CropTarget.target_yield r); [|reflexivity].
  now destruct (_ && _).
Qed.

Lemma init_create_row e d u r0 :
  CropTarget.init (new_id e) (now e) (Api.create_data d u) = Some r0 ->
  CropTarget.id r0 = new_id e
  /\ CropTarget.status r0 = "draft"
  /\ CropTarget.rejection_reason r0 = None
  /\ CropTarget.submitted_by r0 = User.id u.
Proof.
  unfold CropTarget.init. destruct (forallb _ _); [|discriminate].
  intros H. repeat split.
  - rewrite (set_all_keeps CropTarget.id setattr_id _ _ H); [reflexivity|].
    rewrite create_keys. not_a_key.
  - rewrite (set_all_keeps CropTarget.status setattr_status _ _ H);
      [reflexivity|]. rewrite create_keys. not_a_key.
  - rewrite (set_all_keeps CropTarget.rejection_reason
               setattr_rejection_reason _ _ H); [reflexivity|].
    rewrite create_keys. not_a_key.
  - revert H. unfold Api.create_data, CropTargetCreate.dict.
    cbn [dict_set String.eqb Ascii.eqb Bool.eqb].
    cbn.
    repeat match goal with
           | |- context [match ?x with _ => _ end] => destruct x
           end; intros H; inversion H; reflexivity.
Qed.

Lemma same_columns_status a b :
  CropTarget.same_columns a b = true -> CropTarget.status a = CropTarget.status b.
Proof.
  unfold CropTarget.same_columns. intros H.
  rewrite forallb_forall in H.
  specialize (H "status"). cbn in H.
  apply String.eqb_eq, H. tauto.
Qed.

Lemma same_columns_rejection_reason a b :
  CropTarget.same_columns a b = true ->
  CropTarget.rejection_reason a = CropTarget.rejection_reason b.
Proof.
  unfold CropTarget.same_columns. intros H.
  rewrite forallb_forall in H.
  specialize (H "rejection_reason"). cbn in H.
  assert (Hin : value_eqb (of_opt VStr (CropTarget.rejection_reason a))
                  (of_opt VStr (CropTarget.rejection_reason b)) = true).
  { apply H. cbn. tauto. }
  destruct (CropTarget.rejection_reason a), (CropTarget.rejection_reason b);
    cbn in Hin; try discriminate; [|reflexivity].
  apply String.eqb_eq in Hin. now subst.
Qed.

Lemma moves_id e u q old new_ :
  Api.moves e u q old new_ -> CropTarget.id new_ = CropTarget.id old.
Proof.
  intros H; destruct H.
  - eapply (assign_keeps CropTarget.id setattr_id); [eassumption|]. not_a_key.
  - apply submit_id.
  - apply approve_id.
  - apply reject_id.
Qed.

Lemma approve_status t0 u rem r :
  CropTarget.status (CropTarget.approve t0 u rem r) = "approved".
Proof. unfold CropTarget.approve; now destruct (truthy_str rem). Qed.

Lemma approve_rejection_reason t0 u rem r :
  CropTarget.rejection_reason (CropTarget.approve t0 u rem r)
  = CropTarget.rejection_reason r.
Proof. unfold CropTarget.approve; now destruct (truthy_str rem). Qed.

Lemma pending_status r :
  CropTarget.is_pending_approval r = true ->
  CropTarget.status r = "submitted" \/ CropTarget.status r = "pending".
Proof.
  unfold CropTarget.is_pending_approval. intros H.
  apply orb_true_iff in H. destruct H as [H|H]; apply String.eqb_eq in H; tauto.
Qed.

Lemma moves_arrow e u q old new_ :
  Api.moves e u q old new_ ->
  Api.arrow (CropTarget.status old) (CropTarget.status new_).
Proof.
  intros H; destruct H.
  - rewrite (assign_keeps CropTarget.status setattr_status _ _ H2);
      [| not_a_key].
    unfold CropTarget.is_editable in H1. apply String.eqb_eq in H1.
    rewrite H1. constructor.
  - unfold CropTarget.submit_for_approval. rewrite H1. cbn. constructor.
  - rewrite approve_status. constructor. now apply pending_status.
  - cbn. constructor. now apply pending_status.
Qed.

Lemma moves_reason e u q old new_ :
  Api.moves e u q old new_ ->
  (CropTarget.status new_ <> "rejected"
   /\ CropTarget.rejection_reason new_ = CropTarget.rejection_reason old)
  \/ (CropTarget.status new_ = "rejected"
      /\ exists reason, reason <> ""
                        /\ CropTarget.rejection_reason new_ = Some reason).
Proof.
  intros H; pose proof (moves_arrow H) as Ha; destruct H.
  - left. split.
    + rewrite (assign_keeps CropTarget.status setattr_status _ _ H2);
        [| not_a_key].
      unfold CropTarget.is_editable in H1. apply String.eqb_eq in H1.
      rewrite H1. discriminate.
    + eapply (assign_keeps CropTarget.rejection_reason
                setattr_rejection_reason); [eassumption | not_a_key].
  - left. unfold CropTarget.submit_for_approval. rewrite H1. cbn.
    split; [discriminate | reflexivity].
  - left. rewrite approve_status, approve_rejection_reason.
    split; [discriminate | reflexivity].
  - right. cbn. split; [reflexivity|]. exists reason. tauto.
Qed.

(** ** Looking a row up before and after a request *)

Lemma find_map_same_id (l : list CropTarget.t) (g : CropTarget.t -> CropTarget.t) i :
  (forall r, CropTarget.id (g r) = CropTarget.id r) ->
  find (fun r => Nat.eqb (CropTarget.id r) i) (map g l)
  = option_map g (find (fun r => Nat.eqb (CropTarget.id r) i) l).
Proof.
  intros Hg. induction l as [|x l IH]; cbn; [reflexivity|].
  rewrite Hg. destruct (Nat.eqb (CropTarget.id x) i); [reflexivity | exact IH].
Qed.

Lemma lookup_in i db r : Api.lookup i db = Some r ->
  In r (crop_targets db) /\ CropTarget.id r = i.
Proof.
  unfold Api.lookup. intros H. apply find_some in H.
  destruct H as [H1 H2]. apply Nat.eqb_eq in H2. tauto.
Qed.

Lemma nodup_find_id (l : list CropTarget.t) r :
  NoDup (map CropTarget.id l) -> In r l ->
  find (fun x => Nat.eqb (CropTarget.id x) (CropTarget.id r)) l = Some r.
Proof.
  induction l as [|x l IH]; cbn; intros Hnd Hin; [contradiction|].
  inversion Hnd as [|? ? Hnotin Hnd']; subst.
  destruct Hin as [->|Hin].
  - now rewrite Nat.eqb_refl.
  - destruct (Nat.eqb_spec (CropTarget.id x) (CropTarget.id r)) as [E|E].
    + exfalso. apply Hnotin. rewrite E. now apply in_map.
    + now apply IH.
Qed.

Lemma find_active_lookup i db r :
  Api.wf db -> Api.find_active i db = Some r ->
  Api.lookup (CropTarget.id r) db = Some r.
Proof.
  intros Hwf H. unfold Api.find_active in H. apply find_some in H.
  apply nodup_find_id; tauto.
Qed.

Lemma lookup_app_new db r A i :
  Api.lookup (CropTarget.id r) db = None ->
  Api.lookup i (mkDB (crop_targets db ++ [r]) A)
  = match Api.lookup i db with
    | Some x => Some x
    | None => if Nat.eqb (CropTarget.id r) i then Some r else None
    end.
Proof.
  unfold Api.lookup; cbn. intros _.
  induction (crop_targets db) as [|x l IH]; cbn.
  - reflexivity.
  - destruct (Nat.eqb (CropTarget.id x) i); [reflexivity | exact IH].
Qed.

Lemma lookup_rewritten e old new_ db A i :
  CropTarget.id new_ = CropTarget.id old ->
  Api.lookup i (mkDB (Api.rewritten e old new_ (crop_targets db)) A)
  = if CropTarget.same_columns old new_ then Api.lookup i db
    else option_map
           (fun r => if Nat.eqb (CropTarget.id r) (CropTarget.id old)
                     then CropTarget.set_updated_at (now e) new_ else r)
           (Api.lookup i db).
Proof.
  intros Hid. unfold Api.lookup, Api.rewritten; cbn [crop_targets].
  destruct (CropTarget.same_columns old new_); [reflexivity|].
  apply find_map_same_id. intros r.
  destruct (Nat.eqb_spec (CropTarget.id r) (CropTarget.id old)) as [E|E];
    [cbn; congruence | reflexivity].
Qed.

Lemma rewritten_ids e old new_ l :
  CropTarget.id new_ = CropTarget.id old ->
  map CropTarget.id (Api.rewritten e old new_ l) = map CropTarget.id l.
Proof.
  intros Hid. unfold Api.rewritten.
  destruct (CropTarget.same_columns old new_); [reflexivity|].
  rewrite map_map. apply map_ext. intros r.
  destruct (Nat.eqb_spec (CropTarget.id r) (CropTarget.id old)) as [E|E];
    [cbn; congruence | reflexivity].
Qed.

Lemma lookup_none_not_in i db :
  Api.lookup i db = None -> ~ In i (map CropTarget.id (crop_targets db)).
Proof.
  unfold Api.lookup. intros H Hin. apply in_map_iff in Hin.
  destruct Hin as [r [Hr Hin]].
  apply (find_none _ _ H) in Hin. rewrite Hr, Nat.eqb_refl in Hin.
  discriminate.
Qed.

Lemma commits_wf c db db' : Api.wf db -> Api.commits c db db' -> Api.wf db'.
Proof.
  unfold Api.wf. intros Hwf H; destruct H as [d r0 a _ _ Hq Hi Hl _ _ _ ->
                                              |old new_ a _ _ Hf Hm _ _ _ ->]; cbn.
  - rewrite map_app; cbn [map]. rewrite calculate_metrics_id.
    apply NoDup_app; [assumption | repeat constructor; intros [] |].
    intros x Hx [<-|[]]. revert Hx. now apply lookup_none_not_in.
  - rewrite rewritten_ids; [assumption | eapply moves_id; eassumption].
Qed.

Lemma commits_lookup c db db' i :
  Api.wf db -> Api.commits c db db' ->
  Api.lookup i db' = Api.lookup i db
  \/ (Api.lookup i db = None
      /\ exists r', Api.lookup i db' = Some r'
                    /\ CropTarget.status r' = "draft"
                    /\ CropTarget.rejection_reason r' = None)
  \/ (exists r r',
        Api.lookup i db = Some r /\ Api.lookup i db' = Some r'
        /\ Api.arrow (CropTarget.status r) (CropTarget.status r')
        /\ ((CropTarget.status r' <> "rejected"
             /\ CropTarget.rejection_reason r' = CropTarget.rejection_reason r)
            \/ (CropTarget.status r' = "rejected"
                /\ exists reason,
                     reason <> ""
                     /\ CropTarget.rejection_reason r' = Some reason))).
Proof.
  intros Hwf H; destruct H as [d r0 a _ _ Hq Hi Hl _ _ _ ->
                              |old new_ a _ _ Hf Hm _ _ _ ->].
  - rewrite lookup_app_new
      by (rewrite calculate_metrics_id; exact Hl).
    destruct (Api.lookup i db) as [x|] eqn:Hx; [now left|].
    rewrite calculate_metrics_id.
    destruct (Nat.eqb (CropTarget.id r0) i); [|now left].
    right; left. split; [reflexivity|].
    eexists; split; [reflexivity|].
    rewrite calculate_metrics_status, calculate_metrics_rejection_reason.
    apply init_create_row in Hi. tauto.
  - pose proof (moves_id Hm) as Hid.
    rewrite lookup_rewritten by exact Hid.
    destruct (CropTarget.same_columns old new_); [now left|].
    destruct (Api.lookup i db) as [r|] eqn:Hr; [|now left].
    cbn [option_map].
    destruct (Nat.eqb_spec (CropTarget.id r) (CropTarget.id old)) as [E|E];
      [|now left].
    pose proof (find_active_lookup _ Hwf Hf) as Hold.
    apply lookup_in in Hr as Hr'. destruct Hr' as [_ Hri].
    assert (r = old) as -> by (rewrite <- E, Hri, Hr in Hold; congruence).
    right; right. exists old, (CropTarget.set_updated_at (now (Api.env c)) new_).
    repeat split; [exact (moves_arrow Hm) | exact (moves_reason Hm)].
Qed.

Lemma serve_wf c db : Api.wf db -> Api.wf (snd (Api.serve c db)).
Proof.
  intros Hwf. destruct (serve_cases c db) as [[-> _]|Hc]; [assumption|].
  eapply commits_wf; eassumption.
Qed.


(** One request moves the status of a row along an arrow of the graph, or
    leaves the row as it is. *)
Lemma serve_status c db i st :
  Api.wf db -> Api.status_of i db = Some st ->
  Api.status_of i (snd (Api.serve c db)) = Some st
  \/ exists st', Api.status_of i (snd (Api.serve c db)) = Some st'
                 /\ Api.arrow st st'.
Proof.
  intros Hwf Hst. unfold Api.status_of in *.
  destruct (serve_cases c db) as [[-> _]|Hc]; [now left|].
  destruct (commits_lookup i Hwf Hc) as [->|[[Hn _]|[r [r' [Hr [Hr' [Ha _]]]]]]].
  - now left.
  - rewrite Hn in Hst; discriminate.
  - right. rewrite Hr in Hst; cbn in Hst. inversion Hst; subst.
    exists (CropTarget.status r'). rewrite Hr'. split; [reflexivity | exact Ha].
Qed.

Lemma approved_stays c db i :
  Api.wf db -> Api.status_of i db = Some "approved" ->
  Api.status_of i (snd (Api.serve c db)) = Some "approved".
Proof.
  intros Hwf Hst.
  destruct (serve_status c i Hwf Hst) as [H|[st' [_ Ha]]]; [exact H|].
  inversion Ha as [| |st [E|E]|st [E|E]]; discriminate.
Qed.

Lemma draft_next c db i :
  Api.wf db -> Api.status_of i db = Some "draft" ->
  Api.status_of i (snd (Api.serve c db)) = Some "draft"
  \/ Api.status_of i (snd (Api.serve c db)) = Some "submitted".
Proof.
  intros Hwf Hst.
  destruct (serve_status c i Hwf Hst) as [H|[st' [H Ha]]]; [now left|].
  inversion Ha as [| |st [E|E]|st [E|E]]; subst; try discriminate; tauto.
Qed.

(** ** The Flask stack: one request against the store *)

Ltac unfold_flask :=
  cbv beta iota zeta delta
      [run bind ret raise try_except get_working put_working storage flush
       commit rollback Flask.rows Flask.add Flask.delete Flask.write_back
       Flask.require_role Flask.safe_execute Flask.invalid_input
       Flask.success_response Flask.error_response
       working committed faulty fst snd negb].

Ltac flask_role :=
  match goal with |- context [existsb ?p ?l] => destruct (existsb p l) end;
  unfold_flask; [| now left].

Ltac flask_found db old Hf :=
  match goal with |- context [find ?p (Flask.targets db)] =>
    destruct (find p (Flask.targets db)) as [old|] eqn:Hf end;
  unfold_flask; [| now left].

Ltac flask_same Hsame :=
  match goal with |- context [Flask.CropTarget.same_columns ?a ?b] =>
    destruct (Flask.CropTarget.same_columns a b) eqn:Hsame end;
  unfold_flask.

Ltac flask_moved old Hf Hsame :=
  right; eapply FlaskApi.commits_move with (old := old);
  [ apply find_some in Hf; tauto
  | eassumption
  | unfold FlaskApi.rewritten; rewrite Hsame; reflexivity ].

Lemma flask_owner_found i u l old :
  find (fun r => Nat.eqb (Flask.CropTarget.id r) i
                 && Nat.eqb (Flask.CropTarget.submitted_by r) u) l = Some old ->
  Flask.CropTarget.id old = i /\ Flask.CropTarget.submitted_by old = u.
Proof.
  intros H. apply find_some in H. destruct H as [_ H].
  apply andb_true_iff in H. destruct H as [H1 H2].
  apply Nat.eqb_eq in H1, H2. tauto.
Qed.

Lemma flask_resubmit_cases can_edit c i db :
  FlaskApi.what c = FlaskApi.Resubmit i ->
  snd (FlaskApi.serve can_edit c db) = db
  \/ FlaskApi.commits can_edit c db (snd (FlaskApi.serve can_edit c db)).
Proof.
  intros Hq. unfold FlaskApi.serve, FlaskApi.handler. rewrite Hq.
  unfold Flask.Routes.resubmit_crop_target,
    Flask.VOService.resubmit_crop_target,
    Flask.VOService.get_crop_target_by_id.
  unfold_flask.
  flask_role. flask_found db old Hf.
  destruct (flask_owner_found _ _ _ Hf) as [Hid Hown].
  assert (Hst : (String.eqb (Flask.CropTarget.status old) "draft"
                 || String.eqb (Flask.CropTarget.status old) "rejected")
                = true
                -> FlaskApi.moves can_edit (FlaskApi.env c) (FlaskApi.who c)
                     (FlaskApi.what c) old
                     (Flask.CropTarget.set_rejection_comments None
                        (Flask.CropTarget.set_submitted_at
                           (Some (now (FlaskApi.env c)))
                           (Flask.CropTarget.set_status "submitted" old)))).
  { intros H. rewrite Hq. constructor; try assumption.
    apply orb_true_iff in H. destruct H as [H|H]; apply String.eqb_eq in H;
      tauto. }
  destruct (String.eqb (Flask.CropTarget.status old) "draft"
            || String.eqb (Flask.CropTarget.status old) "rejected");
    unfold_flask; [| now left].
  specialize (Hst eq_refl).
  flask_same Hsame;
    (destruct (FlaskApi.plan c AtCommit); unfold_flask; [now left|]).
  - now left.
  - flask_moved old Hf Hsame.
Qed.

Ltac flask_step :=
  unfold_flask;
  cbn [dict_get String.eqb Ascii.eqb Bool.eqb truthy_str
       CropTargetService.truthy andb orb];
  unfold_flask.

Lemma flask_decide_cases can_edit c i json db :
  FlaskApi.what c = FlaskApi.Decide i json ->
  snd (FlaskApi.serve can_edit c db) = db
  \/ FlaskApi.commits can_edit c db (snd (FlaskApi.serve can_edit c db)).
Proof.
  intros Hq. unfold FlaskApi.serve, FlaskApi.handler. rewrite Hq.
  unfold Flask.Routes.approve_crop_target,
    Flask.BOService.approve_crop_target, Flask.BOApprovalSchema.load,
    Flask.BOApprovalSchema.load_fields,
    Flask.BOApprovalSchema.validate_rejection.
  unfold_flask.
  flask_role.
  destruct (Flask.known _ json); unfold_flask; [| now left].
  destruct (dict_get "status" json) as [[ |st| | | | | ]|] eqn:Hst;
    unfold_flask; try now left.
  destruct (String.eqb_spec st "approved") as [Ha|Ha]; cbn [orb].
  - subst st.
    destruct (dict_get "rejection_comments" json) as [[ |cm| | | | | ]|] eqn:Hc;
      flask_step; try now left.
    2: destruct (len_between 0 1000 cm); flask_step; try now left.
    all: flask_found db old Hf.
    all: destruct (String.eqb_spec (Flask.CropTarget.status old) "submitted")
      as [Hs|Hs]; flask_step; [| now left].
    all: assert (Hmv : FlaskApi.moves can_edit (FlaskApi.env c) (FlaskApi.who c)
                    (FlaskApi.what c) old
                    (Flask.CropTarget.set_rejection_comments None
                       (Flask.CropTarget.set_approved_at
                          (Some (now (FlaskApi.env c)))
                          (Flask.CropTarget.set_approved_by
                             (Some (Flask.identity (FlaskApi.who c)))
                             (Flask.CropTarget.set_status "approved" old)))))
      by (rewrite Hq; constructor; try assumption;
          apply find_some in Hf; destruct Hf as [_ Hf];
          now apply Nat.eqb_eq in Hf).
    all: flask_same Hsame;
      (destruct (FlaskApi.plan c AtCommit); unfold_flask; [now left|]);
      [now left | flask_moved old Hf Hsame].
  - destruct (String.eqb_spec st "rejected") as [Hr|Hr]; cbn [orb];
      unfold_flask; [| now left].
    subst st.
    destruct (dict_get "rejection_comments" json) as [[ |cm| | | | | ]|] eqn:Hc;
      flask_step; try now left.
    destruct (len_between 0 1000 cm); flask_step; [| now left].
    destruct (String.eqb_spec cm "") as [Hcm|Hcm]; flask_step; [now left|].
    flask_found db old Hf.
    destruct (String.eqb_spec (Flask.CropTarget.status old) "submitted")
      as [Hs|Hs]; flask_step; [| now left].
    destruct (String.eqb_spec cm "") as [Hcm'|_]; [contradiction|].
    flask_step.
    assert (Hmv : FlaskApi.moves can_edit (FlaskApi.env c) (FlaskApi.who c)
                    (FlaskApi.what c) old
                    (Flask.CropTarget.set_rejection_comments (Some cm)
                       (Flask.CropTarget.set_approved_at
                          (Some (now (FlaskApi.env c)))
                          (Flask.CropTarget.set_approved_by
                             (Some (Flask.identity (FlaskApi.who c)))
                             (Flask.CropTarget.set_status "rejected" old)))))
      by (rewrite Hq; econstructor; try eassumption;
          apply find_some in Hf; destruct Hf as [_ Hf];
          now apply Nat.eqb_eq in Hf).
    flask_same Hsame;
      (destruct (FlaskApi.plan c AtCommit); unfold_flask; [now left|]);
      [now left | flask_moved old Hf Hsame].
Qed.

Lemma vo_create_load_pure json s o s' :
  Flask.VOCreateSchema.load json s = (o, s') -> s' = s.
Proof.
  unfold Flask.VOCreateSchema.load.
  destruct (Flask.known _ json); [|now inversion 1].
  destruct (Flask.load_fields _ json) as [data|]; [|now inversion 1].
  destruct (dict_get "status" data); now inversion 1.
Qed.

Lemma flask_update_cases can_edit c i json db :
  FlaskApi.what c = FlaskApi.Update i json ->
  snd (FlaskApi.serve can_edit c db) = db
  \/ FlaskApi.commits can_edit c db (snd (FlaskApi.serve can_edit c db)).
Proof.
  intros Hq. unfold FlaskApi.serve, FlaskApi.handler. rewrite Hq.
  unfold Flask.Routes.update_crop_target,
    Flask.VOService.update_crop_target,
    Flask.VOService.get_crop_target_by_id, Flask.VOUpdateSchema.load.
  unfold_flask.
  flask_role.
  destruct (Flask.known _ json); unfold_flask; [| now left].
  destruct (Flask.load_fields Flask.VOUpdateSchema.fields json)
    as [data|] eqn:Hload; unfold_flask; [| now left].
  flask_found db old Hf.
  destruct (flask_owner_found _ _ _ Hf) as [Hid Hown].
  destruct (can_edit old) eqn:Hedit; unfold_flask; [| now left].
  destruct (Flask.VOService.assign old data) as [new_|] eqn:Hasg;
    unfold_flask; [| now left].
  assert (Hmv : FlaskApi.moves can_edit (FlaskApi.env c) (FlaskApi.who c)
                  (FlaskApi.what c) old
                  (if String.eqb (Flask.CropTarget.status new_) "rejected"
                   then Flask.CropTarget.set_rejection_comments None new_
                   else new_)).
  { rewrite Hq. econstructor; eassumption. }
  flask_same Hsame;
    (destruct (FlaskApi.plan c AtCommit); unfold_flask; [now left|]);
    [now left | flask_moved old Hf Hsame].
Qed.

Lemma flask_create_cases can_edit c json db :
  FlaskApi.what c = FlaskApi.Create json ->
  snd (FlaskApi.serve can_edit c db) = db
  \/ FlaskApi.commits can_edit c db (snd (FlaskApi.serve can_edit c db)).
Proof.
  intros Hq. unfold FlaskApi.serve, FlaskApi.handler. rewrite Hq.
  unfold Flask.Routes.create_crop_target,
    Flask.VOService.create_crop_target.
  unfold_flask.
  flask_role.
  destruct (Flask.VOCreateSchema.load json
              (mkSession db db (FlaskApi.plan c))) as [[data|ex] s'] eqn:Hload;
    pose proof (vo_create_load_pure _ _ Hload) as ->; unfold_flask.
  2: destruct ex; now left.
  match goal with |- context [Flask.CropTarget.init ?a ?b ?kw] =>
    destruct (Flask.CropTarget.init a b kw) as [r|] eqn:Hinit end;
    unfold_flask; [| now left].
  match goal with |- context [existsb ?p (Flask.targets db)] =>
    destruct (existsb p (Flask.targets db)) eqn:Hex end;
    unfold_flask; [now left|].
  destruct (FlaskApi.plan c AtCommit); unfold_flask; [now left|].
  right. eapply FlaskApi.commits_create with (r := r) (data := data).
  - exact Hq.
  - exact Hload.
  - exact Hinit.
  - unfold FlaskApi.lookup. now apply existsb_find_none.
  - reflexivity.
Qed.

Theorem flask_serve_cases can_edit c db :
  snd (FlaskApi.serve can_edit c db) = db
  \/ FlaskApi.commits can_edit c db (snd (FlaskApi.serve can_edit c db)).
Proof.
  destruct (FlaskApi.what c) eqn:Hq.
  - eapply flask_create_cases; eassumption.
  - eapply flask_update_cases; eassumption.
  - eapply flask_resubmit_cases; eassumption.
  - eapply flask_decide_cases; eassumption.
Qed.

(** ** Rows of the Flask stack *)

Ltac fsetattr_cases H v :=
  repeat match type of H with
    | (if String.eqb ?k ?c then _ else _) = Some _ =>
        destruct (String.eqb_spec k c);
        [ subst; destruct v; inversion H; subst; clear H;
          try reflexivity; try congruence
        | ]
    end;
  try discriminate.

Lemma fsetattr_id r k v r' :
  Flask.CropTarget.setattr r k v = Some r' -> k <> "id" ->
  Flask.CropTarget.id r' = Flask.CropTarget.id r.
Proof. unfold Flask.CropTarget.setattr; intros H Hk; fsetattr_cases H v. Qed.

Lemma fsetattr_status r k v r' :
  Flask.CropTarget.setattr r k v = Some r' -> k <> "status" ->
  Flask.CropTarget.status r' = Flask.CropTarget.status r.
Proof. unfold Flask.CropTarget.setattr; intros H Hk; fsetattr_cases H v. Qed.

Lemma fsetattr_rejection_comments r k v r' :
  Flask.CropTarget.setattr r k v = Some r' -> k <> "rejection_comments" ->
  Flask.CropTarget.rejection_comments r' = Flask.CropTarget.rejection_comments r.
Proof. unfold Flask.CropTarget.setattr; intros H Hk; fsetattr_cases H v. Qed.

Lemma fsetattr_submitted_by r k v r' :
  Flask.CropTarget.setattr r k v = Some r' -> k <> "submitted_by" ->
  Flask.CropTarget.submitted_by r' = Flask.CropTarget.submitted_by r.
Proof. unfold Flask.CropTarget.setattr; intros H Hk; fsetattr_cases H v. Qed.

Lemma fset_all_keeps {A} (proj : Flask.CropTarget.t -> A) (col : string) :
  (forall r k v r', Flask.CropTarget.setattr r k v = Some r' -> k <> col ->
                    proj r' = proj r) ->
  forall kw r r', Flask.CropTarget.set_all r kw = Some r' ->
                  ~ In col (map fst kw) -> proj r' = proj r.
Proof.
  intros Hframe kw; induction kw as [|[k v] kw IH]; cbn; intros r r' H Hin.
  - now inversion H.
  - destruct (Flask.CropTarget.setattr r k v) as [r1|] eqn:Hs; [|discriminate].
    rewrite (IH _ _ H); [| tauto].
    eapply Hframe; [eassumption | intros ->; tauto].
Qed.

Lemma fassign_keeps {A} (proj : Flask.CropTarget.t -> A) (col : string) :
  (forall r k v r', Flask.CropTarget.setattr r k v = Some r' -> k <> col ->
                    proj r' = proj r) ->
  forall kw r r', Flask.VOService.assign r kw = Some r' ->
                  ~ In col (map fst kw) -> proj r' = proj r.
Proof.
  intros Hframe kw; induction kw as [|[k v] kw IH]; cbn; intros r r' H Hin.
  - now inversion H.
  - destruct (Flask.CropTarget.hasattr r k).
    + destruct (Flask.CropTarget.setattr r k v) as [r1|] eqn:Hs; [|discriminate].
      rewrite (IH _ _ H); [| tauto].
      eapply Hframe; [eassumption | intros ->; tauto].
    + apply IH; [assumption | tauto].
Qed.

Lemma fset_all_app r l1 l2 :
  Flask.CropTarget.set_all r (l1 ++ l2)
  = match Flask.CropTarget.set_all r l1 with
    | Some r1 => Flask.CropTarget.set_all r1 l2
    | None => None
    end.
Proof.
  revert r; induction l1 as [|[k v] l1 IH]; intros r; cbn; [reflexivity|].
  destruct (Flask.CropTarget.setattr r k v); [apply IH | reflexivity].
Qed.

(** What [Schema.load] lets through. *)
Lemma load_fields_sound spec json d :
  Flask.load_fields spec json = Some d ->
  forall k v, In (k, v) d ->
              In k (map fst spec) /\ exists v0, Flask.check_vo k v0 = Some v.
Proof.
  revert d; induction spec as [|[k0 req] spec IH]; cbn; intros d H k v Hin.
  - inversion H; subst; contradiction.
  - destruct (dict_get k0 json) as [v0|].
    + destruct (Flask.check_vo k0 v0) as [v'|] eqn:Hc; [|discriminate].
      destruct (Flask.load_fields spec json) as [d'|]; [|discriminate].
      inversion H; subst; clear H. destruct Hin as [E|Hin].
      * inversion E; subst. split; [now left | eauto].
      * destruct (IH _ eq_refl _ _ Hin). tauto.
    + destruct req; [discriminate|].
      destruct (IH _ H _ _ Hin). tauto.
Qed.

Lemma dict_get_in k d v : dict_get k d = Some v -> In (k, v) d.
Proof.
  induction d as [|[k' v'] d IH]; cbn; [discriminate|].
  destruct (String.eqb_spec k k') as [->|_].
  - inversion 1; now left.
  - intros H; right; now apply IH.
Qed.

Lemma check_status v0 v :
  Flask.check_vo "status" v0 = Some v ->
  v = VStr "draft" \/ v = VStr "submitted".
Proof.
  unfold Flask.check_vo; cbn. destruct v0; try discriminate.
  destruct (String.eqb_spec s "draft") as [->|_]; cbn.
  - inversion 1; tauto.
  - destruct (String.eqb_spec s "submitted") as [->|_]; [|discriminate].
    inversion 1; tauto.
Qed.

Lemma vo_create_loaded json s data :
  Flask.VOCreateSchema.load json s = (Ok data, s) ->
  (forall k, In k (map fst data) -> In k (map fst Flask.VOCreateSchema.fields))
  /\ (dict_get "status" data = Some (VStr "draft")
      \/ dict_get "status" data = Some (VStr "submitted")).
Proof.
  unfold Flask.VOCreateSchema.load, ret, raise.
  destruct (Flask.known _ json); [|discriminate].
  destruct (Flask.load_fields _ json) as [d|] eqn:Hl; [|discriminate].
  pose proof (load_fields_sound _ _ Hl) as Hs.
  destruct (dict_get "status" d) as [v|] eqn:Hst; inversion 1; subst.
  - split.
    + intros k Hk. apply in_map_iff in Hk. destruct Hk as [[k' v'] [<- Hin]].
      now apply Hs in Hin.
    + apply dict_get_in in Hst as Hin. apply Hs in Hin.
      destruct Hin as [_ [v0 Hc]]. apply check_status in Hc.
      destruct Hc; subst; tauto.
  - split.
    + intros k Hk. rewrite map_app, in_app_iff in Hk. destruct Hk as [Hk|Hk].
      * apply in_map_iff in Hk. destruct Hk as [[k' v'] [<- Hin]].
        now apply Hs in Hin.
      * cbn in Hk. destruct Hk as [<-|[]]. cbn. tauto.
    + left. clear Hs Hl. revert Hst.
      induction d as [|[k v] d IH]; intros Hst.
      * reflexivity.
      * cbn [dict_get app] in *.
        destruct (String.eqb "status" k); [discriminate Hst | now apply IH].
Qed.

Lemma flask_create_row e data u r :
  (forall k, In k (map fst data) -> In k (map fst Flask.VOCreateSchema.fields)) ->
  dict_get "status" data = Some (VStr "draft")
  \/ dict_get "status" data = Some (VStr "submitted") ->
  Flask.CropTarget.init (new_id e) (now e) (FlaskApi.create_kw e data u)
  = Some r ->
  (Flask.CropTarget.status r = "draft"
   \/ Flask.CropTarget.status r = "submitted")
  /\ Flask.CropTarget.rejection_comments r = None
  /\ Flask.CropTarget.id r = new_id e.
Proof.
  intros Hkeys Hst. unfold Flask.CropTarget.init.
  destruct (forallb _ _); [|discriminate].
  unfold FlaskApi.create_kw. rewrite fset_all_app.
  set (l1 := filter _ data).
  destruct (Flask.CropTarget.set_all _ l1) as [r1|] eqn:H1; [|discriminate].
  assert (Hl1 : forall k, In k (map fst l1) ->
                          In k (map fst Flask.VOCreateSchema.fields)
                          /\ k <> "status").
  { intros k Hk. apply in_map_iff in Hk. destruct Hk as [[k' v'] [<- Hin]].
    apply filter_In in Hin. destruct Hin as [Hin Hne]. cbn in *. split.
    - apply Hkeys. apply in_map_iff. now exists (k', v').
    - intros ->. discriminate. }
  assert (Hrc : Flask.CropTarget.rejection_comments r1 = None).
  { rewrite (fset_all_keeps Flask.CropTarget.rejection_comments
               fsetattr_rejection_comments _ _ H1); [reflexivity|].
    intros Hin. apply Hl1 in Hin. destruct Hin as [Hin _]. cbn in Hin.
    repeat (destruct Hin as [Hin|Hin]; [discriminate|]). exact Hin. }
  assert (Hid : Flask.CropTarget.id r1 = new_id e).
  { rewrite (fset_all_keeps Flask.CropTarget.id fsetattr_id _ _ H1);
      [reflexivity|].
    intros Hin. apply Hl1 in Hin. destruct Hin as [Hin _]. cbn in Hin.
    repeat (destruct Hin as [Hin|Hin]; [discriminate|]). exact Hin. }
  destruct Hst as [-> | ->]; cbn; inversion 1; subst; cbn; tauto.
Qed.

Lemma flask_update_keys json data k :
  Flask.load_fields Flask.VOUpdateSchema.fields json = Some data ->
  In k (map fst data) ->
  In k ["year"; "season"; "village"; "crop"; "variety"; "target_area"; "date"].
Proof.
  intros Hl Hk. apply in_map_iff in Hk. destruct Hk as [[k' v'] [<- Hin]].
  apply (load_fields_sound _ _ Hl) in Hin. tauto.
Qed.

Ltac not_update_key Hl :=
  let H := fresh in
  intros H; eapply flask_update_keys in H; [|exact Hl]; cbn in H;
  repeat (destruct H as [H|H]; [discriminate|]); exact H.


Lemma fmoves_id can_edit e p q old new_ :
  FlaskApi.moves can_edit e p q old new_ ->
  Flask.CropTarget.id new_ = Flask.CropTarget.id old.
Proof.
  intros H; destruct H; try reflexivity.
  assert (Flask.CropTarget.id new_ = Flask.CropTarget.id old) as <-
      by (eapply (fassign_keeps Flask.CropTarget.id fsetattr_id);
          [eassumption | not_update_key H2]).
  now destruct (String.eqb _ _).
Qed.

Lemma fmoves_arrow can_edit e p q old new_ :
  FlaskApi.moves can_edit e p q old new_ ->
  FlaskApi.arrow (Flask.CropTarget.status old) (Flask.CropTarget.status new_).
Proof.
  intros H; destruct H.
  - assert (Flask.CropTarget.status new_ = Flask.CropTarget.status old) as E
        by (eapply (fassign_keeps Flask.CropTarget.status fsetattr_status);
            [eassumption | not_update_key H2]).
    destruct (String.eqb _ _); cbn; rewrite E; constructor.
  - cbn. now constructor.
  - cbn. rewrite H0. constructor.
  - cbn. rewrite H0. constructor.
Qed.


Lemma ffind_map_same_id (l : list Flask.CropTarget.t)
      (g : Flask.CropTarget.t -> Flask.CropTarget.t) i :
  (forall r, Flask.CropTarget.id (g r) = Flask.CropTarget.id r) ->
  find (fun r => Nat.eqb (Flask.CropTarget.id r) i) (map g l)
  = option_map g (find (fun r => Nat.eqb (Flask.CropTarget.id r) i) l).
Proof.
  intros Hg. induction l as [|x l IH]; cbn; [reflexivity|].
  rewrite Hg. destruct (Nat.eqb (Flask.CropTarget.id x) i);
    [reflexivity | exact IH].
Qed.

Lemma flookup_in i db r : FlaskApi.lookup i db = Some r ->
  In r (Flask.targets db) /\ Flask.CropTarget.id r = i.
Proof.
  unfold FlaskApi.lookup. intros H. apply find_some in H.
  destruct H as [H1 H2]. apply Nat.eqb_eq in H2. tauto.
Qed.

Lemma fnodup_find_id (l : list Flask.CropTarget.t) r :
  NoDup (map Flask.CropTarget.id l) -> In r l ->
  find (fun x => Nat.eqb (Flask.CropTarget.id x) (Flask.CropTarget.id r)) l
  = Some r.
Proof.
  induction l as [|x l IH]; cbn; intros Hnd Hin; [contradiction|].
  inversion Hnd as [|? ? Hnotin Hnd']; subst.
  destruct Hin as [->|Hin].
  - now rewrite Nat.eqb_refl.
  - destruct (Nat.eqb_spec (Flask.CropTarget.id x) (Flask.CropTarget.id r))
      as [E|E].
    + exfalso. apply Hnotin. rewrite E. now apply in_map.
    + now apply IH.
Qed.

Lemma flookup_app_new db r A i :
  FlaskApi.lookup i (Flask.mkFDB (Flask.targets db ++ [r]) A)
  = match FlaskApi.lookup i db with
    | Some x => Some x
    | None => if Nat.eqb (Flask.CropTarget.id r) i then Some r else None
    end.
Proof.
  unfold FlaskApi.lookup; cbn.
  induction (Flask.targets db) as [|x l IH]; cbn.
  - reflexivity.
  - destruct (Nat.eqb (Flask.CropTarget.id x) i); [reflexivity | exact IH].
Qed.

Lemma flookup_rewritten e old new_ db A i :
  Flask.CropTarget.id new_ = Flask.CropTarget.id old ->
  FlaskApi.lookup i (Flask.mkFDB (FlaskApi.rewritten e old new_ (Flask.targets db)) A)
  = if Flask.CropTarget.same_columns old new_ then FlaskApi.lookup i db
    else option_map
           (fun r => if Nat.eqb (Flask.CropTarget.id r) (Flask.CropTarget.id old)
                     then Flask.CropTarget.set_updated_at (now e) new_ else r)
           (FlaskApi.lookup i db).
Proof.
  intros Hid. unfold FlaskApi.lookup, FlaskApi.rewritten; cbn [Flask.targets].
  destruct (Flask.CropTarget.same_columns old new_); [reflexivity|].
  apply ffind_map_same_id. intros r.
  destruct (Nat.eqb_spec (Flask.CropTarget.id r) (Flask.CropTarget.id old))
    as [E|E]; [cbn; congruence | reflexivity].
Qed.

Lemma frewritten_ids e old new_ l :
  Flask.CropTarget.id new_ = Flask.CropTarget.id old ->
  map Flask.CropTarget.id (FlaskApi.rewritten e old new_ l)
  = map Flask.CropTarget.id l.
Proof.
  intros Hid. unfold FlaskApi.rewritten.
  destruct (Flask.CropTarget.same_columns old new_); [reflexivity|].
  rewrite map_map. apply map_ext. intros r.
  destruct (Nat.eqb_spec (Flask.CropTarget.id r) (Flask.CropTarget.id old))
    as [E|E]; [cbn; congruence | reflexivity].
Qed.

Lemma flookup_none_not_in i db :
  FlaskApi.lookup i db = None ->
  ~ In i (map Flask.CropTarget.id (Flask.targets db)).
Proof.
  unfold FlaskApi.lookup. intros H Hin. apply in_map_iff in Hin.
  destruct Hin as [r [Hr Hin]].
  apply (find_none _ _ H) in Hin. rewrite Hr, Nat.eqb_refl in Hin.
  discriminate.
Qed.

Lemma fcommits_wf can_edit c db db' :
  FlaskApi.wf db -> FlaskApi.commits can_edit c db db' -> FlaskApi.wf db'.
Proof.
  unfold FlaskApi.wf. intros Hwf H;
    destruct H as [json data r Hq Hload Hi Hl -> | old new_ Hin Hm ->]; cbn.
  - rewrite map_app; cbn [map].
    apply NoDup_app; [assumption | repeat constructor; intros [] |].
    intros x Hx [<-|[]]. revert Hx. now apply flookup_none_not_in.
  - rewrite frewritten_ids; [assumption | eapply fmoves_id; eassumption].
Qed.

Lemma fcommits_lookup can_edit c db db' i :
  FlaskApi.wf db -> FlaskApi.commits can_edit c db db' ->
  FlaskApi.lookup i db' = FlaskApi.lookup i db
  \/ (FlaskApi.lookup i db = None
      /\ exists r', FlaskApi.lookup i db' = Some r'
                    /\ (Flask.CropTarget.status r' = "draft"
                        \/ Flask.CropTarget.status r' = "submitted")
                    /\ Flask.CropTarget.rejection_comments r' = None)
  \/ (exists old new_,
        FlaskApi.lookup i db = Some old
        /\ FlaskApi.lookup i db'
           = Some (Flask.CropTarget.set_updated_at (now (FlaskApi.env c)) new_)
        /\ FlaskApi.moves can_edit (FlaskApi.env c) (FlaskApi.who c)
                          (FlaskApi.what c) old new_).
Proof.
  intros Hwf H;
    destruct H as [json data r Hq Hload Hi Hl -> | old new_ Hin Hm ->].
  - rewrite flookup_app_new.
    destruct (FlaskApi.lookup i db) as [x|] eqn:Hx; [now left|].
    destruct (Nat.eqb (Flask.CropTarget.id r) i); [|now left].
    right; left. split; [reflexivity|].
    eexists; split; [reflexivity|].
    destruct (vo_create_loaded _ Hload) as [Hk Hs].
    destruct (flask_create_row _ _ _ Hk Hs Hi). tauto.
  - pose proof (fmoves_id Hm) as Hid.
    rewrite flookup_rewritten by exact Hid.
    destruct (Flask.CropTarget.same_columns old new_); [now left|].
    destruct (FlaskApi.lookup i db) as [r|] eqn:Hr; [|now left].
    cbn [option_map].
    destruct (Nat.eqb_spec (Flask.CropTarget.id r) (Flask.CropTarget.id old))
      as [E|E]; [|now left].
    apply flookup_in in Hr as Hr'. destruct Hr' as [Hrin Hri].
    assert (r = old) as ->.
    { pose proof (@fnodup_find_id _ r Hwf Hrin) as F1.
      pose proof (@fnodup_find_id _ old Hwf Hin) as F2.
      rewrite E in F1. congruence. }
    right; right. exists old, new_. tauto.
Qed.

Lemma flask_serve_wf can_edit c db :
  FlaskApi.wf db -> FlaskApi.wf (snd (FlaskApi.serve can_edit c db)).
Proof.
  intros Hwf. destruct (flask_serve_cases can_edit c db) as [->|Hc];
    [assumption|].
  eapply fcommits_wf; eassumption.
Qed.

Lemma flask_after_wf can_edit cs db :
  FlaskApi.wf db -> FlaskApi.wf (FlaskApi.after can_edit cs db).
Proof.
  revert db; induction cs as [|c cs IH]; intros db Hwf; [assumption|].
  cbn. apply IH, flask_serve_wf, Hwf.
Qed.

Lemma flask_serve_status can_edit c db i st :
  FlaskApi.wf db -> FlaskApi.status_of i db = Some st ->
  exists st', FlaskApi.status_of i (snd (FlaskApi.serve can_edit c db)) = Some st'
              /\ FlaskApi.arrow st st'.
Proof.
  intros Hwf Hst. unfold FlaskApi.status_of in *.
  destruct (flask_serve_cases can_edit c db) as [->|Hc];
    [exists st; split; [assumption | constructor]|].
  destruct (fcommits_lookup i Hwf Hc)
    as [->|[[Hn _]|[old [new_ [Hr [Hr' Hm]]]]]].
  - exists st; split; [assumption | constructor].
  - rewrite Hn in Hst; discriminate.
  - rewrite Hr in Hst; cbn in Hst. inversion Hst; subst.
    rewrite Hr'. cbn. eexists; split; [reflexivity|].
    exact (fmoves_arrow Hm).
Qed.

Example scenario_statuses :
  Api.status_of 1 Scenario.drafted = Some "draft"
  /\ Api.status_of 1 Scenario.submitted = Some "submitted"
  /\ Api.status_of 1 Scenario.approved = Some "approved"
  /\ Api.status_of 1 Scenario.rejected = Some "rejected"
  /\ FlaskApi.status_of 1 Scenario.fdrafted = Some "draft"
  /\ FlaskApi.status_of 1 Scenario.fsubmitted = Some "submitted"
  /\ FlaskApi.status_of 1 Scenario.fapproved = Some "approved"
  /\ FlaskApi.status_of 1 Scenario.frejected = Some "rejected".
Proof. vm_compute. repeat split. Qed.

(** ** The status graph over sequences of requests *)

Lemma after_app cs1 cs2 db :
  Api.after (cs1 ++ cs2) db = Api.after cs2 (Api.after cs1 db).
Proof. unfold Api.after. apply fold_left_app. Qed.

Lemma approved_forever cs db i :
  Api.wf db -> Api.status_of i db = Some "approved" ->
  Api.status_of i (Api.after cs db) = Some "approved".
Proof.
  revert db; induction cs as [|c cs IH]; intros db Hwf Hst; [assumption|].
  cbn. apply IH; [now apply serve_wf | now apply approved_stays].
Qed.

Lemma draft_to_approved_via_submitted cs db i :
  Api.wf db -> Api.status_of i db = Some "draft" ->
  Api.status_of i (Api.after cs db) = Some "approved" ->
  exists cs1 cs2, cs = cs1 ++ cs2
                  /\ Api.status_of i (Api.after cs1 db) = Some "submitted".
Proof.
  revert db; induction cs as [|c cs IH]; intros db Hwf Hst Hend.
  - cbn in Hend. rewrite Hst in Hend. discriminate.
  - cbn in Hend. destruct (draft_next c i Hwf Hst) as [Hd|Hs].
    + destruct (IH _ (serve_wf c Hwf) Hd Hend) as [cs1 [cs2 [-> H]]].
      exists (c :: cs1), cs2. split; [reflexivity | exact H].
    + exists [c], cs. split; [reflexivity | exact Hs].
Qed.

Lemma flask_approved_stays can_edit c db i :
  FlaskApi.wf db -> FlaskApi.status_of i db = Some "approved" ->
  FlaskApi.status_of i (snd (FlaskApi.serve can_edit c db)) = Some "approved".
Proof.
  intros Hwf Hst.
  destruct (flask_serve_status can_edit c i Hwf Hst) as [st' [H Ha]].
  inversion Ha as [st|st [E|E]| |]; subst; try discriminate. exact H.
Qed.

Lemma flask_draft_next can_edit c db i :
  FlaskApi.wf db -> FlaskApi.status_of i db = Some "draft" ->
  FlaskApi.status_of i (snd (FlaskApi.serve can_edit c db)) = Some "draft"
  \/ FlaskApi.status_of i (snd (FlaskApi.serve can_edit c db))
     = Some "submitted".
Proof.
  intros Hwf Hst.
  destruct (flask_serve_status can_edit c i Hwf Hst) as [st' [H Ha]].
  inversion Ha as [st|st [E|E]| |]; subst; try discriminate; tauto.
Qed.

Lemma flask_approved_forever can_edit cs db i :
  FlaskApi.wf db -> FlaskApi.status_of i db = Some "approved" ->
  FlaskApi.status_of i (FlaskApi.after can_edit cs db) = Some "approved".
Proof.
  revert db; induction cs as [|c cs IH]; intros db Hwf Hst; [assumption|].
  cbn. apply IH; [now apply flask_serve_wf | now apply flask_approved_stays].
Qed.

Lemma flask_draft_to_approved_via_submitted can_edit cs db i :
  FlaskApi.wf db -> FlaskApi.status_of i db = Some "draft" ->
  FlaskApi.status_of i (FlaskApi.after can_edit cs db) = Some "approved" ->
  exists cs1 cs2,
    cs = cs1 ++ cs2
    /\ FlaskApi.status_of i (FlaskApi.after can_edit cs1 db) = Some "submitted".
Proof.
  revert db; induction cs as [|c cs IH]; intros db Hwf Hst Hend.
  - cbn in Hend. rewrite Hst in Hend. discriminate.
  - cbn in Hend. destruct (flask_draft_next can_edit c i Hwf Hst) as [Hd|Hs].
    + destruct (IH _ (flask_serve_wf can_edit c Hwf) Hd Hend)
        as [cs1 [cs2 [-> H]]].
      exists (c :: cs1), cs2. split; [reflexivity | exact H].
    + exists [c], cs. split; [reflexivity | exact Hs].
Qed.

(** C1.  Whatever requests are made, in either stack, and whichever storage
    steps fail under them: a record that is [approved] stays [approved] (so
    it never goes back to [submitted]), a [draft] record is [draft] or
    [submitted] after one more request, and a run of requests that takes a
    [draft] record to [approved] has a prefix after which the record is
    [submitted]. *)
Theorem status_graph_respected
        (db : DB) (fdb : Flask.FDB) (can_edit : Flask.CropTarget.t -> bool)
        (i : UUID) (cs : list Api.call) (fcs : list FlaskApi.call) :
  Api.wf db -> FlaskApi.wf fdb ->
  (Api.status_of i db = Some "approved" ->
   Api.status_of i (Api.after cs db) = Some "approved"
   /\ Api.status_of i (Api.after cs db) <> Some "submitted")
  /\ (Api.status_of i db = Some "draft" ->
      (forall c, Api.status_of i (snd (Api.serve c db)) <> Some "approved")
      /\ (Api.status_of i (Api.after cs db) = Some "approved" ->
          exists cs1 cs2,
            cs = cs1 ++ cs2
            /\ Api.status_of i (Api.after cs1 db) = Some "submitted"))
  /\ (FlaskApi.status_of i fdb = Some "approved" ->
      FlaskApi.status_of i (FlaskApi.after can_edit fcs fdb) = Some "approved"
      /\ FlaskApi.status_of i (FlaskApi.after can_edit fcs fdb)
         <> Some "submitted")
  /\ (FlaskApi.status_of i fdb = Some "draft" ->
      (forall c, FlaskApi.status_of i (snd (FlaskApi.serve can_edit c fdb))
                 <> Some "approved")
      /\ (FlaskApi.status_of i (FlaskApi.after can_edit fcs fdb)
          = Some "approved" ->
          exists cs1 cs2,
            fcs = cs1 ++ cs2
            /\ FlaskApi.status_of i (FlaskApi.after can_edit cs1 fdb)
               = Some "submitted")).
Proof.
  intros Hwf Hfwf. repeat split.
  - now apply approved_forever.
  - rewrite approved_forever by assumption. discriminate.
  - intros c. destruct (draft_next c i Hwf H) as [-> | ->]; discriminate.
  - now apply draft_to_approved_via_submitted.
  - now apply flask_approved_forever.
  - rewrite flask_approved_forever by assumption. discriminate.
  - intros c. destruct (flask_draft_next can_edit c i Hfwf H) as [-> | ->];
      discriminate.
  - now apply flask_draft_to_approved_via_submitted.
Qed.

Lemma status_graph_respected_witness :
  Api.wf Scenario.approved /\ FlaskApi.wf Scenario.fapproved
  /\ Api.status_of 1 Scenario.approved = Some "approved"
  /\ Api.status_of 1 (Api.after Scenario.retries Scenario.approved)
     = Some "approved"
  /\ FlaskApi.status_of 1
       (FlaskApi.after Scenario.editable Scenario.fretries Scenario.fapproved)
     = Some "approved".
Proof.
  assert (W1 : Api.wf Scenario.approved)
    by (unfold Api.wf; vm_compute; repeat constructor; intros []).
  assert (W2 : FlaskApi.wf Scenario.fapproved)
    by (unfold FlaskApi.wf; vm_compute; repeat constructor; intros []).
  pose proof (@status_graph_respected
                Scenario.approved Scenario.fapproved Scenario.editable 1
                Scenario.retries Scenario.fretries W1 W2) as [H1 [_ [H3 _]]].
  split; [exact W1|]. split; [exact W2|].
  split; [reflexivity|].
  split; [apply H1; reflexivity | apply H3; reflexivity].
Defined.

(** ** Rejecting without a reason *)

(** The strings the claim calls whitespace-only: what [str.strip] empties. *)
Definition is_space (c : ascii) : bool :=
  let n := nat_of_ascii c in
  Nat.eqb n 32 || (Nat.leb 9 n && Nat.leb n 13).

Definition blank_string (s : string) : bool :=
  forallb is_space (list_ascii_of_string s).

(** C2, as the code has it.  A reject request whose reason is absent or the
    empty string never reaches the store: the FastAPI route raises (400
    "Rejection reason is required" once the caller is a BO and the body is
    well formed), [BOApprovalSchema] raises [ValidationError], which the
    Flask route answers with 400, and [BOService.approve_crop_target]
    itself refuses loaded data without comments.  In each case the store,
    audit table included, is what it was. *)
Theorem reject_without_reason_refused
        (e : Env) (i : UUID) (f : point -> bool)
        (db : DB) (a : ApprovalRequest.t) (u : User.t)
        (fdb : Flask.FDB) (json : dict) (p : Flask.Principal) :
  ApprovalRequest.action a = "reject" ->
  truthy_str (ApprovalRequest.rejection_reason a) = false ->
  dict_get "status" json = Some (VStr "rejected") ->
  CropTargetService.truthy (dict_get "rejection_comments" json) = false ->
  (exists ex,
      run (ServerNew.approve_crop_target e i a u) f db = (Raise ex, db)
      /\ (User.role u = "BO" -> ApprovalRequest.valid a = true ->
          ex = HTTPException 400 "Rejection reason is required"))
  /\ (forall s, exists ex, Flask.BOApprovalSchema.load json s = (Raise ex, s))
  /\ (exists resp,
         run (Flask.Routes.approve_crop_target e i json p) f fdb
         = (Ok resp, fdb)
         /\ Flask.success resp = false
         /\ (Flask.role_claim p = "BO" ->
             resp = Flask.error_response "Invalid input data" 400))
  /\ (forall data,
         dict_get "status" data = Some (VStr "rejected") ->
         CropTargetService.truthy (dict_get "rejection_comments" data) = false ->
         exists ex,
           run (Flask.BOService.approve_crop_target e i data (Flask.identity p))
               f fdb = (Raise ex, fdb)).
Proof.
  intros Hact Hreason Hst Hcm. repeat split.
  - unfold ServerNew.approve_crop_target, ServerNew.require_role,
      ServerNew.validated.
    unfold_session. cbn [existsb orb].
    destruct (String.eqb_spec (User.role u) "BO") as [Hr|Hr]; cbn [orb];
      [| eexists; split; [reflexivity | intros; contradiction]].
    destruct (ApprovalRequest.valid a);
      [| eexists; split; [reflexivity | intros; discriminate]].
    rewrite Hact. cbn [String.eqb Ascii.eqb Bool.eqb].
    destruct (ApprovalRequest.rejection_reason a) as [reason|];
      [| eexists; split; reflexivity].
    cbn in Hreason. apply negb_false_iff in Hreason. rewrite Hreason.
    eexists; split; reflexivity.
  - intros s.
    unfold Flask.BOApprovalSchema.load, Flask.BOApprovalSchema.load_fields,
      Flask.BOApprovalSchema.validate_rejection, ret, raise.
    destruct (Flask.known _ json); [| eexists; reflexivity].
    rewrite Hst. cbn [String.eqb Ascii.eqb Bool.eqb orb].
    destruct (dict_get "rejection_comments" json) as [[ |c| | | | | ]|];
      try discriminate Hcm; try (eexists; reflexivity).
    destruct (len_between 0 1000 c); [| eexists; reflexivity].
    cbn in Hcm |- *. apply negb_false_iff in Hcm. rewrite Hcm.
    eexists; reflexivity.
  - unfold Flask.Routes.approve_crop_target, Flask.BOApprovalSchema.load,
      Flask.BOApprovalSchema.load_fields,
      Flask.BOApprovalSchema.validate_rejection.
    unfold_flask. cbn [existsb orb].
    destruct (String.eqb_spec (Flask.role_claim p) "BO") as [Hr|Hr];
      cbn [orb]; unfold_flask;
      [| eexists; repeat split; intros; contradiction].
    destruct (Flask.known _ json); unfold_flask;
      [| eexists; repeat split; intros; reflexivity].
    rewrite Hst. cbn [String.eqb Ascii.eqb Bool.eqb orb].
    destruct (dict_get "rejection_comments" json) as [[ |c| | | | | ]|];
      try discriminate Hcm; flask_step; try (eexists; repeat split; intros; reflexivity).
    destruct (len_between 0 1000 c); flask_step;
      [| eexists; repeat split; intros; reflexivity].
    cbn in Hcm. apply negb_false_iff in Hcm. rewrite Hcm. flask_step.
    eexists; repeat split; intros; reflexivity.
  - intros data Hds Hdc. unfold Flask.BOService.approve_crop_target.
    unfold_flask.
    match goal with |- context [find ?q (Flask.targets fdb)] =>
      destruct (find q (Flask.targets fdb)) as [old|] end; unfold_flask;
      [| eexists; reflexivity].
    destruct (String.eqb (Flask.CropTarget.status old) "submitted");
      unfold_flask; [| eexists; reflexivity].
    rewrite Hds. cbn [String.eqb Ascii.eqb Bool.eqb andb].
    assert (Hc : truthy_str match dict_get "rejection_comments" data with
                            | Some (VStr c) => Some c
                            | _ => None
                            end = false).
    { destruct (dict_get "rejection_comments" data) as [[ |c| | | | | ]|];
        try reflexivity; exact Hdc. }
    rewrite Hc. unfold_flask. eexists; reflexivity.
Qed.

Lemma reject_without_reason_refused_witness :
  ApprovalRequest.action (Scenario.reject_it "") = "reject"
  /\ truthy_str (ApprovalRequest.rejection_reason (Scenario.reject_it ""))
     = false
  /\ (exists ex,
         run (ServerNew.approve_crop_target
                (mkEnv 30 1 102) 1 (Scenario.reject_it "") Scenario.bo)
             no_fault Scenario.submitted
         = (Raise ex, Scenario.submitted)
         /\ (User.role Scenario.bo = "BO" ->
             ApprovalRequest.valid (Scenario.reject_it "") = true ->
             ex = HTTPException 400 "Rejection reason is required")).
Proof.
  assert (H1 : ApprovalRequest.action (Scenario.reject_it "") = "reject")
    by reflexivity.
  assert (H2 : truthy_str (ApprovalRequest.rejection_reason
                             (Scenario.reject_it "")) = false)
    by reflexivity.
  assert (H3 : dict_get "status" [("status", VStr "rejected")]
               = Some (VStr "rejected")) by reflexivity.
  assert (H4 : CropTargetService.truthy
                 (dict_get "rejection_comments" [("status", VStr "rejected")])
               = false) by reflexivity.
  split; [exact H1|]. split; [exact H2|].
  exact (proj1 (@reject_without_reason_refused
                  (mkEnv 30 1 102) 1 no_fault Scenario.submitted
                  (Scenario.reject_it "") Scenario.bo Scenario.fsubmitted
                  [("status", VStr "rejected")] Scenario.fbo H1 H2 H3 H4)).
Defined.

(** C2 as stated fails: a reason made of blanks only is taken as a reason.
    The record is rejected with it and the REJECT audit row is written; the
    Flask stack does the same. *)
Lemma blank_reason_accepted :
  blank_string "   " = true
  /\ (let r := Api.serve (Scenario.call Scenario.bo 30 102
                            (Api.Decide 1 (Scenario.reject_it "   ")))
                         Scenario.submitted in
      (exists resp, fst r = Ok resp)
      /\ Api.status_of 1 (snd r) = Some "rejected"
      /\ option_map CropTarget.rejection_reason (Api.lookup 1 (snd r))
         = Some (Some "   ")
      /\ map AuditLog.action (audit_logs (snd r))
         = ["CREATE"; "SUBMIT"; "REJECT"])
  /\ (let r := FlaskApi.serve Scenario.editable
                 (Scenario.fcall Scenario.fbo 30
                    (FlaskApi.Decide 1 [("status", VStr "rejected");
                                        ("rejection_comments", VStr "   ")]))
                 Scenario.fsubmitted in
      (exists resp, fst r = Ok resp /\ Flask.success resp = true)
      /\ FlaskApi.status_of 1 (snd r) = Some "rejected"
      /\ option_map Flask.CropTarget.rejection_comments
                    (FlaskApi.lookup 1 (snd r))
         = Some (Some "   ")).
Proof.
  vm_compute. repeat split; eexists; try split; reflexivity.
Qed.

(** ** Approval *)


Lemma approve_changes_row t0 uid rem old :
  CropTarget.is_pending_approval old = true ->
  CropTarget.same_columns old (CropTarget.approve t0 uid rem old) = false.
Proof.
  intros Hp. destruct (CropTarget.same_columns _ _) eqn:E; [|reflexivity].
  apply same_columns_status in E. rewrite approve_status in E.
  apply pending_status in Hp. rewrite E in Hp. destruct Hp; discriminate.
Qed.

Lemma lookup_after_rewrite e old new_ db A :
  Api.wf db -> Api.find_active (CropTarget.id old) db = Some old ->
  CropTarget.id new_ = CropTarget.id old ->
  CropTarget.same_columns old new_ = false ->
  Api.lookup (CropTarget.id old)
             (mkDB (Api.rewritten e old new_ (crop_targets db)) A)
  = Some (CropTarget.set_updated_at (now e) new_).
Proof.
  intros Hwf Hf Hid Hs. rewrite lookup_rewritten by exact Hid.
  rewrite Hs, (find_active_lookup _ Hwf Hf). cbn.
  now rewrite Nat.eqb_refl.
Qed.

Lemma approve_target_done e i uid rem f db old :
  Api.wf db ->
  Api.find_active i db = Some old ->
  CropTarget.is_pending_approval old = true ->
  f AtAudit = false -> f AtCommit = false -> f AtRefresh = false ->
  exists a,
    run (CropTargetService.approve_target e i uid rem) f db
    = (Ok (Some (CropTarget.set_updated_at
                   (now e) (CropTarget.approve (now e) uid rem old))),
       mkDB (Api.rewritten e old (CropTarget.approve (now e) uid rem old)
                           (crop_targets db))
            (audit_logs db ++ [a]))
    /\ AuditLog.action a = "APPROVE"
    /\ AuditLog.user_id a = Some uid
    /\ AuditLog.resource_id a = Some i.
Proof.
  intros Hwf Hf Hp Ha Hc Hr.
  pose proof (find_active_id _ _ Hf) as Hid.
  pose proof (approve_changes_row (now e) uid rem old Hp) as Hs.
  assert (Hl := @lookup_after_rewrite e old
                  (CropTarget.approve (now e) uid rem old) db
                  (audit_logs db) Hwf (find_active_self _ _ Hf)
                  (approve_id _ _ _ _) Hs).
  unfold Api.lookup, Api.rewritten in Hl. rewrite Hs in Hl.
  cbn [crop_targets] in Hl.
  revert Hf. unfold Api.find_active, CropTargetService.approve_target,
               BaseService.get.
  unfold_session. intros ->. rewrite Hp. unfold_session.
  rewrite Hs. unfold_session. rewrite Ha. unfold_session.
  rewrite Hc. unfold_session. rewrite Hr. unfold_session.
  rewrite approve_id. cbn [crop_targets audit_logs]. rewrite Hl.
  eexists. split; [unfold Api.rewritten; rewrite Hs; reflexivity|].
  cbn. rewrite ?approve_id, Hid. repeat split.
Qed.






(** ** Submission *)

Lemma ffind_absent i (q : Flask.CropTarget.t -> bool) l :
  ~ In i (map Flask.CropTarget.id l) ->
  find (fun r => Nat.eqb (Flask.CropTarget.id r) i && q r) l = None.
Proof.
  induction l as [|x l IH]; cbn; intros Hn; [reflexivity|].
  destruct (Nat.eqb_spec (Flask.CropTarget.id x) i) as [E|E]; cbn.
  - exfalso. apply Hn. now left.
  - apply IH. tauto.
Qed.

(** Under the primary key, the row [get_crop_target_by_id] finds is the one
    row with that id, when the caller owns it. *)
Lemma ffind_owner i uid db :
  FlaskApi.wf db ->
  find (fun r => Nat.eqb (Flask.CropTarget.id r) i
                 && Nat.eqb (Flask.CropTarget.submitted_by r) uid)
       (Flask.targets db)
  = match FlaskApi.lookup i db with
    | Some old =>
        if Nat.eqb (Flask.CropTarget.submitted_by old) uid then Some old
        else None
    | None => None
    end.
Proof.
  unfold FlaskApi.wf, FlaskApi.lookup.
  induction (Flask.targets db) as [|x l IH]; cbn; intros Hnd; [reflexivity|].
  inversion Hnd as [|? ? Hnotin Hnd']; subst.
  destruct (Nat.eqb_spec (Flask.CropTarget.id x) i) as [E|E]; cbn.
  - destruct (Nat.eqb (Flask.CropTarget.submitted_by x) uid); [reflexivity|].
    apply ffind_absent. now rewrite <- E.
  - now apply IH.
Qed.










(** ** The audit row and the change it records *)

Lemma flask_never_audits can_edit c db :
  Flask.audit_trail (snd (FlaskApi.serve can_edit c db)) = Flask.audit_trail db.
Proof.
  destruct (flask_serve_cases can_edit c db) as [->|H]; [reflexivity|].
  destruct H as [json data r _ _ _ _ -> | old new_ _ _ ->]; reflexivity.
Qed.

Lemma commits_audit c db db' :
  Api.commits c db db' ->
  Api.plan c AtAudit = false /\ Api.plan c AtCommit = false
  /\ exists a l,
       db' = mkDB l (audit_logs db ++ [a])
       /\ AuditLog.action a = Api.action_of (Api.what c)
       /\ AuditLog.user_id a = Some (User.id (Api.who c)).
Proof.
  intros H.
  destruct H as [d r0 a Ha Hc Hq Hi Hl Hact Hu Hr ->
                |old new_ a Ha Hc Hf Hm Hact Hu Hr ->].
  all: split; [assumption|]; split; [assumption|]; exists a; eexists.
  all: split; [reflexivity|]; split; [| assumption].
  - rewrite Hq. exact Hact.
  - exact Hact.
Qed.

(** C5, as the code has it.  In the SQLAlchemy stack a request either
    leaves the store as it was and raises, or commits the change of the
    record together with exactly one audit row carrying the action of the
    request and the caller's id; a request that returns has done the
    latter, and a storage failure at the audit write or at the commit means
    the former, with the change of the record rolled back too.  The Flask
    stack never adds an audit row. *)
Theorem audit_with_every_commit
        (c : Api.call) (db : DB)
        (can_edit : Flask.CropTarget.t -> bool) (fc : FlaskApi.call)
        (fdb : Flask.FDB) :
  ((snd (Api.serve c db) = db /\ exists ex, fst (Api.serve c db) = Raise ex)
   \/ (Api.commits c db (snd (Api.serve c db))
       /\ exists a l,
            snd (Api.serve c db) = mkDB l (audit_logs db ++ [a])
            /\ AuditLog.action a = Api.action_of (Api.what c)
            /\ AuditLog.user_id a = Some (User.id (Api.who c))))
  /\ (forall resp,
         fst (Api.serve c db) = Ok resp ->
         exists a l,
           snd (Api.serve c db) = mkDB l (audit_logs db ++ [a])
           /\ AuditLog.action a = Api.action_of (Api.what c)
           /\ AuditLog.user_id a = Some (User.id (Api.who c)))
  /\ (Api.plan c AtAudit = true \/ Api.plan c AtCommit = true ->
      snd (Api.serve c db) = db)
  /\ Flask.audit_trail (snd (FlaskApi.serve can_edit fc fdb))
     = Flask.audit_trail fdb.
Proof.
  repeat split.
  - destruct (serve_cases c db) as [H|H]; [now left|].
    right. split; [exact H|]. apply commits_audit in H. tauto.
  - intros resp Hok. apply serve_ok_commits in Hok.
    apply commits_audit in Hok. tauto.
  - intros Hfault. destruct (serve_cases c db) as [[H _]|H]; [exact H|].
    apply commits_audit in H. destruct H as [Ha [Hc _]].
    destruct Hfault as [E|E]; congruence.
  - apply flask_never_audits.
Qed.

Lemma audit_with_every_commit_witness :
  Api.plan (Api.mkCall Scenario.bo (mkEnv 30 1 102)
              (fun p => match p with AtAudit => true | _ => false end)
              (Api.Decide 1 Scenario.approve_it)) AtAudit = true
  /\ snd (Api.serve
            (Api.mkCall Scenario.bo (mkEnv 30 1 102)
               (fun p => match p with AtAudit => true | _ => false end)
               (Api.Decide 1 Scenario.approve_it))
            Scenario.submitted)
     = Scenario.submitted.
Proof.
  split; [reflexivity|].
  apply (@audit_with_every_commit
           (Api.mkCall Scenario.bo (mkEnv 30 1 102)
              (fun p => match p with AtAudit => true | _ => false end)
              (Api.Decide 1 Scenario.approve_it))
           Scenario.submitted Scenario.editable
           (Scenario.fcall Scenario.fvo 20 (FlaskApi.Resubmit 1))
           Scenario.fdrafted).
  left. reflexivity.
Defined.

(** C5 as stated fails in the Flask stack: the resubmission goes through
    and the record changes, yet the audit table has no row for it. *)
Lemma resubmit_leaves_no_audit_row :
  let r := FlaskApi.serve Scenario.editable
                          (Scenario.fcall Scenario.fvo 20 (FlaskApi.Resubmit 1))
                          Scenario.fdrafted in
  (exists resp, fst r = Ok resp /\ Flask.success resp = true)
  /\ FlaskApi.status_of 1 Scenario.fdrafted = Some "draft"
  /\ FlaskApi.status_of 1 (snd r) = Some "submitted"
  /\ Flask.audit_trail (snd r) = [].
Proof. vm_compute. repeat split. eexists. split; reflexivity. Qed.

(** ** The derived production figure *)

(** [create_crop_target] computes the figure from the area and the yield
    it was given. *)
Lemma create_computes_production r y :
  CropTarget.target_yield r = Some y ->
  truthy_num (CropTarget.target_area r) = true -> truthy_num y = true ->
  exists p,
    CropTarget.expected_production (CropTarget.calculate_metrics r) = Some p
    /\ (p == CropTarget.target_area r * y)%Q.
Proof.
  intros Hy Ha Hy'. unfold CropTarget.calculate_metrics.
  rewrite Hy, Ha, Hy'. cbn [andb CropTarget.expected_production
                             CropTarget.set_expected_production].
  eexists. split; [reflexivity | apply Qred_correct].
Qed.

(** [BaseService.update] assigns the columns it is given and nothing else:
    the figure stays what it was, whatever happens to the area and the
    yield. *)
Lemma update_never_recomputes e u i d old new_ :
  Api.moves e u (Api.Update i d) old new_ ->
  CropTarget.expected_production new_ = CropTarget.expected_production old.
Proof.
  intros H. inversion H; subst.
  eapply (assign_keeps CropTarget.expected_production
            setattr_expected_production); [eassumption | not_a_key].
Qed.


(** ** Somebody else's record *)

Lemma ffind_foreign i uid db :
  FlaskApi.wf db ->
  match FlaskApi.lookup i db with
  | Some old => Flask.CropTarget.submitted_by old <> uid
  | None => True
  end ->
  find (fun r => Nat.eqb (Flask.CropTarget.id r) i
                 && Nat.eqb (Flask.CropTarget.submitted_by r) uid)
       (Flask.targets db) = None.
Proof.
  intros Hwf H. rewrite (ffind_owner i uid Hwf).
  destruct (FlaskApi.lookup i db) as [old|]; [|reflexivity].
  destruct (Nat.eqb_spec (Flask.CropTarget.submitted_by old) uid);
    [contradiction | reflexivity].
Qed.

(** C7.  A VO who asks for, updates or deletes a record that somebody else
    submitted gets what a VO gets for an id that names no record: the
    services raise "Crop target not found", the Flask routes answer with
    that message, the FastAPI update route raises 404 "Crop target not
    found".  Nothing is changed, and the answer is never the 403 of the
    role check. *)
Theorem foreign_record_is_not_found
        (e : Env) (i : UUID) (f : point -> bool)
        (fdb : Flask.FDB) (p : Flask.Principal)
        (can_edit can_delete : Flask.CropTarget.t -> bool)
        (json data : dict)
        (db : DB) (u : User.t) (d : CropTargetUpdate.t) :
  FlaskApi.wf fdb ->
  Flask.role_claim p = "VO" ->
  match FlaskApi.lookup i fdb with
  | Some old => Flask.CropTarget.submitted_by old <> Flask.identity p
  | None => True
  end ->
  User.role u = "VO" ->
  CropTargetUpdate.valid d = true ->
  match Api.find_active i db with
  | Some old => CropTarget.submitted_by old <> User.id u
  | None => True
  end ->
  run (Flask.VOService.get_crop_target_by_id i (Flask.identity p)) f fdb
  = (Raise (ValueError "Crop target not found"), fdb)
  /\ run (Flask.VOService.update_crop_target
            can_edit e i data (Flask.identity p)) f fdb
     = (Raise (ValueError "Crop target not found"), fdb)
  /\ run (Flask.VOService.delete_crop_target can_delete i (Flask.identity p))
         f fdb
     = (Raise (ValueError "Crop target not found"), fdb)
  /\ run (Flask.Routes.get_crop_target i p) f fdb
     = (Ok (Flask.error_response "Crop target not found" 400), fdb)
  /\ run (Flask.Routes.delete_crop_target can_delete i p) f fdb
     = (Ok (Flask.error_response "Crop target not found" 400), fdb)
  /\ (Flask.VOUpdateSchema.load
        json (mkSession fdb fdb f) = (Ok data, mkSession fdb fdb f) ->
      run (Flask.Routes.update_crop_target can_edit e i json p) f fdb
      = (Ok (Flask.error_response "Crop target not found" 400), fdb))
  /\ (forall resp,
         fst (run (Flask.Routes.update_crop_target can_edit e i json p) f fdb)
         = Ok resp ->
         Flask.success resp = false /\ Flask.status_code resp <> 403)
  /\ snd (run (Flask.Routes.update_crop_target can_edit e i json p) f fdb)
     = fdb
  /\ run (ServerNew.update_crop_target e i d u) f db
     = (Raise (HTTPException 404 "Crop target not found"), db).
Proof.
  intros Hwf Hrole Hforeign Hurole Hvalid Hnot.
  pose proof (@ffind_foreign i (Flask.identity p) fdb Hwf Hforeign) as Hnone.
  repeat split.
  - unfold Flask.VOService.get_crop_target_by_id. unfold_flask.
    now rewrite Hnone.
  - unfold Flask.VOService.update_crop_target,
      Flask.VOService.get_crop_target_by_id. unfold_flask.
    now rewrite Hnone.
  - unfold Flask.VOService.delete_crop_target,
      Flask.VOService.get_crop_target_by_id. unfold_flask.
    now rewrite Hnone.
  - unfold Flask.Routes.get_crop_target,
      Flask.VOService.get_crop_target_by_id. unfold_flask.
    cbn [existsb orb]. rewrite Hrole.
    cbn [String.eqb Ascii.eqb Bool.eqb orb]. unfold_flask.
    now rewrite Hnone.
  - unfold Flask.Routes.delete_crop_target,
      Flask.VOService.delete_crop_target,
      Flask.VOService.get_crop_target_by_id. unfold_flask.
    cbn [existsb orb]. rewrite Hrole.
    cbn [String.eqb Ascii.eqb Bool.eqb orb]. unfold_flask.
    now rewrite Hnone.
  - intros Hload.
    unfold Flask.Routes.update_crop_target,
      Flask.VOService.update_crop_target,
      Flask.VOService.get_crop_target_by_id. unfold_flask.
    cbn [existsb orb]. rewrite Hrole.
    cbn [String.eqb Ascii.eqb Bool.eqb orb]. unfold_flask.
    rewrite Hload. unfold_flask. now rewrite Hnone.
  - revert H.
    unfold Flask.Routes.update_crop_target,
      Flask.VOService.update_crop_target,
      Flask.VOService.get_crop_target_by_id, Flask.VOUpdateSchema.load.
    unfold_flask. cbn [existsb orb]. rewrite Hrole.
    cbn [String.eqb Ascii.eqb Bool.eqb orb]. unfold_flask.
    destruct (Flask.known _ json); unfold_flask;
      [| now inversion 1].
    destruct (Flask.load_fields _ json); unfold_flask; [| now inversion 1].
    rewrite Hnone. unfold_flask. now inversion 1.
  - revert H.
    unfold Flask.Routes.update_crop_target,
      Flask.VOService.update_crop_target,
      Flask.VOService.get_crop_target_by_id, Flask.VOUpdateSchema.load.
    unfold_flask. cbn [existsb orb]. rewrite Hrole.
    cbn [String.eqb Ascii.eqb Bool.eqb orb]. unfold_flask.
    destruct (Flask.known _ json); unfold_flask;
      [| inversion 1; subst; cbn; discriminate].
    destruct (Flask.load_fields _ json); unfold_flask;
      [| inversion 1; subst; cbn; discriminate].
    rewrite Hnone. unfold_flask. inversion 1; subst; cbn; discriminate.
  - unfold Flask.Routes.update_crop_target,
      Flask.VOService.update_crop_target,
      Flask.VOService.get_crop_target_by_id, Flask.VOUpdateSchema.load.
    unfold_flask. cbn [existsb orb]. rewrite Hrole.
    cbn [String.eqb Ascii.eqb Bool.eqb orb]. unfold_flask.
    destruct (Flask.known _ json); unfold_flask; [| reflexivity].
    destruct (Flask.load_fields _ json); unfold_flask; [| reflexivity].
    now rewrite Hnone.
  - revert Hnot.
    unfold Api.find_active, ServerNew.update_crop_target,
      ServerNew.require_role, ServerNew.validated, BaseService.get.
    unfold_session. cbn [existsb orb]. rewrite Hurole, Hvalid.
    cbn [String.eqb Ascii.eqb Bool.eqb orb]. unfold_session.
    destruct (find _ (crop_targets db)) as [old|]; [|reflexivity].
    destruct (Nat.eqb_spec (CropTarget.submitted_by old) (User.id u));
      [contradiction | reflexivity].
Qed.

Lemma foreign_record_is_not_found_witness :
  FlaskApi.wf Scenario.fdrafted
  /\ Flask.role_claim Scenario.fvo2 = "VO"
  /\ option_map Flask.CropTarget.submitted_by
                (FlaskApi.lookup 1 Scenario.fdrafted) = Some 7
  /\ Flask.identity Scenario.fvo2 = 8
  /\ run (Flask.Routes.get_crop_target 1 Scenario.fvo2)
         no_fault Scenario.fdrafted
     = (Ok (Flask.error_response "Crop target not found" 400),
        Scenario.fdrafted)
  /\ run (ServerNew.update_crop_target
            (mkEnv 41 1 104) 1 Scenario.more_area Scenario.vo2)
         no_fault Scenario.drafted
     = (Raise (HTTPException 404 "Crop target not found"), Scenario.drafted).
Proof.
  assert (W : FlaskApi.wf Scenario.fdrafted)
    by (unfold FlaskApi.wf; vm_compute; repeat constructor; intros []).
  assert (H2 : match FlaskApi.lookup 1 Scenario.fdrafted with
               | Some old => Flask.CropTarget.submitted_by old
                             <> Flask.identity Scenario.fvo2
               | None => True
               end) by (vm_compute; discriminate).
  assert (H5 : match Api.find_active 1 Scenario.drafted with
               | Some old => CropTarget.submitted_by old
                             <> User.id Scenario.vo2
               | None => True
               end) by (vm_compute; discriminate).
  destruct (@foreign_record_is_not_found
              (mkEnv 41 1 104) 1 no_fault Scenario.fdrafted Scenario.fvo2
              Scenario.editable Scenario.editable [] []
              Scenario.drafted Scenario.vo2 Scenario.more_area
              W eq_refl H2 eq_refl eq_refl H5)
    as [_ [_ [_ [Hget [_ [_ [_ [_ Hupd]]]]]]]].
  repeat split; assumption.
Defined.

(** ** The rejection reason *)







Lemma reject_changes_row t0 uid reason old :
  CropTarget.is_pending_approval old = true ->
  CropTarget.same_columns old (CropTarget.reject t0 uid reason old) = false.
Proof.
  intros Hp. destruct (CropTarget.same_columns _ _) eqn:E; [|reflexivity].
  apply same_columns_status in E. cbn in E.
  apply pending_status in Hp. rewrite E in Hp. destruct Hp; discriminate.
Qed.






(** ** Pagination ([BaseService.get_paginated])

    The query of [get_all] is a deterministic function of the table here:
    rows with equal sort keys keep one fixed order, as a database does that
    scans the same unchanged table twice. *)




Lemma insert_by_perm A (le : A -> A -> bool) x l :
  Permutation (insert_by le x l) (x :: l).
Proof.
  induction l as [|y l IH]; cbn; [reflexivity|].
  destruct (le x y); [reflexivity|].
  rewrite IH. apply perm_swap.
Qed.

Lemma sort_by_perm A (le : A -> A -> bool) l :
  Permutation (sort_by le l) l.
Proof.
  induction l as [|x l IH]; cbn; [reflexivity|].
  rewrite insert_by_perm. now constructor.
Qed.

Lemma ordered_perm order_by l (s s' : Session DB) q :
  BaseService.ordered order_by l s = (Ok q, s') ->
  Permutation q l /\ s' = s.
Proof.
  unfold BaseService.ordered. intros H.
  repeat match type of H with
         | context [match ?b with _ => _ end] => destruct b
         end;
    unfold ret, raise in H; inversion H; subst;
    (split; [apply sort_by_perm | reflexivity]).
Qed.









Lemma in_firstn_list A (n : nat) (l : list A) x :
  In x (firstn n l) -> In x l.
Proof.
  intros H. rewrite <- (firstn_skipn n l). apply in_or_app. now left.
Qed.

Lemma in_skipn_list A (n : nat) (l : list A) x :
  In x (skipn n l) -> In x l.
Proof.
  intros H. rewrite <- (firstn_skipn n l). apply in_or_app. now right.
Qed.



(** Three active rows, created at times 10, 20 and 30, read two per page. *)
Definition three_rows : DB :=
  mkDB (map (fun i => CropTarget.set_created_at (10 * i) (CropTarget.blank i 0))
            [1; 2; 3])
       [].


(** ** Soft deletion ([BaseService.soft_delete]) *)










Lemma ordered_pure order_by (l : list CropTarget.t) :
  exists o, forall s : Session DB, BaseService.ordered order_by l s = (o, s).
Proof.
  unfold BaseService.ordered.
  repeat match goal with
         | |- context [match ?b with _ => _ end] => destruct b
         end; eexists; intros ?; reflexivity.
Qed.











(** * Further properties of the services *)

From Stdlib Require Import Sorted.

(** ** The queries of [BaseService] *)

(** What one entry of [filters] asks of a row: nothing when the model has
    no such column or the value is [None]. *)
Definition filter_holds (r : CropTarget.t) (kv : string * value) : bool :=
  if BaseService.model_has (fst kv) && negb (is_none (snd kv))
  then value_eqb (BaseService.column (fst kv) r) (snd kv)
  else true.

Lemma filter_filter A (f g : A -> bool) l :
  filter f (filter g l) = filter (fun x => g x && f x) l.
Proof.
  induction l as [|x l IH]; [reflexivity|]. cbn.
  destruct (g x); cbn; [destruct (f x)|]; now rewrite IH.
Qed.

Lemma apply_filters_spec fs l :
  BaseService.apply_filters fs l
  = filter (fun r => forallb (filter_holds r) fs) l.
Proof.
  revert l. induction fs as [|[k v] fs IH]; intros l.
  - cbn. induction l as [|x l IHl]; [reflexivity|]. cbn. now rewrite <- IHl.
  - cbn [BaseService.apply_filters forallb]. unfold filter_holds at 1.
    cbn [fst snd].
    destruct (BaseService.model_has k && negb (is_none v)).
    + rewrite IH, filter_filter. reflexivity.
    + rewrite IH. reflexivity.
Qed.

Lemma filtered_spec filters l r :
  In r (BaseService.filtered filters l) <->
  In r l /\ CropTarget.is_active r = true
  /\ forall fs, filters = Some fs -> forallb (filter_holds r) fs = true.
Proof.
  unfold BaseService.filtered. destruct filters as [fs|].
  - rewrite apply_filters_spec, filter_In, filter_In.
    split.
    + intros [[Hin Ha] Hf]. apply Bool.eqb_prop in Ha.
      repeat split; try assumption. intros fs' E. now inversion E; subst.
    + intros [Hin [Ha Hf]]. rewrite Ha. repeat split; auto.
  - rewrite filter_In. split.
    + intros [Hin Ha]. apply Bool.eqb_prop in Ha.
      repeat split; try assumption. discriminate.
    + intros [Hin [Ha _]]. now rewrite Ha.
Qed.

Lemma get_all_cases skip limit filters order_by (s : Session DB) :
  (exists ex, BaseService.get_all skip limit filters order_by s = (Raise ex, s))
  \/ (exists q,
        Permutation
          q (BaseService.filtered filters (crop_targets (working s)))
        /\ BaseService.ordered
             order_by
             (BaseService.filtered filters (crop_targets (working s))) s
           = (Ok q, s)
        /\ (0 <= skip)%Z /\ (0 <= limit)%Z
        /\ BaseService.get_all skip limit filters order_by s
           = (Ok (firstn (Z.to_nat limit) (skipn (Z.to_nat skip) q)), s)).
Proof.
  unfold BaseService.get_all, rows, bind, get_working, ret.
  destruct (ordered_pure
              order_by
              (BaseService.filtered filters (crop_targets (working s))))
    as [o Ho].
  rewrite Ho. destruct o as [q|ex]; [|left; eauto].
  unfold offset_limit, raise, ret.
  destruct (skip <? 0)%Z eqn:E1; cbn [orb]; [left; eauto|].
  destruct (limit <? 0)%Z eqn:E2; [left; eauto|].
  right. exists q.
  apply Z.ltb_ge in E1, E2.
  destruct (ordered_perm _ _ _ (Ho s)) as [Hp _].
  repeat split; assumption.
Qed.

(** X1.  Every row that [get_all] returns is a row of the table, is active, and
    agrees with every entry of [filters] that names a column and carries a
    value; the session is left as it was. *)
Theorem get_all_sound skip limit filters order_by (s s' : Session DB) res r :
  BaseService.get_all skip limit filters order_by s = (Ok res, s') ->
  In r res ->
  s' = s
  /\ In r (crop_targets (working s))
  /\ CropTarget.is_active r = true
  /\ (forall fs field v,
         filters = Some fs -> In (field, v) fs ->
         BaseService.model_has field = true -> v <> VNone ->
         value_eqb (BaseService.column field r) v = true).
Proof.
  intros H Hin.
  destruct (get_all_cases skip limit filters order_by s)
    as [[ex E]|[q [Hp [_ [_ [_ E]]]]]]; rewrite E in H; [discriminate|].
  inversion H; subst. split; [reflexivity|].
  apply in_firstn_list, in_skipn_list in Hin.
  apply (Permutation_in _ Hp) in Hin.
  apply filtered_spec in Hin. destruct Hin as [Hin [Ha Hf]].
  split; [exact Hin|]. split; [exact Ha|].
  intros fs field v E' Hfs Hm Hv. specialize (Hf fs E').
  rewrite forallb_forall in Hf. specialize (Hf _ Hfs).
  unfold filter_holds in Hf. cbn [fst snd] in Hf. rewrite Hm in Hf.
  destruct v; try exact Hf. contradiction.
Qed.

Lemma get_all_sound_witness :
  let s := mkSession three_rows three_rows no_fault in
  let r3 := CropTarget.set_created_at 30 (CropTarget.blank 3 0) in
  let r2 := CropTarget.set_created_at 20 (CropTarget.blank 2 0) in
  BaseService.get_all 0 2 (Some [("status", VStr "draft")]) None s
  = (Ok [r3; r2], s)
  /\ In r3 (crop_targets (working s))
  /\ CropTarget.is_active r3 = true.
Proof.
  intros s r3 r2.
  assert (H : BaseService.get_all 0 2 (Some [("status", VStr "draft")]) None s
              = (Ok [r3; r2], s)) by reflexivity.
  split; [exact H|].
  destruct (@get_all_sound 0 2 (Some [("status", VStr "draft")]) None
              s s [r3; r2] r3 H (or_introl eq_refl)) as [_ [H1 [H2 _]]].
  split; assumption.
Defined.



(** X3.  [get_all] returns as many rows as are left of the matching ones after
    [skip], and never more than [limit]; [count] is the number of matching
    rows. *)
Theorem get_all_length skip limit filters order_by (s : Session DB) q :
  (0 <= skip)%Z -> (0 <= limit)%Z ->
  BaseService.ordered
    order_by (BaseService.filtered filters (crop_targets (working s))) s
  = (Ok q, s) ->
  exists res n,
    BaseService.get_all skip limit filters order_by s = (Ok res, s)
    /\ BaseService.count filters s = (Ok n, s)
    /\ Z.of_nat (length res) = Z.min limit (Z.max 0 (n - skip)).
Proof.
  intros Hs Hl Hq.
  destruct (ordered_perm _ _ _ Hq) as [Hp _].
  exists (firstn (Z.to_nat limit) (skipn (Z.to_nat skip) q)).
  exists (Z.of_nat (length
                      (BaseService.filtered
                         filters (crop_targets (working s))))).
  split; [|split].
  - unfold BaseService.get_all, rows, bind, get_working, ret. rewrite Hq.
    unfold offset_limit.
    replace (skip <? 0)%Z with false by (symmetry; apply Z.ltb_ge; lia).
    replace (limit <? 0)%Z with false by (symmetry; apply Z.ltb_ge; lia).
    reflexivity.
  - reflexivity.
  - rewrite length_firstn, length_skipn, <- (Permutation_length Hp). lia.
Qed.

Lemma get_all_length_witness :
  exists res,
    BaseService.get_all 2 5 None None
                        (mkSession three_rows three_rows no_fault)
    = (Ok res, mkSession three_rows three_rows no_fault)
    /\ Z.of_nat (length res) = Z.min 5 (Z.max 0 (3 - 2)).
Proof.
  destruct (@get_all_length 2 5 None None
              (mkSession three_rows three_rows no_fault) _
              ltac:(lia) ltac:(lia) eq_refl) as [res [n [H1 [H2 H3]]]].
  exists res. split; [exact H1|].
  inversion H2; subst n. exact H3.
Defined.

Lemma insert_by_sorted A (le : A -> A -> bool) x l :
  (forall a b, le a b = false -> le b a = true) ->
  (forall a b c, le a b = true -> le b c = true -> le a c = true) ->
  StronglySorted (fun a b => le a b = true) l ->
  StronglySorted (fun a b => le a b = true) (insert_by le x l).
Proof.
  intros Htot Htr. induction l as [|y l IH]; intros Hs; cbn.
  - repeat constructor.
  - inversion Hs as [|? ? Hs' Hall]; subst.
    destruct (le x y) eqn:E.
    + constructor; [exact Hs|]. constructor; [exact E|].
      rewrite Forall_forall in *. intros z Hz. eapply Htr; eauto.
    + constructor; [now apply IH|].
      rewrite Forall_forall in *. intros z Hz.
      apply (Permutation_in _ (insert_by_perm le x l)) in Hz.
      destruct Hz as [<-|Hz]; [now apply Htot | now apply Hall].
Qed.

Lemma sort_by_sorted A (le : A -> A -> bool) l :
  (forall a b, le a b = false -> le b a = true) ->
  (forall a b c, le a b = true -> le b c = true -> le a c = true) ->
  StronglySorted (fun a b => le a b = true) (sort_by le l).
Proof.
  intros Htot Htr. induction l as [|x l IH]; cbn; [constructor|].
  now apply insert_by_sorted.
Qed.

Lemma strongly_sorted_skipn A (R : A -> A -> Prop) n l :
  StronglySorted R l -> StronglySorted R (skipn n l).
Proof.
  revert l. induction n as [|n IH]; intros l H; [exact H|].
  destruct l as [|x l]; [exact H|]. cbn. apply IH. now inversion H.
Qed.

Lemma strongly_sorted_firstn A (R : A -> A -> Prop) n l :
  StronglySorted R l -> StronglySorted R (firstn n l).
Proof.
  revert l. induction n as [|n IH]; intros l H; [constructor|].
  destruct l as [|x l]; [constructor|]. cbn.
  inversion H as [|? ? Hs Hall]; subst. constructor; [now apply IH|].
  rewrite Forall_forall in *. intros z Hz.
  apply Hall. now apply in_firstn_list in Hz.
Qed.

Lemma strongly_sorted_impl A (R S : A -> A -> Prop) l :
  (forall a b, R a b -> S a b) -> StronglySorted R l -> StronglySorted S l.
Proof.
  intros H. induction 1 as [|x l Hs IH Hall]; constructor; [exact IH|].
  rewrite Forall_forall in *. auto.
Qed.

(** X4.  Without [order_by], and for an offset and a limit that are not
    negative, [get_all] returns its rows newest first: no row is followed
    by one that was created later. *)
Theorem get_all_newest_first skip limit filters (s : Session DB) :
  (0 <= skip)%Z -> (0 <= limit)%Z ->
  exists res,
    BaseService.get_all skip limit filters None s = (Ok res, s)
    /\ StronglySorted
         (fun a b => CropTarget.created_at b <= CropTarget.created_at a)
         res.
Proof.
  intros Hs Hl. eexists. split.
  - unfold BaseService.get_all, rows, bind, get_working, ret,
      BaseService.ordered, offset_limit.
    replace (skip <? 0)%Z with false by (symmetry; apply Z.ltb_ge; lia).
    replace (limit <? 0)%Z with false by (symmetry; apply Z.ltb_ge; lia).
    reflexivity.
  - apply strongly_sorted_firstn, strongly_sorted_skipn.
    eapply strongly_sorted_impl;
      [| apply sort_by_sorted with
           (le := desc (BaseService.column "created_at"))].
    + intros a b H. unfold desc in H. cbn in H. now apply Nat.leb_le in H.
    + intros a b H. unfold desc in *. cbn in *.
      apply Nat.leb_gt in H. apply Nat.leb_le. lia.
    + intros a b c H1 H2. unfold desc in *. cbn in *.
      apply Nat.leb_le in H1, H2. apply Nat.leb_le. lia.
Qed.

Lemma get_all_newest_first_witness :
  exists res,
    BaseService.get_all 0 3 None None
                        (mkSession three_rows three_rows no_fault)
    = (Ok res, mkSession three_rows three_rows no_fault)
    /\ StronglySorted
         (fun a b => CropTarget.created_at b <= CropTarget.created_at a)
         res.
Proof.
  exact (@get_all_newest_first 0 3 None
           (mkSession three_rows three_rows no_fault)
           ltac:(lia) ltac:(lia)).
Defined.


(** X6.  Arguments that [get_paginated] does not survive: a page size of zero
    ends in the division by zero, a negative page size or a page before
    the first is refused by the database as a negative LIMIT or OFFSET.
    Nothing is changed. *)
Theorem get_paginated_bad_arguments pg pp filters (s : Session DB) :
  (pp = 0%Z ->
   BaseService.get_paginated pg pp filters None s
   = (Raise ZeroDivisionError, s))
  /\ ((pp < 0)%Z \/ (pg < 1 /\ 0 < pp)%Z ->
      BaseService.get_paginated pg pp filters None s
      = (Raise (SQLAlchemyError "offset/limit"), s)).
Proof.
  unfold BaseService.get_paginated, BaseService.get_all, BaseService.count,
    rows, bind, get_working, ret, BaseService.ordered, offset_limit, raise.
  split.
  - intros ->. rewrite Z.mul_0_r. reflexivity.
  - intros H.
    replace (((pg - 1) * pp <? 0)%Z || (pp <? 0)%Z) with true; [reflexivity|].
    symmetry. apply orb_true_iff. rewrite !Z.ltb_lt. nia.
Qed.

(** ** [BaseService.create] and [BaseService.update] *)




Lemma existsb_id_lookup i db :
  existsb (fun x => Nat.eqb (CropTarget.id x) i) (crop_targets db) = false ->
  Api.lookup i db = None.
Proof. intros H. unfold Api.lookup. now apply existsb_find_none. Qed.


Lemma find_app_new (l : list CropTarget.t) r :
  find (fun x => Nat.eqb (CropTarget.id x) (CropTarget.id r)) l = None ->
  find (fun x => Nat.eqb (CropTarget.id x) (CropTarget.id r)) (l ++ [r])
  = Some r.
Proof.
  induction l as [|x l IH]; cbn; intros H.
  - now rewrite Nat.eqb_refl.
  - destruct (Nat.eqb (CropTarget.id x) (CropTarget.id r)); [discriminate|].
    now apply IH.
Qed.



(** X8.  A [create] that raises has stored nothing, unless the step that
    failed is the [refresh] after the commit: then the exception reaches
    the caller although the new row and its audit row are in the store. *)
Theorem create_raises e obj_data user f db ex db' :
  run (BaseService.create e obj_data user) f db = (Raise ex, db') ->
  db' = db
  \/ (f AtRefresh = true /\ f AtCommit = false
      /\ exists r0,
           CropTarget.init (new_id e) (now e) (drop_none obj_data) = Some r0
           /\ crop_targets db' = crop_targets db ++ [r0]
           /\ length (audit_logs db')
              = length (audit_logs db)
                + match user with Some _ => 1 | None => 0 end).
Proof.
  unfold BaseService.create, BaseService.audit_if.
  destruct (CropTarget.init _ _ _) as [r0|] eqn:Hinit;
    [| unfold_session; intros H; inversion H; now left].
  unfold_session.
  destruct (existsb _ (crop_targets db)) eqn:Hex; unfold_session;
    [intros H; inversion H; now left|].
  destruct (f AtFlush) eqn:Hfl; unfold_session;
    [intros H; inversion H; now left|].
  pose proof (find_app_new (crop_targets db) r0
                (existsb_id_lookup _ _ Hex)) as Hfind.
  destruct user as [u|]; unfold_session.
  - destruct (f AtAudit) eqn:Ha; unfold_session;
      [intros H; inversion H; now left|].
    destruct (f AtCommit) eqn:Hc; unfold_session;
      [intros H; inversion H; now left|].
    destruct (f AtRefresh) eqn:Hr; unfold_session.
    + intros H; inversion H; subst. right. repeat split.
      exists r0. cbn [crop_targets audit_logs].
      rewrite length_app. cbn. repeat split.
    + cbn [crop_targets]. rewrite Hfind. discriminate.
  - destruct (f AtCommit) eqn:Hc; unfold_session;
      [intros H; inversion H; now left|].
    destruct (f AtRefresh) eqn:Hr; unfold_session.
    + intros H; inversion H; subst. right. repeat split.
      exists r0. cbn [crop_targets audit_logs]. repeat split. lia.
    + cbn [crop_targets]. rewrite Hfind. discriminate.
Qed.

Lemma create_raises_witness :
  let f := fun p => match p with AtAudit => true | _ => false end in
  let d := [("year", VInt 2025); ("season", VStr "Rabi");
            ("district", VStr "d"); ("state", VStr "s");
            ("village", VStr "v"); ("crop_name", VStr "Wheat");
            ("cultivable_area", VNum 10%Q); ("target_area", VNum 5%Q);
            ("submitted_by", VUuid 7)] in
  run (BaseService.create (mkEnv 40 4 300) d (Some 7)) f three_rows
  = (Raise (SQLAlchemyError "audit"), three_rows).
Proof.
  intros f d.
  assert (H : run (BaseService.create (mkEnv 40 4 300) d (Some 7)) f
                  three_rows
              = (Raise (SQLAlchemyError "audit"), three_rows))
    by reflexivity.
  destruct (@create_raises (mkEnv 40 4 300) d (Some 7) f three_rows _ _ H)
    as [_|[Hr _]]; [exact H | discriminate Hr].
Defined.









(** ** The listings of [CropTargetService] *)

Lemma offset_limit_cases A skip limit (l : list A) (s : Session DB) :
  (offset_limit skip limit l s = (Raise (SQLAlchemyError "offset/limit"), s)
   /\ ((skip < 0)%Z \/ (limit < 0)%Z))
  \/ (offset_limit skip limit l s
      = (Ok (firstn (Z.to_nat limit) (skipn (Z.to_nat skip) l)), s)
      /\ (0 <= skip)%Z /\ (0 <= limit)%Z).
Proof.
  unfold offset_limit, raise, ret.
  destruct (skip <? 0)%Z eqn:E1; cbn [orb].
  - left. apply Z.ltb_lt in E1. auto.
  - destruct (limit <? 0)%Z eqn:E2.
    + left. apply Z.ltb_lt in E2. auto.
    + right. apply Z.ltb_ge in E1, E2. auto.
Qed.

Lemma in_exact fs key (l : list CropTarget.t) r :
  In r (CropTargetService.exact fs key l) ->
  In r l
  /\ (CropTargetService.truthy (dict_get key fs) = true ->
      exists v, dict_get key fs = Some v
                /\ value_eqb (BaseService.column key r) v = true).
Proof.
  unfold CropTargetService.exact.
  destruct (CropTargetService.truthy (dict_get key fs)) eqn:E.
  - rewrite filter_In. intros [Hin Hm]. split; [exact Hin|]. intros _.
    destruct (dict_get key fs) as [v|]; [|discriminate]. eauto.
  - intros Hin. split; [exact Hin | discriminate].
Qed.

Lemma in_containing fs key (l : list CropTarget.t) r :
  In r (CropTargetService.containing fs key l) ->
  In r l
  /\ (CropTargetService.truthy (dict_get key fs) = true ->
      exists x s0, dict_get key fs = Some (VStr x)
                   /\ BaseService.column key r = VStr s0
                   /\ CropTargetService.ilike s0 ("%" ++ x ++ "%") = true).
Proof.
  unfold CropTargetService.containing.
  destruct (CropTargetService.truthy (dict_get key fs)) eqn:E.
  - rewrite filter_In. intros [Hin Hm]. split; [exact Hin|]. intros _.
    destruct (dict_get key fs) as [[]|]; try discriminate.
    destruct (BaseService.column key r); try discriminate. eauto.
  - intros Hin. split; [exact Hin | discriminate].
Qed.

(** X11.  [get_by_submitter] returns only rows of the table that the
    given user submitted and that are active; with a status, year or
    season among the filters (and not empty or zero, which the code takes
    as absent), every returned row has that value.  The session is left as
    it was. *)
Theorem get_by_submitter_sound
        u skip limit filters (s s' : Session DB) res r :
  CropTargetService.get_by_submitter u skip limit filters s = (Ok res, s') ->
  In r res ->
  s' = s
  /\ In r (crop_targets (working s))
  /\ CropTarget.submitted_by r = u
  /\ CropTarget.is_active r = true
  /\ (forall fs key,
         filters = Some fs ->
         key = "status" \/ key = "year" \/ key = "season" ->
         CropTargetService.truthy (dict_get key fs) = true ->
         exists v, dict_get key fs = Some v
                   /\ value_eqb (BaseService.column key r) v = true).
Proof.
  unfold CropTargetService.get_by_submitter, rows, bind, get_working, ret.
  intros H Hin.
  match type of H with
  | offset_limit ?a ?b ?l ?s0 = _ =>
      destruct (offset_limit_cases a b l s0) as [[E _]|[E _]];
        rewrite E in H; [discriminate|]
  end.
  injection H as Hres Hs'. subst res s'. clear E. split; [reflexivity|].
  apply in_firstn_list, in_skipn_list in Hin.
  apply (Permutation_in _ (sort_by_perm _ _)) in Hin.
  assert (Hbase : forall q,
             In r q ->
             (forall x, In x q ->
                In x (filter (fun r0 =>
                                Nat.eqb (CropTarget.submitted_by r0) u
                                && Bool.eqb (CropTarget.is_active r0) true)
                             (crop_targets (working s)))) ->
             In r (crop_targets (working s))
             /\ CropTarget.submitted_by r = u
             /\ CropTarget.is_active r = true).
  { intros q Hq Hsub. apply Hsub in Hq. apply filter_In in Hq.
    destruct Hq as [Hq Hb]. apply andb_true_iff in Hb.
    destruct Hb as [Hb1 Hb2]. apply Nat.eqb_eq in Hb1.
    apply Bool.eqb_prop in Hb2. auto. }
  unfold CropTargetService.with_filters in Hin.
  destruct filters as [[|kv fs]|].
  - destruct (Hbase _ Hin (fun x Hx => Hx)) as [H1 [H2 H3]].
    repeat split; try assumption.
    intros fs key E _ Ht. inversion E; subst. discriminate.
  - apply in_containing in Hin. destruct Hin as [Hin _].
    apply in_exact in Hin. destruct Hin as [Hin Hseason].
    apply in_exact in Hin. destruct Hin as [Hin Hyear].
    apply in_exact in Hin. destruct Hin as [Hin Hstatus].
    destruct (Hbase _ Hin (fun x Hx => Hx)) as [H1 [H2 H3]].
    repeat split; try assumption.
    intros fs' key E Hk Ht. inversion E; subst.
    destruct Hk as [->|[->| ->]]; auto.
  - destruct (Hbase _ Hin (fun x Hx => Hx)) as [H1 [H2 H3]].
    repeat split; try assumption. discriminate.
Qed.

Lemma get_by_submitter_sound_witness :
  let s := mkSession Scenario.submitted Scenario.submitted no_fault in
  exists r,
    CropTargetService.get_by_submitter
      7 0 10 (Some [("status", VStr "submitted")]) s
    = (Ok [r], s)
    /\ CropTarget.submitted_by r = 7
    /\ CropTarget.is_active r = true.
Proof.
  intros s.
  destruct (CropTargetService.get_by_submitter
              7 0 10 (Some [("status", VStr "submitted")]) s)
    as [o s'] eqn:E.
  vm_compute in E. inversion E as [[Ho Hs]]. clear E.
  match type of Ho with Ok [?x] = _ => exists x end.
  split; [reflexivity|].
  match goal with |- CropTarget.submitted_by ?x = _ /\ _ =>
    destruct (@get_by_submitter_sound
                7 0 10 (Some [("status", VStr "submitted")]) s s [x] x
                eq_refl (or_introl eq_refl)) as [_ [_ [H2 [H3 _]]]]
  end.
  split; assumption.
Defined.

(** X12.  [get_pending_approvals] returns only active rows of the table
    whose status is [submitted] or [pending], and leaves the session as it
    was. *)
Theorem get_pending_approvals_sound
        skip limit filters (s s' : Session DB) res r :
  CropTargetService.get_pending_approvals skip limit filters s
  = (Ok res, s') ->
  In r res ->
  s' = s
  /\ In r (crop_targets (working s))
  /\ CropTarget.is_pending_approval r = true
  /\ CropTarget.is_active r = true.
Proof.
  unfold CropTargetService.get_pending_approvals, rows, bind, get_working,
    ret.
  intros H Hin.
  match type of H with
  | offset_limit ?a ?b ?l ?s0 = _ =>
      destruct (offset_limit_cases a b l s0) as [[E _]|[E _]];
        rewrite E in H; [discriminate|]
  end.
  injection H as Hres Hs'. subst res s'. clear E. split; [reflexivity|].
  apply in_firstn_list, in_skipn_list in Hin.
  apply (Permutation_in _ (sort_by_perm _ _)) in Hin.
  assert (Hbase :
            In r (filter (fun r0 =>
                            (String.eqb (CropTarget.status r0) "submitted"
                             || String.eqb (CropTarget.status r0) "pending")
                            && Bool.eqb (CropTarget.is_active r0) true)
                         (crop_targets (working s)))).
  { unfold CropTargetService.with_filters in Hin.
    destruct filters as [[|kv fs]|]; try exact Hin.
    repeat (first [apply in_containing in Hin | apply in_exact in Hin];
            destruct Hin as [Hin _]).
    exact Hin. }
  apply filter_In in Hbase. destruct Hbase as [H1 Hb].
  apply andb_true_iff in Hb. destruct Hb as [Hb1 Hb2].
  apply Bool.eqb_prop in Hb2. now repeat split.
Qed.

Lemma get_pending_approvals_sound_witness :
  let s := mkSession Scenario.submitted Scenario.submitted no_fault in
  exists r,
    CropTargetService.get_pending_approvals 0 10 None s = (Ok [r], s)
    /\ CropTarget.is_pending_approval r = true.
Proof.
  intros s.
  destruct (CropTargetService.get_pending_approvals 0 10 None s)
    as [o s'] eqn:E.
  vm_compute in E. inversion E as [[Ho Hs]]. clear E.
  match type of Ho with Ok [?x] = _ => exists x end.
  split; [reflexivity|].
  match goal with |- CropTarget.is_pending_approval ?x = _ =>
    destruct (@get_pending_approvals_sound
                0 10 None s s [x] x eq_refl (or_introl eq_refl))
      as [_ [_ [H2 _]]]
  end.
  exact H2.
Defined.

(** ** The text filters ([ilike]) *)

(** The two texts differ at most in the case of their letters. *)
Definition same_letters (x y : string) : Prop :=
  map CropTargetService.lower (list_ascii_of_string x)
  = map CropTargetService.lower (list_ascii_of_string y).

Lemma list_ascii_of_string_append a b :
  list_ascii_of_string (a ++ b)
  = (list_ascii_of_string a ++ list_ascii_of_string b)%list.
Proof. induction a as [|c a IH]; cbn; [reflexivity | now rewrite IH]. Qed.

Lemma ilike_percent_unfold p u :
  CropTargetService.ilike_chars ("%"%char :: p) u
  = CropTargetService.ilike_chars p u
    || match u with
       | [] => false
       | _ :: u' => CropTargetService.ilike_chars ("%"%char :: p) u'
       end.
Proof. destruct u; reflexivity. Qed.

Lemma ilike_percent_skip p a b :
  CropTargetService.ilike_chars p b = true ->
  CropTargetService.ilike_chars ("%"%char :: p) (a ++ b) = true.
Proof.
  intros H. induction a as [|d a IH]; rewrite ilike_percent_unfold.
  - cbn [app]. now rewrite H.
  - cbn [app]. rewrite IH. apply orb_true_r.
Qed.

Lemma ilike_same_letters p : forall s q t,
  map CropTargetService.lower s = map CropTargetService.lower p ->
  CropTargetService.ilike_chars q t = true ->
  CropTargetService.ilike_chars (p ++ q) (s ++ t) = true.
Proof.
  induction p as [|c p IH]; intros s q t Hm Hq.
  - destruct s; [exact Hq | discriminate].
  - destruct s as [|d s]; [discriminate|].
    cbn [map] in Hm. injection Hm as Hc Hm.
    specialize (IH s q t Hm Hq).
    destruct (Ascii.eqb_spec c "%") as [->|Hn].
    + cbn [app]. rewrite ilike_percent_unfold.
      rewrite (ilike_percent_unfold (p ++ q) (s ++ t)), IH.
      cbn. apply orb_true_r.
    + cbn [app CropTargetService.ilike_chars].
      destruct (Ascii.eqb_spec c "%") as [E|_]; [contradiction|].
      rewrite IH, Hc, Ascii.eqb_refl. now rewrite orb_true_r.
Qed.

Lemma ilike_contains pre mid post x :
  same_letters mid x ->
  CropTargetService.ilike (pre ++ mid ++ post) ("%" ++ x ++ "%") = true.
Proof.
  intros H. unfold CropTargetService.ilike.
  rewrite !list_ascii_of_string_append. cbn [list_ascii_of_string app].
  apply ilike_percent_skip, ilike_same_letters; [exact H|].
  rewrite <- (app_nil_r (list_ascii_of_string post)).
  now apply ilike_percent_skip.
Qed.

(** X13.  The text filters of the listings ([district], [village],
    [crop_name]) keep every row whose column contains the filter text,
    whatever the case of the letters on either side.  (The escape
    character of LIKE is outside the model: the text is taken without a
    backslash.) *)
Theorem containing_keeps_substring fs key l r x pre mid post :
  dict_get key fs = Some (VStr x) -> x <> "" ->
  ~ In "\"%char (list_ascii_of_string x) ->
  In r l ->
  BaseService.column key r = VStr (pre ++ mid ++ post) ->
  same_letters mid x ->
  In r (CropTargetService.containing fs key l).
Proof.
  intros Hx Hne _ Hin Hcol Hsame. unfold CropTargetService.containing.
  rewrite Hx. cbn [CropTargetService.truthy].
  destruct (String.eqb_spec x ""); [contradiction|]. cbn [negb].
  apply filter_In. split; [exact Hin|].
  rewrite Hcol. now apply ilike_contains.
Qed.

Lemma containing_keeps_substring_witness :
  let r := CropTarget.set_crop_name "Basmati RICE" (CropTarget.blank 1 0) in
  In r (CropTargetService.containing
          [("crop_name", VStr "rice")] "crop_name" [r]).
Proof.
  intros r.
  apply (@containing_keeps_substring
           [("crop_name", VStr "rice")] "crop_name" [r] r "rice"
           "Basmati " "RICE" "").
  - reflexivity.
  - discriminate.
  - cbn. intuition discriminate.
  - now left.
  - reflexivity.
  - reflexivity.
Defined.

(** X14.  The filter text is put into the pattern as it is: a [%] in it
    is a wildcard.  A text [a%b] keeps every row whose column has [a] and,
    anywhere after it, [b]; so the text [%] alone keeps every row that has
    a text in the column. *)
Theorem containing_takes_percent_as_wildcard fs key l r a b pre gap post :
  dict_get key fs = Some (VStr (a ++ "%" ++ b)) ->
  ~ In "\"%char (list_ascii_of_string (a ++ b)) ->
  In r l ->
  BaseService.column key r = VStr (pre ++ a ++ gap ++ b ++ post) ->
  In r (CropTargetService.containing fs key l).
Proof.
  intros Hx _ Hin Hcol. unfold CropTargetService.containing.
  rewrite Hx. cbn [CropTargetService.truthy].
  assert (Hne : String.eqb (a ++ "%" ++ b) "" = false)
    by (destruct a; reflexivity).
  rewrite Hne. cbn [negb].
  apply filter_In. split; [exact Hin|].
  rewrite Hcol. unfold CropTargetService.ilike.
  rewrite !list_ascii_of_string_append. cbn [list_ascii_of_string app].
  apply ilike_percent_skip.
  rewrite <- !app_assoc.
  apply ilike_same_letters; [reflexivity|].
  cbn [app]. apply ilike_percent_skip.
  apply ilike_same_letters; [reflexivity|].
  rewrite <- (app_nil_r (list_ascii_of_string post)).
  now apply ilike_percent_skip.
Qed.

Lemma containing_takes_percent_as_wildcard_witness :
  let r := CropTarget.set_village "Wagholi" (CropTarget.blank 1 0) in
  In r (CropTargetService.containing [("village", VStr "%")] "village" [r]).
Proof.
  intros r.
  apply (@containing_takes_percent_as_wildcard
           [("village", VStr "%")] "village" [r] r "" "" "" "Wagholi" "").
  - reflexivity.
  - cbn. tauto.
  - now left.
  - reflexivity.
Defined.

(** ** The dashboard figures *)

Lemma filter_length_le A (p : A -> bool) l :
  length (filter p l) <= length l.
Proof.
  induction l as [|x l IH]; cbn; [lia|]. destruct (p x); cbn; lia.
Qed.





(** ** The newest submissions *)

Lemma strongly_sorted_split A (R : A -> A -> Prop) n l x y :
  StronglySorted R l -> In x (firstn n l) -> In y (skipn n l) -> R x y.
Proof.
  revert l. induction n as [|n IH]; intros l Hs Hx Hy; [destruct Hx|].
  destruct l as [|z l]; [destruct Hx|].
  inversion Hs as [|? ? Hs' Hall]; subst. cbn in Hx, Hy.
  destruct Hx as [<-|Hx].
  - rewrite Forall_forall in Hall. apply Hall.
    now apply in_skipn_list in Hy.
  - now apply (IH l).
Qed.

(** X16.  For a limit that is not negative, [get_recent_submissions]
    returns at most [limit] records, all of them active and, when a user
    is given, submitted by that user; they come newest first, and no
    record of that kind which is left out was created later than one that
    is returned. *)
Theorem recent_submissions_are_the_newest user limit (s : Session DB) :
  (0 <= limit)%Z ->
  exists res,
    CropTargetService.get_recent_submissions user limit s = (Ok res, s)
    /\ (Z.of_nat (length res) <= limit)%Z
    /\ (forall r, In r res ->
          In r (crop_targets (working s))
          /\ CropTarget.is_active r = true
          /\ (forall u, user = Some u -> CropTarget.submitted_by r = u))
    /\ StronglySorted
         (fun a b => CropTarget.created_at b <= CropTarget.created_at a) res
    /\ (forall r x,
          In r res ->
          In x (crop_targets (working s)) ->
          CropTarget.is_active x = true ->
          (forall u, user = Some u -> CropTarget.submitted_by x = u) ->
          In x res \/ CropTarget.created_at x <= CropTarget.created_at r).
Proof.
  intros Hl.
  unfold CropTargetService.get_recent_submissions, rows, bind, get_working,
    ret, offset_limit.
  replace (limit <? 0)%Z with false by (symmetry; apply Z.ltb_ge; lia).
  cbn [Z.ltb Z.compare orb Z.to_nat skipn].
  set (q := match user with
            | Some u =>
                filter (fun r => Nat.eqb (CropTarget.submitted_by r) u)
                       (filter (fun r => Bool.eqb (CropTarget.is_active r) true)
                               (crop_targets (working s)))
            | None =>
                filter (fun r => Bool.eqb (CropTarget.is_active r) true)
                       (crop_targets (working s))
            end).
  set (sorted := sort_by (desc (BaseService.column "created_at")) q).
  assert (Hq : forall r, In r q <->
                 In r (crop_targets (working s))
                 /\ CropTarget.is_active r = true
                 /\ (forall u, user = Some u -> CropTarget.submitted_by r = u)).
  { intros r. unfold q. destruct user as [u|].
    - rewrite !filter_In. split.
      + intros [[H1 H2] H3]. apply Bool.eqb_prop in H2.
        apply Nat.eqb_eq in H3. repeat split; try assumption.
        intros u' E. now inversion E; subst.
      + intros [H1 [H2 H3]]. rewrite H2, (H3 u eq_refl), Nat.eqb_refl.
        now repeat split.
    - rewrite filter_In. split.
      + intros [H1 H2]. apply Bool.eqb_prop in H2.
        repeat split; try assumption. discriminate.
      + intros [H1 [H2 _]]. now rewrite H2. }
  assert (Hsorted : StronglySorted
                      (fun a b => CropTarget.created_at b
                                  <= CropTarget.created_at a) sorted).
  { eapply strongly_sorted_impl;
      [| apply sort_by_sorted with
           (le := desc (BaseService.column "created_at"))].
    + intros a b H. unfold desc in H. cbn in H. now apply Nat.leb_le in H.
    + intros a b H. unfold desc in *. cbn in *.
      apply Nat.leb_gt in H. apply Nat.leb_le. lia.
    + intros a b c H1 H2. unfold desc in *. cbn in *.
      apply Nat.leb_le in H1, H2. apply Nat.leb_le. lia. }
  eexists. split; [reflexivity|].
  split; [rewrite length_firstn; lia|].
  split; [|split].
  - intros r Hr. apply in_firstn_list in Hr.
    apply (Permutation_in _ (sort_by_perm _ _)) in Hr. now apply Hq.
  - now apply strongly_sorted_firstn.
  - intros r x Hr Hx Ha Hu.
    assert (Hxs : In x sorted).
    { apply (Permutation_in _ (Permutation_sym (sort_by_perm _ _))).
      apply Hq. auto. }
    rewrite <- (firstn_skipn (Z.to_nat limit) sorted) in Hxs.
    apply in_app_or in Hxs. destruct Hxs as [Hxs|Hxs]; [now left|].
    right.
    exact (@strongly_sorted_split
             _ (fun a b => CropTarget.created_at b <= CropTarget.created_at a)
             (Z.to_nat limit) sorted r x Hsorted Hr Hxs).
Qed.

Lemma recent_submissions_are_the_newest_witness :
  exists res,
    CropTargetService.get_recent_submissions
      None 2 (mkSession three_rows three_rows no_fault)
    = (Ok res, mkSession three_rows three_rows no_fault)
    /\ map CropTarget.id res = [3; 2].
Proof.
  destruct (@recent_submissions_are_the_newest
              None 2 (mkSession three_rows three_rows no_fault) ltac:(lia))
    as [res [H _]].
  exists res. split; [exact H|].
  vm_compute in H. inversion H. reflexivity.
Defined.

(** ** The listing routes of [server_new.py] *)

Lemma exact_length fs key (l : list CropTarget.t) :
  length (CropTargetService.exact fs key l) <= length l.
Proof.
  unfold CropTargetService.exact.
  destruct (CropTargetService.truthy _); [apply filter_length_le | lia].
Qed.

Lemma containing_length fs key (l : list CropTarget.t) :
  length (CropTargetService.containing fs key l) <= length l.
Proof.
  unfold CropTargetService.containing.
  destruct (CropTargetService.truthy _); [apply filter_length_le | lia].
Qed.

Lemma firstn_skipn_length A (l : list A) (a b : Z) :
  (0 <= a)%Z -> (0 <= b)%Z ->
  Z.of_nat (length (firstn (Z.to_nat b) (skipn (Z.to_nat a) l)))
  = Z.min b (Z.max 0 (Z.of_nat (length l) - a)).
Proof. intros. rewrite length_firstn, length_skipn. lia. Qed.

(** X17.  The two listing routes count their total with a second call of
    the service that passes no limit, and the service's own default limit
    is 100: the [total] of the answer is the number of matching records
    only up to 100, and [pages] is computed from that figure, while the
    items of the page are cut from the full list of matching records. *)
Theorem listing_total_is_capped
        pg pp status year season district village crop_name
        (u : User.t) (s : Session DB) :
  ServerNew.valid_paging pg pp = true ->
  (User.role u = "VO" ->
   exists lst every,
     CropTargetService.get_by_submitter
       (User.id u) 0 (Z.of_nat (length (crop_targets (working s))))
       (Some (ServerNew.text_filter "status" status
              ++ ServerNew.int_filter "year" year
              ++ ServerNew.text_filter "season" season)) s
     = (Ok every, s)
     /\ ServerNew.get_my_submissions pg pp status year season u s
        = (Ok lst, s)
     /\ ServerNew.total lst = Z.min 100 (Z.of_nat (length every))
     /\ ServerNew.pages lst
        = ((ServerNew.total lst + pp - 1) / pp)%Z
     /\ ServerNew.items lst
        = map CropTarget.to_dict
              (firstn (Z.to_nat pp) (skipn (Z.to_nat ((pg - 1) * pp)) every)))
  /\ (User.role u = "BO" ->
      exists lst every,
        CropTargetService.get_pending_approvals
          0 (Z.of_nat (length (crop_targets (working s))))
          (Some (ServerNew.int_filter "year" year
                 ++ ServerNew.text_filter "season" season
                 ++ ServerNew.text_filter "district" district
                 ++ ServerNew.text_filter "village" village
                 ++ ServerNew.text_filter "crop_name" crop_name)) s
        = (Ok every, s)
        /\ ServerNew.get_pending_approvals
             pg pp year season district village crop_name u s
           = (Ok lst, s)
        /\ ServerNew.total lst = Z.min 100 (Z.of_nat (length every))
        /\ ServerNew.pages lst
           = ((ServerNew.total lst + pp - 1) / pp)%Z
        /\ ServerNew.items lst
           = map CropTarget.to_dict
                 (firstn (Z.to_nat pp)
                         (skipn (Z.to_nat ((pg - 1) * pp)) every))).
Proof.
  intros Hp.
  assert (Hp' := Hp). unfold ServerNew.valid_paging in Hp'.
  apply andb_true_iff in Hp'. destruct Hp' as [Hp' H3].
  apply andb_true_iff in Hp'. destruct Hp' as [H1 H2].
  apply Z.leb_le in H1, H2, H3.
  assert (Hskip : ((pg - 1) * pp <? 0)%Z = false)
    by (apply Z.ltb_ge; nia).
  assert (Hlim : (pp <? 0)%Z = false) by (apply Z.ltb_ge; lia).
  assert (Hn : forall n : nat, (Z.of_nat n <? 0)%Z = false)
    by (intros n; apply Z.ltb_ge; lia).
  split; intros Hrole.
  - unfold ServerNew.get_my_submissions, ServerNew.require_role,
      ServerNew.validated. rewrite Hrole, Hp.
    cbn [existsb String.eqb Ascii.eqb Bool.eqb orb].
    unfold CropTargetService.get_by_submitter, rows, offset_limit, bind,
      get_working.
    cbv beta zeta. rewrite Hskip, Hlim, Hn. cbn [Z.ltb Z.compare orb].
    unfold ret. cbv beta iota zeta.
    match goal with |- context [sort_by ?le ?q] =>
      remember (sort_by le q) as Q eqn:EQ;
      assert (HQ : length Q <= length (crop_targets (working s)))
    end.
    { rewrite EQ, (Permutation_length (sort_by_perm _ _)).
      unfold CropTargetService.with_filters.
      destruct (_ ++ _)%list.
      - apply filter_length_le.
      - etransitivity; [apply containing_length|].
        etransitivity; [apply exact_length|].
        etransitivity; [apply exact_length|].
        etransitivity; [apply exact_length|].
        apply filter_length_le. }
    assert (Hall : firstn (Z.to_nat (Z.of_nat
                                       (length (crop_targets (working s)))))
                          (skipn (Z.to_nat 0) Q) = Q).
    { change (Z.to_nat 0) with 0. cbn [skipn]. apply firstn_all2. lia. }
    rewrite Hall.
    eexists. exists Q. split; [reflexivity|]. split; [reflexivity|].
    cbn [ServerNew.total ServerNew.pages ServerNew.items].
    split; [|split; reflexivity].
    change (Z.to_nat 0) with 0. cbn [skipn]. rewrite length_firstn. lia.
  - unfold ServerNew.get_pending_approvals, ServerNew.require_role,
      ServerNew.validated. rewrite Hrole, Hp.
    cbn [existsb String.eqb Ascii.eqb Bool.eqb orb].
    unfold CropTargetService.get_pending_approvals, rows, offset_limit, bind,
      get_working.
    cbv beta zeta. rewrite Hskip, Hlim, Hn. cbn [Z.ltb Z.compare orb].
    unfold ret. cbv beta iota zeta.
    match goal with |- context [sort_by ?le ?q] =>
      remember (sort_by le q) as Q eqn:EQ;
      assert (HQ : length Q <= length (crop_targets (working s)))
    end.
    { rewrite EQ, (Permutation_length (sort_by_perm _ _)).
      unfold CropTargetService.with_filters.
      destruct (_ ++ _)%list.
      - apply filter_length_le.
      - etransitivity; [apply containing_length|].
        etransitivity; [apply containing_length|].
        etransitivity; [apply containing_length|].
        etransitivity; [apply exact_length|].
        etransitivity; [apply exact_length|].
        apply filter_length_le. }
    assert (Hall : firstn (Z.to_nat (Z.of_nat
                                       (length (crop_targets (working s)))))
                          (skipn (Z.to_nat 0) Q) = Q).
    { change (Z.to_nat 0) with 0. cbn [skipn]. apply firstn_all2. lia. }
    rewrite Hall.
    eexists. exists Q. split; [reflexivity|]. split; [reflexivity|].
    cbn [ServerNew.total ServerNew.pages ServerNew.items].
    split; [|split; reflexivity].
    change (Z.to_nat 0) with 0. cbn [skipn]. rewrite length_firstn. lia.
Qed.

Lemma listing_total_is_capped_witness :
  exists lst,
    ServerNew.get_my_submissions
      1 20 None None None Scenario.vo
      (mkSession Scenario.submitted Scenario.submitted no_fault)
    = (Ok lst, mkSession Scenario.submitted Scenario.submitted no_fault)
    /\ ServerNew.total lst = 1%Z.
Proof.
  destruct (@listing_total_is_capped
              1 20 None None None None None None Scenario.vo
              (mkSession Scenario.submitted Scenario.submitted no_fault)
              eq_refl) as [H _].
  destruct (H eq_refl) as [lst [every [H1 [H2 [H3 _]]]]].
  exists lst. split; [exact H2|].
  rewrite H3. vm_compute in H1. inversion H1. reflexivity.
Defined.

(** ** The methods of the model ([models/crop_target.py]) *)


(** X19.  The workflow methods of the model.  [submit_for_approval]
    leaves a record that is not a draft as it is, so that submitting twice
    keeps the first submission time; on a draft it changes the status and
    the submission time only.  [approve] and [reject] do not look at the
    status they replace; [approve] keeps the rejection reason, and keeps
    the remarks when it is given none or the empty string. *)
Theorem model_methods_spec t1 t2 u rem reason r :
  (CropTarget.status r <> "draft" ->
   CropTarget.submit_for_approval t1 r = r)
  /\ CropTarget.submit_for_approval t2 (CropTarget.submit_for_approval t1 r)
     = CropTarget.submit_for_approval t1 r
  /\ (forall c, c <> "status" -> c <> "submitted_at" ->
                CropTarget.getattr (CropTarget.submit_for_approval t1 r) c
                = CropTarget.getattr r c)
  /\ CropTarget.status (CropTarget.approve t1 u rem r) = "approved"
  /\ CropTarget.status (CropTarget.reject t1 u reason r) = "rejected"
  /\ CropTarget.rejection_reason (CropTarget.approve t1 u rem r)
     = CropTarget.rejection_reason r
  /\ (rem = None \/ rem = Some "" ->
      CropTarget.remarks (CropTarget.approve t1 u rem r)
      = CropTarget.remarks r)
  /\ CropTarget.is_editable (CropTarget.approve t1 u rem r) = false
  /\ CropTarget.is_pending_approval (CropTarget.reject t1 u reason r)
     = false.
Proof.
  split; [|split; [|split; [|split; [|split; [|split; [|split; [|split]]]]]]].
  - intros H. unfold CropTarget.submit_for_approval.
    destruct (String.eqb_spec (CropTarget.status r) "draft");
      [contradiction | reflexivity].
  - unfold CropTarget.submit_for_approval.
    destruct (String.eqb_spec (CropTarget.status r) "draft") as [E|E].
    + reflexivity.
    + destruct (String.eqb_spec (CropTarget.status r) "draft");
        [contradiction | reflexivity].
  - intros c H1 H2. unfold CropTarget.submit_for_approval.
    destruct (String.eqb (CropTarget.status r) "draft"); [|reflexivity].
    unfold CropTarget.getattr.
    destruct (String.eqb_spec c "status"); [contradiction|].
    destruct (String.eqb_spec c "submitted_at"); [contradiction|].
    reflexivity.
  - unfold CropTarget.approve. now destruct (truthy_str rem).
  - reflexivity.
  - unfold CropTarget.approve. now destruct (truthy_str rem).
  - intros [->| ->]; reflexivity.
  - unfold CropTarget.approve, CropTarget.is_editable.
    now destruct (truthy_str rem).
  - reflexivity.
Qed.

(** ** The routes of [server_new.py] *)






(** X21.  Every route checks the role before anything else: a caller
    whose role is not the one the route asks for gets 403 with the
    message naming that role, whatever the request says, and the store
    is as it was. *)
Theorem wrong_role_is_refused
        e i d up a pg pp st yr sn di vi cn (u : User.t) f db :
  (User.role u <> "VO" ->
   let refused {A} : outcome A * DB :=
     (Raise (HTTPException 403 "Access denied. Required role: VO"), db) in
   run (ServerNew.create_crop_target e d u) f db = refused
   /\ run (ServerNew.update_crop_target e i up u) f db = refused
   /\ run (ServerNew.submit_crop_target e i u) f db = refused
   /\ run (ServerNew.get_my_submissions pg pp st yr sn u) f db = refused
   /\ run (ServerNew.get_vo_summary yr sn u) f db = refused)
  /\ (User.role u <> "BO" ->
      let refused {A} : outcome A * DB :=
        (Raise (HTTPException 403 "Access denied. Required role: BO"), db) in
      run (ServerNew.approve_crop_target e i a u) f db = refused
      /\ run (ServerNew.get_pending_approvals pg pp yr sn di vi cn u) f db
         = refused
      /\ run (ServerNew.get_bo_summary yr sn u) f db = refused).
Proof.
  split; intros Hrole refused; subst refused;
    unfold ServerNew.create_crop_target, ServerNew.update_crop_target,
      ServerNew.submit_crop_target, ServerNew.get_my_submissions,
      ServerNew.get_vo_summary, ServerNew.approve_crop_target,
      ServerNew.get_pending_approvals, ServerNew.get_bo_summary,
      ServerNew.require_role;
    cbn [existsb orb].
  - destruct (String.eqb_spec (User.role u) "VO"); [contradiction|].
    cbn [orb]. unfold_session.
    split; [reflexivity|]. split; [reflexivity|]. split; [reflexivity|].
    split; reflexivity.
  - destruct (String.eqb_spec (User.role u) "BO"); [contradiction|].
    cbn [orb]. unfold_session.
    split; [reflexivity|]. split; reflexivity.
Qed.

Lemma wrong_role_is_refused_witness :
  run (ServerNew.submit_crop_target (mkEnv 50 1 100) 1 Scenario.bo)
      no_fault Scenario.drafted
  = (Raise (HTTPException 403 "Access denied. Required role: VO"),
     Scenario.drafted).
Proof.
  destruct (@wrong_role_is_refused
              (mkEnv 50 1 100) 1 Scenario.rice Scenario.no_change
              Scenario.approve_it 1 20 None None None None None None
              Scenario.bo no_fault Scenario.drafted) as [H _].
  exact (proj1 (proj2 (proj2 (H ltac:(discriminate))))).
Defined.

(** ** What no request of the SQLAlchemy stack undoes *)

Lemma setattr_created_at r k v r' :
  CropTarget.setattr r k v = Some r' -> k <> "created_at" ->
  CropTarget.created_at r' = CropTarget.created_at r.
Proof. unfold CropTarget.setattr; intros H Hk; setattr_cases H v. Qed.

(** The columns that say whose record it is: the submitter, the time of
    creation and the active flag. *)
Definition same_origin (a b : CropTarget.t) : Prop :=
  CropTarget.submitted_by b = CropTarget.submitted_by a
  /\ CropTarget.created_at b = CropTarget.created_at a
  /\ CropTarget.is_active b = CropTarget.is_active a.

Lemma moves_same_origin e u q old new_ :
  Api.moves e u q old new_ -> same_origin old new_.
Proof.
  intros H; destruct H; unfold same_origin.
  - split; [|split].
    + eapply (assign_keeps CropTarget.submitted_by setattr_submitted_by);
        [eassumption|]. not_a_key.
    + eapply (assign_keeps CropTarget.created_at setattr_created_at);
        [eassumption|]. not_a_key.
    + eapply (assign_keeps CropTarget.is_active setattr_is_active);
        [eassumption|]. not_a_key.
  - unfold CropTarget.submit_for_approval.
    destruct (String.eqb _ _); now repeat split.
  - unfold CropTarget.approve. destruct (truthy_str _); now repeat split.
  - now repeat split.
Qed.

Lemma commits_same_origin c db db' i r :
  Api.wf db -> Api.commits c db db' ->
  Api.lookup i db = Some r ->
  exists r', Api.lookup i db' = Some r' /\ same_origin r r'.
Proof.
  intros Hwf H Hl.
  destruct H as [d r0 a Ha Hc Hq Hi Hfresh Hact Hu Hr ->
                |old new_ a Ha Hc Hf Hm Hact Hu Hr ->].
  - exists r. split; [|now repeat split].
    unfold Api.lookup in *. cbn [crop_targets].
    clear - Hl. induction (crop_targets db) as [|x l IH]; [discriminate|].
    cbn in *. destruct (Nat.eqb (CropTarget.id x) i); [exact Hl | now apply IH].
  - pose proof (moves_id Hm) as Hid.
    pose proof (moves_same_origin Hm) as Hso.
    rewrite lookup_rewritten by exact Hid.
    destruct (CropTarget.same_columns old new_);
      [exists r; split; [exact Hl | now repeat split]|].
    rewrite Hl. cbn [option_map].
    destruct (Nat.eqb_spec (CropTarget.id r) (CropTarget.id old)) as [E|E].
    + eexists. split; [reflexivity|].
      assert (r = old).
      { pose proof (find_active_lookup _ Hwf Hf) as Ho.
        destruct (lookup_in _ _ Hl) as [_ Hi].
        rewrite <- E, Hi in Ho. congruence. }
      subst r. exact Hso.
    + exists r. split; [reflexivity | now repeat split].
Qed.

Lemma serve_audit_grows c db :
  exists more,
    audit_logs (snd (Api.serve c db)) = audit_logs db ++ more
    /\ length more <= 1.
Proof.
  destruct (serve_cases c db) as [[-> _]|H].
  - exists []. rewrite app_nil_r. split; [reflexivity | cbn; lia].
  - apply commits_audit in H. destruct H as [_ [_ [a [l [-> _]]]]].
    exists [a]. split; [reflexivity | cbn; lia].
Qed.

(** X22.  Whatever requests are made against the routes of
    [server_new.py], and whichever storage steps fail: the audit table
    only grows at its end, by at most one row per request, and a record
    that is in the table stays in it under its key with the submitter,
    the time of creation and the active flag it had. *)
Theorem history_is_kept cs db :
  Api.wf db ->
  (exists more,
      audit_logs (Api.after cs db) = audit_logs db ++ more
      /\ length more <= length cs)
  /\ (forall i r,
         Api.lookup i db = Some r ->
         exists r',
           Api.lookup i (Api.after cs db) = Some r'
           /\ CropTarget.submitted_by r' = CropTarget.submitted_by r
           /\ CropTarget.created_at r' = CropTarget.created_at r
           /\ CropTarget.is_active r' = CropTarget.is_active r).
Proof.
  revert db. induction cs as [|c cs IH]; intros db Hwf.
  - split.
    + exists []. rewrite app_nil_r. split; [reflexivity | cbn; lia].
    + intros i r H. exists r. now repeat split.
  - cbn [Api.after fold_left]. fold (Api.after cs (snd (Api.serve c db))).
    destruct (IH _ (serve_wf c Hwf)) as [[more [Hm Hlen]] Hrows].
    split.
    + destruct (serve_audit_grows c db) as [m1 [H1 Hl1]].
      exists (m1 ++ more). rewrite Hm, H1, <- app_assoc.
      split; [reflexivity|]. rewrite length_app. cbn. lia.
    + intros i r Hl.
      assert (Hstep : exists r1, Api.lookup i (snd (Api.serve c db)) = Some r1
                                 /\ same_origin r r1).
      { destruct (serve_cases c db) as [[-> _]|H].
        - exists r. split; [exact Hl | now repeat split].
        - eapply commits_same_origin; eassumption. }
      destruct Hstep as [r1 [Hl1 [A1 [A2 A3]]]].
      destruct (Hrows i r1 Hl1) as [r' [Hl' [B1 [B2 B3]]]].
      exists r'. split; [exact Hl'|]. split; [|split]; congruence.
Qed.

Lemma history_is_kept_witness :
  exists r',
    Api.lookup 1 (Api.after Scenario.retries Scenario.submitted) = Some r'
    /\ CropTarget.submitted_by r' = 7.
Proof.
  assert (Hwf : Api.wf Scenario.submitted).
  { unfold Api.wf. vm_compute. repeat constructor. intros []. }
  destruct (@history_is_kept Scenario.retries Scenario.submitted Hwf)
    as [_ H].
  destruct (Api.lookup 1 Scenario.submitted) as [r|] eqn:E;
    [|vm_compute in E; discriminate].
  destruct (H 1 r E) as [r' [H1 [H2 _]]].
  exists r'. split; [exact H1|]. rewrite H2.
  vm_compute in E. inversion E. reflexivity.
Defined.


(** * Further properties of the Flask stack *)











(** ** Creating, deleting and editing in [vo/services.py] *)

Lemma fsetattr_submitted_at r k v r' :
  Flask.CropTarget.setattr r k v = Some r' -> k <> "submitted_at" ->
  Flask.CropTarget.submitted_at r' = Flask.CropTarget.submitted_at r.
Proof. unfold Flask.CropTarget.setattr; intros H Hk; fsetattr_cases H v. Qed.

Lemma load_fields_absent spec json d k :
  Flask.load_fields spec json = Some d ->
  dict_get k json = None -> dict_get k d = None.
Proof.
  revert d; induction spec as [|[k0 req] spec IH]; cbn; intros d H Hk.
  - now inversion H.
  - destruct (dict_get k0 json) as [v0|] eqn:E.
    + destruct (Flask.check_vo k0 v0); [|discriminate].
      destruct (Flask.load_fields spec json) as [d'|]; [|discriminate].
      inversion H; subst. cbn.
      destruct (String.eqb_spec k k0) as [->|_]; [congruence|].
      now apply IH.
    + destruct req; [discriminate|]. now apply IH.
Qed.

Lemma dict_get_app_none k (d1 d2 : dict) :
  dict_get k d1 = None -> dict_get k (d1 ++ d2) = dict_get k d2.
Proof.
  induction d1 as [|[k' v'] d1 IH]; cbn; [reflexivity|].
  destruct (String.eqb k k'); [discriminate | exact IH].
Qed.

Lemma vo_create_default json s data :
  Flask.VOCreateSchema.load json s = (Ok data, s) ->
  dict_get "status" json = None ->
  dict_get "status" data = Some (VStr "draft").
Proof.
  unfold Flask.VOCreateSchema.load, ret, raise.
  destruct (Flask.known _ json); [|discriminate].
  destruct (Flask.load_fields _ json) as [d|] eqn:Hl; [|discriminate].
  intros H Hj.
  pose proof (@load_fields_absent _ json d "status" Hl Hj) as Hd.
  rewrite Hd in H. inversion H; subst.
  now rewrite dict_get_app_none.
Qed.

Lemma vo_create_kw_row e data u r :
  (forall k, In k (map fst data) ->
             In k (map fst Flask.VOCreateSchema.fields)) ->
  Flask.CropTarget.init (new_id e) (now e) (FlaskApi.create_kw e data u)
  = Some r ->
  forall st, dict_get "status" data = Some (VStr st) ->
  Flask.CropTarget.submitted_by r = u
  /\ Flask.CropTarget.status r = st
  /\ Flask.CropTarget.submitted_at r
     = if String.eqb st "submitted" then Some (now e) else None.
Proof.
  intros Hkeys. unfold Flask.CropTarget.init.
  destruct (forallb _ _); [|discriminate].
  unfold FlaskApi.create_kw. rewrite fset_all_app.
  set (l1 := filter _ data).
  destruct (Flask.CropTarget.set_all _ l1) as [r1|] eqn:H1; [|discriminate].
  intros H st Hst. rewrite Hst in H. cbn [value_eqb] in H.
  cbn [Flask.CropTarget.set_all] in H.
  destruct (String.eqb st "submitted"); cbn in H; inversion H; subst; cbn;
    repeat split.
Qed.

(** X24.  [VOService.create_crop_target] on data that [VOCreateSchema]
    loaded, for a row the table accepts: the record is stored at the end
    of the table with the caller as its submitter; its status is the one
    of the request, [draft] when the request names none; the submission
    time is set exactly when the status is [submitted]; the answer
    carries the key and the status; the audit table is not touched. *)
Theorem vo_create_row e json data uid f db r :
  Flask.VOCreateSchema.load json (mkSession db db f)
  = (Ok data, mkSession db db f) ->
  Flask.CropTarget.init (new_id e) (now e) (FlaskApi.create_kw e data uid)
  = Some r ->
  FlaskApi.lookup (Flask.CropTarget.id r) db = None ->
  f AtCommit = false ->
  run (Flask.VOService.create_crop_target e data uid) f db
  = (Ok [("id", VUuid (Flask.CropTarget.id r));
         ("status", VStr (Flask.CropTarget.status r))],
     Flask.mkFDB (Flask.targets db ++ [r]) (Flask.audit_trail db))
  /\ Flask.CropTarget.submitted_by r = uid
  /\ ((Flask.CropTarget.status r = "draft"
       /\ Flask.CropTarget.submitted_at r = None)
      \/ (Flask.CropTarget.status r = "submitted"
          /\ Flask.CropTarget.submitted_at r = Some (now e)))
  /\ (dict_get "status" json = None -> Flask.CropTarget.status r = "draft").
Proof.
  intros Hload Hinit Hfresh Hc.
  destruct (@vo_create_loaded json _ data Hload) as [Hkeys Hst].
  split.
  - assert (Hex : existsb (fun x => Nat.eqb (Flask.CropTarget.id x)
                                      (Flask.CropTarget.id r))
                          (Flask.targets db) = false).
    { unfold FlaskApi.lookup in Hfresh.
      destruct (existsb _ _) eqn:E; [|reflexivity].
      apply existsb_exists in E. destruct E as [x [Hin Hx]].
      apply (find_none _ _ Hfresh) in Hin. congruence. }
    unfold Flask.VOService.create_crop_target.
    unfold FlaskApi.create_kw in Hinit. cbv zeta in Hinit |- *.
    rewrite Hinit. unfold_flask. rewrite Hex. unfold_flask.
    rewrite Hc. reflexivity.
  - destruct Hst as [Hst|Hst];
      destruct (@vo_create_kw_row e data uid r Hkeys Hinit _ Hst)
        as [H1 [H2 H3]]; cbn in H3.
    + split; [exact H1|]. split; [left; now split | now intros _].
    + split; [exact H1|]. split; [right; now split|].
      intros Hj. pose proof (@vo_create_default json _ data Hload Hj).
      congruence.
Qed.

Lemma vo_create_row_witness :
  exists r,
    run (Flask.VOService.create_crop_target
           (mkEnv 10 1 0) (Scenario.rice_json ++ [("status", VStr "draft")])
           7)
        no_fault Scenario.fempty
    = (Ok [("id", VUuid 1); ("status", VStr "draft")],
       Flask.mkFDB [r] [])
    /\ Flask.CropTarget.submitted_by r = 7.
Proof.
  destruct (Flask.CropTarget.init
              1 10 (FlaskApi.create_kw
                      (mkEnv 10 1 0)
                      (Scenario.rice_json ++ [("status", VStr "draft")]) 7))
    as [r|] eqn:E; [|vm_compute in E; discriminate].
  assert (Hid : Flask.CropTarget.id r = 1)
    by (vm_compute in E; inversion E; reflexivity).
  assert (Hst : Flask.CropTarget.status r = "draft")
    by (vm_compute in E; inversion E; reflexivity).
  destruct (@vo_create_row (mkEnv 10 1 0) Scenario.rice_json
              (Scenario.rice_json ++ [("status", VStr "draft")]) 7 no_fault
              Scenario.fempty r eq_refl E
              ltac:(rewrite Hid; reflexivity) eq_refl) as [H1 [H2 _]].
  exists r. rewrite Hid, Hst in H1. split; [exact H1 | exact H2].
Defined.

Lemma find_after_delete i (q : Flask.CropTarget.t -> bool) l :
  find (fun r => Nat.eqb (Flask.CropTarget.id r) i && q r)
       (filter (fun x => negb (Nat.eqb (Flask.CropTarget.id x) i)) l)
  = None.
Proof.
  induction l as [|x l IH]; [reflexivity|]. cbn.
  destruct (Nat.eqb (Flask.CropTarget.id x) i) eqn:E; cbn; [exact IH|].
  rewrite E. exact IH.
Qed.

Lemma lookup_after_delete i (l : list Flask.CropTarget.t) :
  find (fun r => Nat.eqb (Flask.CropTarget.id r) i)
       (filter (fun x => negb (Nat.eqb (Flask.CropTarget.id x) i)) l)
  = None.
Proof.
  induction l as [|x l IH]; [reflexivity|]. cbn.
  destruct (Nat.eqb (Flask.CropTarget.id x) i) eqn:E; cbn; [exact IH|].
  rewrite E. exact IH.
Qed.

Lemma find_other_after_delete i j (l : list Flask.CropTarget.t) :
  j <> i ->
  find (fun r => Nat.eqb (Flask.CropTarget.id r) j)
       (filter (fun x => negb (Nat.eqb (Flask.CropTarget.id x) i)) l)
  = find (fun r => Nat.eqb (Flask.CropTarget.id r) j) l.
Proof.
  intros Hj. induction l as [|x l IH]; [reflexivity|]. cbn.
  destruct (Nat.eqb_spec (Flask.CropTarget.id x) i) as [E|E]; cbn.
  - destruct (Nat.eqb_spec (Flask.CropTarget.id x) j); [congruence|].
    exact IH.
  - destruct (Nat.eqb (Flask.CropTarget.id x) j); [reflexivity|].
    exact IH.
Qed.

(** X25.  [VOService.delete_crop_target] removes the row for good.  When
    the caller owns the record and the model lets it be deleted, the key
    names nothing afterwards, asking for the record raises "Crop target
    not found", and no other record and no audit row is touched.  When the
    model does not let it be deleted the call raises and nothing
    changes. *)
Theorem delete_then_gone can_delete i uid f db old :
  FlaskApi.wf db ->
  FlaskApi.lookup i db = Some old ->
  Flask.CropTarget.submitted_by old = uid ->
  (can_delete old = false ->
   run (Flask.VOService.delete_crop_target can_delete i uid) f db
   = (Raise (ValueError "Cannot delete this crop target"), db))
  /\ (can_delete old = true -> f AtCommit = false ->
      exists db',
        run (Flask.VOService.delete_crop_target can_delete i uid) f db
        = (Ok tt, db')
        /\ FlaskApi.lookup i db' = None
        /\ (forall j, j <> i -> FlaskApi.lookup j db' = FlaskApi.lookup j db)
        /\ Flask.audit_trail db' = Flask.audit_trail db
        /\ run (Flask.VOService.get_crop_target_by_id i uid) f db'
           = (Raise (ValueError "Crop target not found"), db')).
Proof.
  intros Hwf Hl Hown.
  assert (Hf : find (fun r => Nat.eqb (Flask.CropTarget.id r) i
                              && Nat.eqb (Flask.CropTarget.submitted_by r) uid)
                    (Flask.targets db) = Some old).
  { rewrite (ffind_owner i uid Hwf), Hl, Hown, Nat.eqb_refl. reflexivity. }
  destruct (@flookup_in i db old Hl) as [_ Hid].
  split.
  - intros Hcd. unfold Flask.VOService.delete_crop_target,
                  Flask.VOService.get_crop_target_by_id.
    unfold_flask. rewrite Hf. unfold_flask. rewrite Hcd. reflexivity.
  - intros Hcd Hc. eexists. split.
    + unfold Flask.VOService.delete_crop_target,
        Flask.VOService.get_crop_target_by_id.
      unfold_flask. rewrite Hf. unfold_flask. rewrite Hcd. unfold_flask.
      rewrite Hc. reflexivity.
    + split; [|split; [|split]].
      * unfold FlaskApi.lookup. cbn [Flask.targets]. rewrite Hid.
        apply lookup_after_delete.
      * intros j Hj. unfold FlaskApi.lookup. cbn [Flask.targets].
        rewrite Hid. now apply find_other_after_delete.
      * reflexivity.
      * unfold Flask.VOService.get_crop_target_by_id. unfold_flask.
        cbn [Flask.targets]. rewrite Hid. now rewrite find_after_delete.
Qed.

Lemma delete_then_gone_witness :
  exists db',
    run (Flask.VOService.delete_crop_target Scenario.editable 1 7)
        no_fault Scenario.fdrafted
    = (Ok tt, db')
    /\ FlaskApi.lookup 1 db' = None.
Proof.
  assert (Hwf : FlaskApi.wf Scenario.fdrafted).
  { unfold FlaskApi.wf. vm_compute. repeat constructor. intros []. }
  destruct (FlaskApi.lookup 1 Scenario.fdrafted) as [old|] eqn:E;
    [|vm_compute in E; discriminate].
  assert (Hown : Flask.CropTarget.submitted_by old = 7)
    by (vm_compute in E; inversion E; reflexivity).
  assert (Hcd : Scenario.editable old = true)
    by (vm_compute in E; inversion E; reflexivity).
  destruct (@delete_then_gone Scenario.editable 1 7 no_fault
              Scenario.fdrafted old Hwf E Hown) as [_ H].
  destruct (H Hcd eq_refl) as [db' [H1 [H2 _]]].
  exists db'. split; assumption.
Defined.

Lemma same_columns_fcomments a b :
  Flask.CropTarget.same_columns a b = true ->
  Flask.CropTarget.rejection_comments a
  = Flask.CropTarget.rejection_comments b.
Proof.
  unfold Flask.CropTarget.same_columns. intros H.
  rewrite forallb_forall in H.
  specialize (H "rejection_comments"). cbn in H.
  assert (Hin : value_eqb
                  (of_opt VStr (Flask.CropTarget.rejection_comments a))
                  (of_opt VStr (Flask.CropTarget.rejection_comments b))
                = true).
  { apply H. cbn. tauto. }
  destruct (Flask.CropTarget.rejection_comments a),
    (Flask.CropTarget.rejection_comments b);
    cbn in Hin; try discriminate; [|reflexivity].
  apply String.eqb_eq in Hin. now subst.
Qed.

(** X26.  Editing a rejected record does not take it out of the rejected
    state, but it does take its rejection comments away.  When the model
    lets the owner edit a rejected record and the data leave the key and
    the status alone, [VOService.update_crop_target] goes through and the
    record is afterwards still [rejected], without comments. *)
Theorem update_of_rejected_clears_comments
        can_edit e i data uid f db old changed :
  FlaskApi.wf db ->
  FlaskApi.lookup i db = Some old ->
  Flask.CropTarget.submitted_by old = uid ->
  can_edit old = true ->
  Flask.CropTarget.status old = "rejected" ->
  ~ In "status" (map fst data) -> ~ In "id" (map fst data) ->
  Flask.VOService.assign old data = Some changed ->
  f AtCommit = false ->
  exists r db',
    run (Flask.VOService.update_crop_target can_edit e i data uid) f db
    = (Ok [("id", VUuid i)], db')
    /\ FlaskApi.lookup i db' = Some r
    /\ Flask.CropTarget.status r = "rejected"
    /\ Flask.CropTarget.rejection_comments r = None.
Proof.
  intros Hwf Hl Hown Hce Hst Hk1 Hk2 Hasg Hc.
  assert (Hf : find (fun r => Nat.eqb (Flask.CropTarget.id r) i
                              && Nat.eqb (Flask.CropTarget.submitted_by r) uid)
                    (Flask.targets db) = Some old).
  { rewrite (ffind_owner i uid Hwf), Hl, Hown, Nat.eqb_refl. reflexivity. }
  destruct (@flookup_in i db old Hl) as [_ Hid].
  assert (Hst' : Flask.CropTarget.status changed = "rejected").
  { rewrite (fassign_keeps Flask.CropTarget.status fsetattr_status _ _ Hasg);
      assumption. }
  assert (Hid' : Flask.CropTarget.id changed = i).
  { rewrite (fassign_keeps Flask.CropTarget.id fsetattr_id _ _ Hasg);
      assumption. }
  set (new_ := Flask.CropTarget.set_rejection_comments None changed).
  assert (Hl' : FlaskApi.lookup
                  i (Flask.mkFDB (FlaskApi.rewritten e old new_
                                                     (Flask.targets db))
                                 (Flask.audit_trail db))
                = Some (if Flask.CropTarget.same_columns old new_ then old
                        else Flask.CropTarget.set_updated_at (now e) new_)).
  { rewrite flookup_rewritten by (cbn; congruence).
    rewrite Hl. destruct (Flask.CropTarget.same_columns old new_);
      [reflexivity|]. cbn. rewrite Hid, Nat.eqb_refl. reflexivity. }
  exists (if Flask.CropTarget.same_columns old new_ then old
          else Flask.CropTarget.set_updated_at (now e) new_).
  eexists. split; [|split; [exact Hl'|]].
  - unfold Flask.VOService.update_crop_target,
      Flask.VOService.get_crop_target_by_id.
    unfold_flask. rewrite Hf. unfold_flask. rewrite Hce. unfold_flask.
    rewrite Hasg. unfold_flask. rewrite Hst'.
    cbn [String.eqb Ascii.eqb Bool.eqb]. fold new_.
    unfold FlaskApi.rewritten.
    destruct (Flask.CropTarget.same_columns old new_); unfold_flask;
      rewrite Hc; cbn [Flask.CropTarget.id Flask.CropTarget.set_rejection_comments new_];
      unfold new_; cbn [Flask.CropTarget.id Flask.CropTarget.set_rejection_comments];
      rewrite Hid'; destruct db; reflexivity.
  - destruct (Flask.CropTarget.same_columns old new_) eqn:Hs.
    + split; [exact Hst|]. now rewrite (same_columns_fcomments _ _ Hs).
    + split; [exact Hst' | reflexivity].
Qed.

Lemma update_of_rejected_clears_comments_witness :
  exists r db',
    run (Flask.VOService.update_crop_target
           (fun _ => true) (mkEnv 50 1 0) 1 [("village", VStr "Kesnand")] 7)
        no_fault Scenario.frejected
    = (Ok [("id", VUuid 1)], db')
    /\ FlaskApi.lookup 1 db' = Some r
    /\ Flask.CropTarget.status r = "rejected"
    /\ Flask.CropTarget.rejection_comments r = None.
Proof.
  assert (Hwf : FlaskApi.wf Scenario.frejected).
  { unfold FlaskApi.wf. vm_compute. repeat constructor. intros []. }
  destruct (FlaskApi.lookup 1 Scenario.frejected) as [old|] eqn:E;
    [|vm_compute in E; discriminate].
  assert (Hown : Flask.CropTarget.submitted_by old = 7)
    by (vm_compute in E; inversion E; reflexivity).
  assert (Hst : Flask.CropTarget.status old = "rejected")
    by (vm_compute in E; inversion E; reflexivity).
  assert (Hasg : Flask.VOService.assign old [("village", VStr "Kesnand")]
                 = Some (Flask.CropTarget.set_village "Kesnand" old))
    by reflexivity.
  exact (@update_of_rejected_clears_comments
           (fun _ => true) (mkEnv 50 1 0) 1 [("village", VStr "Kesnand")] 7
           no_fault Scenario.frejected old
           (Flask.CropTarget.set_village "Kesnand" old)
           Hwf E Hown eq_refl Hst
           ltac:(cbn; intuition discriminate)
           ltac:(cbn; intuition discriminate) Hasg eq_refl).
Defined.

(** ** The schemas ([vo/schemas.py], [bo/schemas.py]) *)



Lemma known_unknown allowed json k :
  In k (map fst json) -> ~ In k allowed -> Flask.known allowed json = false.
Proof.
  intros Hin Hno. unfold Flask.known.
  destruct (forallb _ json) eqn:E; [|reflexivity].
  rewrite forallb_forall in E.
  apply in_map_iff in Hin. destruct Hin as [[k' v] [<- Hin]].
  apply E in Hin. apply existsb_exists in Hin.
  destruct Hin as [x [Hx Hk]]. apply String.eqb_eq in Hk. cbn in Hk.
  subst. contradiction.
Qed.






(** ** The listings of the Flask stack *)

Lemma flask_apply_filters_in fs : forall (l : list Flask.CropTarget.t) r,
  In r (Flask.apply_filters fs l) -> In r l.
Proof.
  induction fs as [|[k v] fs IH]; intros l r H; [exact H|].
  cbn [Flask.apply_filters] in H.
  destruct (CropTargetService.truthy (Some v) && _).
  - apply IH in H. now apply filter_In in H.
  - now apply IH.
Qed.

Lemma newest_first_sorted (l : list Flask.CropTarget.t) :
  StronglySorted
    (fun a b => Flask.CropTarget.created_at b <= Flask.CropTarget.created_at a)
    (Flask.newest_first l).
Proof.
  unfold Flask.newest_first.
  eapply strongly_sorted_impl;
    [| apply sort_by_sorted with
         (le := desc (fun r => VTime (Flask.CropTarget.created_at r)))].
  - intros a b H. unfold desc in H. cbn in H. now apply Nat.leb_le in H.
  - intros a b H. unfold desc in *. cbn in *.
    apply Nat.leb_gt in H. apply Nat.leb_le. lia.
  - intros a b c H1 H2. unfold desc in *. cbn in *.
    apply Nat.leb_le in H1, H2. apply Nat.leb_le. lia.
Qed.

(** X28.  The two listings of the Flask stack.  [get_my_submissions_query]
    gives records of the table that the caller submitted, and with no
    filter all of them; [get_pending_query] gives records of the table
    whose status is [submitted], and with no filter all of them.  Both
    come newest first and change nothing. *)
Theorem flask_listings_sound uid filters (s : Session Flask.FDB) :
  (exists res,
      Flask.VOService.get_my_submissions_query uid filters s = (Ok res, s)
      /\ (forall r, In r res ->
                    In r (Flask.targets (working s))
                    /\ Flask.CropTarget.submitted_by r = uid)
      /\ (filters = [] ->
          forall r, In r (Flask.targets (working s)) ->
                    Flask.CropTarget.submitted_by r = uid -> In r res)
      /\ StronglySorted
           (fun a b => Flask.CropTarget.created_at b
                       <= Flask.CropTarget.created_at a) res)
  /\ (exists res,
         Flask.BOService.get_pending_query filters s = (Ok res, s)
         /\ (forall r, In r res ->
                       In r (Flask.targets (working s))
                       /\ Flask.CropTarget.status r = "submitted")
         /\ (filters = [] ->
             forall r, In r (Flask.targets (working s)) ->
                       Flask.CropTarget.status r = "submitted" -> In r res)
         /\ StronglySorted
              (fun a b => Flask.CropTarget.created_at b
                          <= Flask.CropTarget.created_at a) res).
Proof.
  split.
  - unfold Flask.VOService.get_my_submissions_query, Flask.rows, bind,
      get_working, ret.
    eexists. split; [reflexivity|]. split; [|split].
    + intros r Hr. unfold Flask.newest_first in Hr.
      apply (Permutation_in _ (sort_by_perm _ _)) in Hr.
      apply flask_apply_filters_in, filter_In in Hr.
      destruct Hr as [Hr Hb]. now apply Nat.eqb_eq in Hb.
    + intros -> r Hr Hu. unfold Flask.newest_first.
      apply (Permutation_in _ (Permutation_sym (sort_by_perm _ _))).
      cbn [Flask.apply_filters]. apply filter_In.
      split; [exact Hr | now apply Nat.eqb_eq].
    + apply newest_first_sorted.
  - unfold Flask.BOService.get_pending_query, Flask.rows, bind,
      get_working, ret.
    eexists. split; [reflexivity|]. split; [|split].
    + intros r Hr. unfold Flask.newest_first in Hr.
      apply (Permutation_in _ (sort_by_perm _ _)) in Hr.
      apply flask_apply_filters_in, filter_In in Hr.
      destruct Hr as [Hr Hb]. now apply String.eqb_eq in Hb.
    + intros -> r Hr Hu. unfold Flask.newest_first.
      apply (Permutation_in _ (Permutation_sym (sort_by_perm _ _))).
      cbn [Flask.apply_filters]. apply filter_In.
      split; [exact Hr | now apply String.eqb_eq].
    + apply newest_first_sorted.
Qed.

(** ** Rejection in [CropTargetService] *)

(** X29.  [reject_target] acts on an active record that is pending and on
    no other: otherwise it returns [None] and changes nothing.  On a
    pending record, with the storage working, it stores the reason it is
    given as it is (the service itself does not ask for it to be there),
    sets the status to [rejected], and records the officer and the time in
    [approved_by] and [approved_at]; no other column changes but
    [updated_at]; one REJECT audit row is written, holding the status
    before and the new status with the reason. *)
Theorem reject_target_spec e i uid reason f db :
  Api.wf db ->
  (match Api.find_active i db with
   | Some old => CropTarget.is_pending_approval old = false
   | None => True
   end ->
   run (CropTargetService.reject_target e i uid reason) f db = (Ok None, db))
  /\ (forall old,
         Api.find_active i db = Some old ->
         CropTarget.is_pending_approval old = true ->
         f AtAudit = false -> f AtCommit = false -> f AtRefresh = false ->
         exists r a db',
           run (CropTargetService.reject_target e i uid reason) f db
           = (Ok (Some r), db')
           /\ Api.lookup i db' = Some r
           /\ CropTarget.status r = "rejected"
           /\ CropTarget.rejection_reason r = Some reason
           /\ CropTarget.approved_by r = Some uid
           /\ CropTarget.approved_at r = Some (now e)
           /\ (forall c,
                  ~ In c ["status"; "rejection_reason"; "approved_by";
                          "approved_at"; "updated_at"] ->
                  CropTarget.getattr r c = CropTarget.getattr old c)
           /\ audit_logs db' = audit_logs db ++ [a]
           /\ AuditLog.action a = "REJECT"
           /\ AuditLog.user_id a = Some uid
           /\ AuditLog.resource_id a = Some i
           /\ AuditLog.old_values a
              = Some [("status", VStr (CropTarget.status old))]
           /\ AuditLog.new_values a
              = Some [("status", VStr "rejected");
                      ("rejection_reason", VStr reason)]).
Proof.
  intros Hwf. split.
  - unfold Api.find_active, CropTargetService.reject_target, BaseService.get.
    unfold_session.
    destruct (find _ (crop_targets db)) as [old|]; [|reflexivity].
    now intros ->.
  - intros old Hf Hp Ha Hc Hr.
    pose proof (find_active_id _ _ Hf) as Hid.
    pose proof (reject_changes_row (now e) uid reason old Hp) as Hs.
    assert (Hl := @lookup_after_rewrite e old
                    (CropTarget.reject (now e) uid reason old) db
                    (audit_logs db) Hwf (find_active_self _ _ Hf)
                    eq_refl Hs).
    assert (Hl' := Hl).
    unfold Api.lookup, Api.rewritten in Hl. rewrite Hs in Hl.
    cbn [crop_targets] in Hl.
    exists (CropTarget.set_updated_at
              (now e) (CropTarget.reject (now e) uid reason old)).
    eexists. eexists. split.
    { revert Hf. unfold Api.find_active, CropTargetService.reject_target,
                   BaseService.get.
      unfold_session. intros ->. rewrite Hp. unfold_session.
      rewrite Hs. unfold_session. rewrite Ha. unfold_session.
      rewrite Hc. unfold_session. rewrite Hr. unfold_session.
      rewrite reject_id. cbn [crop_targets audit_logs]. rewrite Hl.
      reflexivity. }
    split.
    { rewrite <- Hid. unfold Api.lookup. cbn [crop_targets]. exact Hl. }
    split; [reflexivity|]. split; [reflexivity|]. split; [reflexivity|].
    split; [reflexivity|].
    split.
    { intros c Hc'. unfold CropTarget.getattr.
      destruct (String.eqb_spec c "updated_at");
        [subst; exfalso; apply Hc'; cbn; tauto|].
      destruct (String.eqb_spec c "status");
        [subst; exfalso; apply Hc'; cbn; tauto|].
      destruct (String.eqb_spec c "approved_by");
        [subst; exfalso; apply Hc'; cbn; tauto|].
      destruct (String.eqb_spec c "approved_at");
        [subst; exfalso; apply Hc'; cbn; tauto|].
      destruct (String.eqb_spec c "rejection_reason");
        [subst; exfalso; apply Hc'; cbn; tauto|].
      reflexivity. }
    cbn [audit_logs AuditLog.action AuditLog.user_id AuditLog.resource_id
         AuditLog.old_values AuditLog.new_values AuditLog.new].
    rewrite ?reject_id, ?Hid.
    split; [reflexivity|]. split; [reflexivity|]. split; [reflexivity|].
    split; [reflexivity|]. split; reflexivity.
Qed.

Lemma reject_target_spec_witness :
  exists r db',
    run (CropTargetService.reject_target (mkEnv 30 1 102) 1 9 "late")
        no_fault Scenario.submitted
    = (Ok (Some r), db')
    /\ CropTarget.status r = "rejected"
    /\ CropTarget.approved_by r = Some 9.
Proof.
  assert (Hwf : Api.wf Scenario.submitted).
  { unfold Api.wf. vm_compute. repeat constructor. intros []. }
  destruct (@reject_target_spec (mkEnv 30 1 102) 1 9 "late" no_fault
              Scenario.submitted Hwf) as [_ H].
  destruct (Api.find_active 1 Scenario.submitted) as [old|] eqn:E;
    [|vm_compute in E; discriminate].
  assert (Hp : CropTarget.is_pending_approval old = true)
    by (vm_compute in E; inversion E; reflexivity).
  destruct (H old eq_refl Hp eq_refl eq_refl eq_refl)
    as [r [a [db' [H1 [_ [H3 [_ [H5 _]]]]]]]].
  exists r, db'. split; [exact H1|]. split; assumption.
Defined.

(** X30.  What [BOApprovalSchema] lets through: a status that is
    [approved] or [rejected] and, at most, rejection comments; comments of
    no more than 1000 characters; and with [rejected], comments that are
    there and not empty.  A request without a status, or with a field the
    schema does not know, is refused with [ValidationError].  Loading
    changes nothing. *)
Theorem bo_approval_schema_spec json (s : Session Flask.FDB) :
  (forall data,
      Flask.BOApprovalSchema.load json s = (Ok data, s) ->
      exists st,
        dict_get "status" data = Some (VStr st)
        /\ dict_get "status" json = Some (VStr st)
        /\ (st = "approved" \/ st = "rejected")
        /\ (forall k, In k (map fst data) ->
                      k = "status" \/ k = "rejection_comments")
        /\ (forall c, dict_get "rejection_comments" data = Some (VStr c) ->
                      String.length c <= 1000)
        /\ (st = "rejected" ->
            exists c, dict_get "rejection_comments" data = Some (VStr c)
                      /\ c <> ""))
  /\ (dict_get "status" json = None ->
      exists msg,
        Flask.BOApprovalSchema.load json s = (Raise (ValidationError msg), s))
  /\ (forall k, In k (map fst json) ->
                k <> "status" -> k <> "rejection_comments" ->
                Flask.BOApprovalSchema.load json s
                = (Raise (ValidationError "Unknown field."), s))
  /\ (forall o s', Flask.BOApprovalSchema.load json s = (o, s') -> s' = s).
Proof.
  unfold Flask.BOApprovalSchema.load, Flask.BOApprovalSchema.load_fields,
    Flask.BOApprovalSchema.validate_rejection, ret, raise.
  split; [|split; [|split]].
  - intros data.
    destruct (Flask.known _ json); [|discriminate].
    destruct (dict_get "status" json) as [[ |st| | | | | ]|];
      try discriminate.
    destruct (String.eqb_spec st "approved") as [->|Ha]; cbn [orb].
    + destruct (dict_get "rejection_comments" json) as [[ |c| | | | | ]|];
        try discriminate.
      * cbn. inversion 1; subst. exists "approved". cbn.
        split; [reflexivity|]. split; [reflexivity|]. split; [tauto|].
        split; [intros k Hk; intuition (subst; auto)|].
        split; [intros; discriminate | intros; discriminate].
      * destruct (len_between 0 1000 c) eqn:E; [|discriminate]. cbn.
        inversion 1; subst. exists "approved". cbn.
        split; [reflexivity|]. split; [reflexivity|]. split; [tauto|].
        split; [intros k Hk; intuition (subst; auto)|].
        split; [|intros; discriminate].
        intros c' Hc'. inversion Hc'; subst.
        unfold len_between in E. apply andb_true_iff in E.
        destruct E as [_ E]. now apply Nat.leb_le in E.
      * cbn. inversion 1; subst. exists "approved". cbn.
        split; [reflexivity|]. split; [reflexivity|]. split; [tauto|].
        split; [intros k Hk; intuition (subst; auto)|].
        split; [intros; discriminate | intros; discriminate].
    + destruct (String.eqb_spec st "rejected") as [->|Hr]; cbn [orb];
        [|discriminate].
      destruct (dict_get "rejection_comments" json) as [[ |c| | | | | ]|];
        try discriminate; try (cbn; discriminate).
      destruct (len_between 0 1000 c) eqn:E; [|discriminate]. cbn.
      destruct (String.eqb_spec c "") as [->|Hc]; cbn; [discriminate|].
      inversion 1; subst. exists "rejected". cbn.
      split; [reflexivity|]. split; [reflexivity|]. split; [tauto|].
      split; [intros k Hk; intuition (subst; auto)|]. split.
      * intros c' Hc'. inversion Hc'; subst.
        unfold len_between in E. apply andb_true_iff in E.
        destruct E as [_ E]. now apply Nat.leb_le in E.
      * intros _. exists c. now split.
  - intros ->. destruct (Flask.known _ json); eauto.
  - intros k Hin H1 H2.
    rewrite (@known_unknown ["status"; "rejection_comments"] json k Hin);
      [reflexivity|].
    cbn. intuition congruence.
  - intros o s'.
    destruct (Flask.known _ json); [|now inversion 1].
    destruct (dict_get "status" json) as [[ |st| | | | | ]|];
      try (now inversion 1).
    destruct (String.eqb st "approved" || String.eqb st "rejected");
      [|now inversion 1].
    destruct (dict_get "rejection_comments" json) as [[ |c| | | | | ]|];
      try (now inversion 1).
    + cbn. destruct (String.eqb st "rejected" && _); now inversion 1.
    + destruct (len_between 0 1000 c); [|now inversion 1].
      cbn. destruct (String.eqb st "rejected" && _); now inversion 1.
    + cbn. destruct (String.eqb st "rejected" && _); now inversion 1.
Qed.
